(** * Marketing-Pipeline: a shallow embedding of the Python sources

    The first part models the sources, in the layout of the repository:

    - [PyStr]       Python [str] values as lists of code points, with the
                    string methods the sources call;
    - [Float]       Python floats: binary64 arithmetic, [round] and [repr];
    - [Py]          the values that travel through the pipeline, the
                    exceptions, and the state and error monad of a run;
    - [Json]        [json.dump], [json.load] and the UTF-8 codec;
    - [Utils]       [src/utils.py];
    - [Config]      [config.py];
    - [CRM]         [src/crm_integration.py];
    - [ContentGen]  [src/content_generator.py];
    - [Perf]        [src/performance_analyzer.py];
    - [Main]        [main.py];
    - [Dashboard]   [dashboard/app.py].

    The second part states and proves the properties of the
    specification, one theorem per claim; the JSON round trip has a part
    of its own, and the last part proves further properties of the code.

    Every definition is executable.  What the interpreter or an external
    service supplies (the Unicode character database above ASCII, HTTP
    replies, random draws, the clock, the language model) is scripted in
    the world of the run; the interpreter's hash of a string is a
    parameter of the functions that call it. *)

From Stdlib Require Import List ZArith NArith QArith Qround Qabs Qpower Qfield.
From Stdlib Require Import DecimalN DecimalPos DecimalFacts.
From Stdlib Require Import Lia Lqa Bool Ascii String.
From stdpp Require Import base option list gmap.
Import ListNotations.

Set Warnings "-register-all".

(* ===================================================================== *)
(** * Python strings *)
(* ===================================================================== *)

Module PyStr.

(** A Python [str] is a sequence of Unicode code points. *)
Definition char := N.
Definition str := list char.

(** String literals of the sources are ASCII; [lit] reads one. *)
Definition lit (s : string) : str :=
  List.map N_of_ascii (list_ascii_of_string s).
Arguments lit s%_string.

Definition str_eqb (a b : str) : bool := bool_decide (a = b).

(** [str.isspace] on one code point: CPython's [_PyUnicode_IsWhitespace]. *)
Definition isspace (c : char) : bool :=
  ((9 <=? c) && (c <=? 13) || (28 <=? c) && (c <=? 32)
   || (c =? 133) || (c =? 160) || (c =? 5760)
   || (8192 <=? c) && (c <=? 8202)
   || (c =? 8232) || (c =? 8233) || (c =? 8239) || (c =? 8287)
   || (c =? 12288))%N.

(** [str.isalnum] on one code point.  On ASCII it is the digits and the
    letters; above ASCII it is a table of the Unicode database, which the
    sources do not contain: [ucd_alnum] stands for it. *)
Definition ascii_alnum (c : char) : bool :=
  ((48 <=? c) && (c <=? 57) || (65 <=? c) && (c <=? 90)
   || (97 <=? c) && (c <=? 122))%N.

Definition isalnum (ucd_alnum : char -> bool) (c : char) : bool :=
  if (c <? 128)%N then ascii_alnum c else ucd_alnum c.

Fixpoint dropwhile (p : char -> bool) (s : str) : str :=
  match s with
  | [] => []
  | c :: s' => if p c then dropwhile p s' else s
  end.

(** [s.lstrip()], [s.rstrip()], [s.strip()] with no argument. *)
Definition lstrip (s : str) : str := dropwhile isspace s.
Definition rstrip (s : str) : str := rev (dropwhile isspace (rev s)).
Definition strip (s : str) : str := rstrip (lstrip s).

(** [s.startswith(p)] and [s.endswith(p)]. *)
Fixpoint startswith (s p : str) {struct p} : bool :=
  match p, s with
  | [], _ => true
  | _ :: _, [] => false
  | a :: p', b :: s' => (a =? b)%N && startswith s' p'
  end.

Definition endswith (s p : str) : bool := startswith (rev s) (rev p).

(** [s.lower()], [s.upper()] and [s.capitalize()] on ASCII text, which is
    all the sources apply them to. *)
Definition lower_char (c : char) : char :=
  if ((65 <=? c) && (c <=? 90))%N then (c + 32)%N else c.
Definition upper_char (c : char) : char :=
  if ((97 <=? c) && (c <=? 122))%N then (c - 32)%N else c.
Definition lower (s : str) : str := List.map lower_char s.
Definition capitalize (s : str) : str :=
  match s with
  | [] => []
  | c :: r => upper_char c :: lower r
  end.

(** [s.split('/')[0]]. *)
Fixpoint before_slash (s : str) : str :=
  match s with
  | [] => []
  | c :: r => if (c =? 47)%N then [] else c :: before_slash r
  end.

(** [s[n:]] and [s[:-n]] for a literal [n > 0], [s[:n]] is [firstn n s]. *)
Definition slice_from (n : nat) (s : str) : str := skipn n s.
Definition slice_to_minus (n : nat) (s : str) : str :=
  firstn (length s - n) s.

End PyStr.

(* ===================================================================== *)
(** * Python floats *)
(* ===================================================================== *)

(** A Python float is an IEEE 754 binary64.  A finite one is modelled by
    the rational number it denotes, in lowest terms; an operation is the
    exact operation on rationals followed by rounding to the nearest
    binary64, ties to even, which is how IEEE 754 defines it.  Nothing the
    sources compute leaves the finite range, and the infinities and NaN
    are not modelled. *)
Module Float.

Definition pow2 (e : Z) : Q := Qpower 2 e.
Definition pow10 (e : Z) : Q := Qpower 10 e.

(** [floor (log2 x)] for [x > 0]. *)
Definition ilog2 (x : Q) : Z :=
  let d := (Z.log2 (Qnum x) - Z.log2 (Zpos (Qden x)))%Z in
  if Qle_bool (pow2 d) x then d else (d - 1)%Z.

(** The nearest integer, ties to even. *)
Definition rne (x : Q) : Z :=
  let f := Qfloor x in
  match Qcompare (x - inject_Z f) (1 # 2) with
  | Lt => f
  | Gt => (f + 1)%Z
  | Eq => if Z.even f then f else (f + 1)%Z
  end.

(** The nearest binary64: 53 significant bits, and no bit below
    [2^-1074] (the subnormal range). *)
Definition round64 (x : Q) : Q :=
  let e := Z.max (ilog2 (Qabs x) - 52) (-1074) in
  Qred (inject_Z (rne (x / pow2 e)) * pow2 e).

Definition fmul (x y : Q) : Q := round64 (x * y).
Definition fadd (x y : Q) : Q := round64 (x + y).
Definition fsub (x y : Q) : Q := round64 (x - y).

(** [float(n)] for an integer, and [int(x)] for a float (truncation). *)
Definition of_int (z : Z) : Q := round64 (inject_Z z).
Definition trunc (x : Q) : Z := Z.quot (Qnum x) (Zpos (Qden x)).

(** A decimal literal of the sources, e.g. [0.85] is [literal 85 100]. *)
Definition literal (n : Z) (d : positive) : Q := round64 (n # d).

(** [x < y] and [min(x, y)]: the built-in keeps its first argument unless
    the second is smaller. *)
Definition flt (x y : Q) : bool := negb (Qle_bool y x).
Definition fmin (x y : Q) : Q := if flt y x then y else x.

(** [round(x, n)]: the decimal with [n] places nearest to the exact value
    of [x], ties to even, read back as a float. *)
Definition round_ndigits (x : Q) (n : Z) : Q :=
  round64 (inject_Z (rne (x * pow10 n)) / pow10 n).

(** ** [repr(x)]: the shortest decimal that reads back as [x] *)

(** [floor (log10 x)] for [x > 0]. *)
Definition ilog10 (x : Q) : Z :=
  let g := (ilog2 x * 30103 / 100000)%Z in
  if Qle_bool (pow10 (g + 1)) x then (g + 1)%Z
  else if Qle_bool (pow10 g) x then g else (g - 1)%Z.

(** The decimal [m * 10^k] reads back as [x]. *)
Definition reads_back (x : Q) (m : Z) (k : Z) : bool :=
  Qeq_bool (round64 (inject_Z m * pow10 k)) x.

(** The decimal with [n] significant digits that reads back as [x], if
    there is one: it is one of the two that enclose [x]. *)
Definition candidate (x : Q) (n : Z) : option (Z * Z) :=
  let k := (ilog10 x + 1 - n)%Z in
  let lo := Qfloor (x / pow10 k) in
  let hi := (lo + 1)%Z in
  match reads_back x lo k, reads_back x hi k with
  | true, true =>
      if Qle_bool (x - inject_Z lo * pow10 k) (inject_Z hi * pow10 k - x)
      then Some (lo, k) else Some (hi, k)
  | true, false => Some (lo, k)
  | false, true => Some (hi, k)
  | false, false => None
  end.

(** The exact decimal expansion of a dyadic rational. *)
Definition exact_decimal (x : Q) : Z * Z :=
  let j := Z.log2 (Zpos (Qden x)) in
  ((Qnum x * 5 ^ j)%Z, (- j)%Z).

(** Tries 1, 2, ... significant digits.  Seventeen always suffice for a
    binary64, so the exact expansion at the end is never reached. *)
Fixpoint shortest_from (fuel : nat) (x : Q) (n : Z) : Z * Z :=
  match fuel with
  | O => exact_decimal x
  | S fuel' =>
      match candidate x n with
      | Some mk => mk
      | None => shortest_from fuel' x (n + 1)%Z
      end
  end.

(** Drops the trailing zeros of the digits. *)
Fixpoint strip_zeros (fuel : nat) (m k : Z) : Z * Z :=
  match fuel with
  | O => (m, k)
  | S fuel' =>
      if ((m mod 10 =? 0) && negb (m =? 0))%Z
      then strip_zeros fuel' (m / 10)%Z (k + 1)%Z
      else (m, k)
  end.

(** The digits and the exponent of [repr(x)], for [x > 0]. *)
Definition shortest (x : Q) : Z * Z :=
  let '(m, k) := shortest_from 17 x 1 in
  strip_zeros (Z.to_nat (Z.log2 m)) m k.

End Float.

(* ===================================================================== *)
(** * Python values, exceptions and the run's world *)
(* ===================================================================== *)

Module Py.
Import PyStr.

(** The values that travel through the pipeline: what [json] reads and
    writes.  A [dict] keeps its insertion order; its keys are strings.  A
    float is the rational it denotes (finite binary64 values only). *)
Inductive pyval :=
| VNone
| VBool (b : bool)
| VInt (z : Z)
| VFloat (x : Q)
| VStr (s : str)
| VList (l : list pyval)
| VDict (d : list (str * pyval)).

Definition dict := list (str * pyval).

(** [d.get(k)]: the value stored under [k], if any. *)
Fixpoint dict_get (d : dict) (k : str) : option pyval :=
  match d with
  | [] => None
  | (k', v) :: d' => if str_eqb k' k then Some v else dict_get d' k
  end.

(** [k in d]. *)
Definition dict_mem (d : dict) (k : str) : bool :=
  match dict_get d k with Some _ => true | None => false end.

(** [d[k] = v]: overwrite in place, or append a new key at the end. *)
Fixpoint dict_set (d : dict) (k : str) (v : pyval) : dict :=
  match d with
  | [] => [(k, v)]
  | (k', v') :: d' =>
      if str_eqb k' k then (k', v) :: d' else (k', v') :: dict_set d' k v
  end.

(** [list(d.keys())]. *)
Definition dict_keys (d : dict) : list str := List.map fst d.

Inductive exn :=
| KeyError (k : str)
| TypeError
| AttributeError
| ValueError
| UnicodeError
| JSONDecodeError
| FileNotFoundError.

Inductive result (A : Type) :=
| Ok (a : A)
| Raise (e : exn).
Arguments Ok {A} a.
Arguments Raise {A} e.

(** [v[k]] for a string key: only a dict can be subscripted by a string. *)
Definition getitem (v : pyval) (k : str) : result pyval :=
  match v with
  | VDict d => match dict_get d k with
               | Some x => Ok x
               | None => Raise (KeyError k)
               end
  | _ => Raise TypeError
  end.

(** [v.get(k, default)]: a method of dicts alone. *)
Definition get_default (v : pyval) (k : str) (default : pyval) : result pyval :=
  match v with
  | VDict d => Ok (match dict_get d k with Some x => x | None => default end)
  | _ => Raise AttributeError
  end.

(** [v.items()] and [v.keys()]. *)
Definition items (v : pyval) : result dict :=
  match v with VDict d => Ok d | _ => Raise AttributeError end.

(** Values that can be looked up in a dict: lists and dicts are unhashable. *)
Definition hashable (v : pyval) : bool :=
  match v with VList _ | VDict _ => false | _ => true end.

(** [str(n)] for an integer. *)
Fixpoint uint_chars (d : Decimal.uint) : str :=
  match d with
  | Decimal.Nil => []
  | Decimal.D0 d => 48%N :: uint_chars d
  | Decimal.D1 d => 49%N :: uint_chars d
  | Decimal.D2 d => 50%N :: uint_chars d
  | Decimal.D3 d => 51%N :: uint_chars d
  | Decimal.D4 d => 52%N :: uint_chars d
  | Decimal.D5 d => 53%N :: uint_chars d
  | Decimal.D6 d => 54%N :: uint_chars d
  | Decimal.D7 d => 55%N :: uint_chars d
  | Decimal.D8 d => 56%N :: uint_chars d
  | Decimal.D9 d => 57%N :: uint_chars d
  end.

Definition str_of_N (n : N) : str := uint_chars (N.to_uint n).

Definition str_of_Z (z : Z) : str :=
  if (z <? 0)%Z then 45%N :: str_of_N (Z.abs_N z) else str_of_N (Z.to_N z).

(** ** The world of one run

    Everything the process reads from outside is scripted: the replies to
    its successive HTTP requests, the raw values of the random generator,
    the successive readings of the clock and the texts the language model
    answers with.  Each script is indexed by a counter.  The interpreter
    contributes two tables that the sources do not contain: [str.isalnum]
    above ASCII and [repr] of a value. *)

(** A reply to [requests.get]/[requests.post]: a response with a status
    code and, if it parses as JSON, its body; or a transport failure. *)
Inductive reply :=
| Response (status : Z) (body : option pyval)
| NetworkError.

(** [datetime.now()], through the two formats the sources use. *)
Record datetime := { isoformat : str; strftime_id : str }.

Record world := mkWorld {
  env_hubspot_key : option str;      (* os.getenv('HUBSPOT_API_KEY') *)
  mock_mode : bool;                  (* the CRM client's [self.mock_mode] *)
  http : nat -> reply;  http_n : nat;
  rng : nat -> N;       rng_n : nat;
  clock : nat -> datetime; clock_n : nat;
  llm : nat -> option str; llm_n : nat;
  fs : gmap str (list N);            (* path |-> bytes *)
  running_pipelines : dict;          (* the dashboard's status table *)
  ucd_alnum : char -> bool;
  py_repr : pyval -> str
}.

(** Computations: a world in, a result or an exception and a world out. *)
Definition M (A : Type) : Type := world -> result A * world.

Definition ret {A} (a : A) : M A := fun w => (Ok a, w).
Definition raise {A} (e : exn) : M A := fun w => (Raise e, w).
Definition bind {A B} (m : M A) (k : A -> M B) : M B :=
  fun w => match m w with
           | (Ok a, w') => k a w'
           | (Raise e, w') => (Raise e, w')
           end.
Definition lift {A} (r : result A) : M A := fun w => (r, w).

(** [try: m except Exception as e: h e]. *)
Definition try_except {A} (m : M A) (h : exn -> M A) : M A :=
  fun w => match m w with
           | (Ok a, w') => (Ok a, w')
           | (Raise e, w') => h e w'
           end.

Definition set_mock_mode (b : bool) : M unit :=
  fun w => (Ok tt, mkWorld (env_hubspot_key w) b (http w) (http_n w)
                     (rng w) (rng_n w) (clock w) (clock_n w)
                     (llm w) (llm_n w) (fs w) (running_pipelines w)
                     (ucd_alnum w) (py_repr w)).

Definition get_mock_mode : M bool := fun w => (Ok (mock_mode w), w).

(** One HTTP request: the next reply of the script. *)
Definition http_request : M reply :=
  fun w => (Ok (http w (http_n w)),
            mkWorld (env_hubspot_key w) (mock_mode w) (http w) (S (http_n w))
              (rng w) (rng_n w) (clock w) (clock_n w)
              (llm w) (llm_n w) (fs w) (running_pipelines w)
              (ucd_alnum w) (py_repr w)).

(** One raw value of the generator. *)
Definition draw : M N :=
  fun w => (Ok (rng w (rng_n w)),
            mkWorld (env_hubspot_key w) (mock_mode w) (http w) (http_n w)
              (rng w) (S (rng_n w)) (clock w) (clock_n w)
              (llm w) (llm_n w) (fs w) (running_pipelines w)
              (ucd_alnum w) (py_repr w)).

(** [datetime.now()]. *)
Definition now : M datetime :=
  fun w => (Ok (clock w (clock_n w)),
            mkWorld (env_hubspot_key w) (mock_mode w) (http w) (http_n w)
              (rng w) (rng_n w) (clock w) (S (clock_n w))
              (llm w) (llm_n w) (fs w) (running_pipelines w)
              (ucd_alnum w) (py_repr w)).

(** One call to the language model, up to the text of its reply: the
    text, or [None] when the call or the access to the text raises. *)
Definition ask_llm : M (option str) :=
  fun w => (Ok (llm w (llm_n w)),
            mkWorld (env_hubspot_key w) (mock_mode w) (http w) (http_n w)
              (rng w) (rng_n w) (clock w) (clock_n w)
              (llm w) (S (llm_n w)) (fs w) (running_pipelines w)
              (ucd_alnum w) (py_repr w)).

Definition write_file (path : str) (bytes : list N) : M unit :=
  fun w => (Ok tt,
            mkWorld (env_hubspot_key w) (mock_mode w) (http w) (http_n w)
              (rng w) (rng_n w) (clock w) (clock_n w)
              (llm w) (llm_n w) (<[path := bytes]> (fs w)) (running_pipelines w)
              (ucd_alnum w) (py_repr w)).

Definition read_file (path : str) : M (list N) :=
  fun w => match fs w !! path with
           | Some b => (Ok b, w)
           | None => (Raise FileNotFoundError, w)
           end.

(** [os.path.exists(path)]. *)
Definition path_exists (path : str) : M bool :=
  fun w => (Ok (bool_decide (is_Some (fs w !! path))), w).

(** [running_pipelines[campaign_id] = status]. *)
Definition set_status (campaign_id : str) (status : pyval) : M unit :=
  fun w => (Ok tt,
            mkWorld (env_hubspot_key w) (mock_mode w) (http w) (http_n w)
              (rng w) (rng_n w) (clock w) (clock_n w)
              (llm w) (llm_n w) (fs w)
              (dict_set (running_pipelines w) campaign_id status)
              (ucd_alnum w) (py_repr w)).

Definition get_status (campaign_id : str) : M (option pyval) :=
  fun w => (Ok (dict_get (running_pipelines w) campaign_id), w).

(** [str(v)], as an f-string formats a value: a string is itself, any
    other value is its [repr]. *)
Definition str_of (v : pyval) : M str :=
  fun w => (Ok (match v with VStr s => s | _ => py_repr w v end), w).

Definition get_ucd_alnum : M (char -> bool) := fun w => (Ok (ucd_alnum w), w).

(** [random.randint(a, b)]: an integer of [a..b]; an empty range raises. *)
Definition randint (a b : Z) : M Z :=
  if (b <? a)%Z then raise ValueError
  else bind draw (fun r => ret (a + Z.of_N r mod (b - a + 1))%Z).

(** [for x in xs: body x], threading an accumulator. *)
Fixpoint for_each {A B} (xs : list A) (acc : B) (body : A -> B -> M B) : M B :=
  match xs with
  | [] => ret acc
  | x :: xs' => bind (body x acc) (fun acc' => for_each xs' acc' body)
  end.

End Py.

Notation "'let*' x ':=' m 'in' k" := (Py.bind m (fun x => k))
  (at level 10, x name, m at level 100, k at level 200).
Notation "'let*' ' p ':=' m 'in' k" := (Py.bind m (fun x => let 'p := x in k))
  (at level 10, p pattern, m at level 100, k at level 200).

(* ===================================================================== *)
(** * The [json] module and the UTF-8 codec *)
(* ===================================================================== *)

(** [json.dump(data, f, indent=2, ensure_ascii=False)] and [json.load(f)]
    on a file opened with [encoding='utf-8'], as the standard library
    documents them.  [NaN] and the infinities, which Python's [json] also
    reads and writes, are outside the value model. *)
Module Json.
Import PyStr Py.

(** ** Writing *)

Definition hex_digit (n : N) : char :=
  (if n <? 10 then 48 + n else 87 + n)%N.

(** [encode_basestring]: the quote, the backslash and the control
    characters are escaped, everything else is written as it is. *)
Definition escape_char (c : char) : str :=
  (if c =? 34 then [92; 34]
   else if c =? 92 then [92; 92]
   else if c =? 10 then [92; 110]
   else if c =? 13 then [92; 114]
   else if c =? 9 then [92; 116]
   else if c =? 8 then [92; 98]
   else if c =? 12 then [92; 102]
   else if c <? 32 then [92; 117; 48; 48; hex_digit (c / 16); hex_digit (c mod 16)]
   else [c])%N.

Definition encode_basestring (s : str) : str :=
  34%N :: flat_map escape_char s ++ [34%N].

(** [float.__repr__]. *)
Definition zeros (n : nat) : str := repeat 48%N n.

Definition exponent_repr (e : Z) : str :=
  let digits := str_of_N (Z.abs_N e) in
  (if (e <? 0)%Z then 45%N else 43%N)
    :: (if (length digits <? 2)%nat then 48%N :: digits else digits).

(** The digits [ds] with the decimal point after the first [decpt]. *)
Definition format_digits (ds : str) (decpt : Z) : str :=
  if ((decpt <=? -4) || (16 <? decpt))%Z then
    firstn 1 ds
      ++ (match skipn 1 ds with [] => [] | tl => 46%N :: tl end)
      ++ 101%N :: exponent_repr (decpt - 1)
  else if (decpt <=? 0)%Z then
    lit "0." ++ zeros (Z.to_nat (- decpt)) ++ ds
  else if (Z.of_nat (length ds) <=? decpt)%Z then
    ds ++ zeros (Z.to_nat decpt - length ds) ++ lit ".0"
  else
    firstn (Z.to_nat decpt) ds ++ 46%N :: skipn (Z.to_nat decpt) ds.

Definition float_repr (x : Q) : str :=
  if Qeq_bool x 0 then lit "0.0"
  else
    let '(m, k) := Float.shortest (Qabs x) in
    let ds := str_of_N (Z.to_N m) in
    (if Qle_bool 0 x then [] else [45%N])
      ++ format_digits ds (Z.of_nat (length ds) + k).

Definition newline_indent (level : nat) : str := 10%N :: repeat 32%N (2 * level).

(** The encoder, at a nesting level: items one per line, indented by two
    spaces per level, [","] between items and [": "] after a key. *)
Fixpoint dump (level : nat) (v : pyval) : str :=
  match v with
  | VNone => lit "null"
  | VBool true => lit "true"
  | VBool false => lit "false"
  | VInt z => str_of_Z z
  | VFloat x => float_repr x
  | VStr s => encode_basestring s
  | VList [] => lit "[]"
  | VList (x :: xs) =>
      lit "[" ++ newline_indent (S level) ++ dump (S level) x
        ++ (fix rest (l : list pyval) : str :=
              match l with
              | [] => []
              | y :: l' =>
                  lit "," ++ newline_indent (S level) ++ dump (S level) y ++ rest l'
              end) xs
        ++ newline_indent level ++ lit "]"
  | VDict [] => lit "{}"
  | VDict ((k, x) :: kvs) =>
      lit "{" ++ newline_indent (S level)
        ++ encode_basestring k ++ lit ": " ++ dump (S level) x
        ++ (fix rest (l : list (str * pyval)) : str :=
              match l with
              | [] => []
              | (k', y) :: l' =>
                  lit "," ++ newline_indent (S level)
                    ++ encode_basestring k' ++ lit ": " ++ dump (S level) y ++ rest l'
              end) kvs
        ++ newline_indent level ++ lit "}"
  end.

Definition dumps (v : pyval) : str := dump 0 v.

(** ** Reading *)

Definition is_ws (c : char) : bool :=
  ((c =? 32) || (c =? 9) || (c =? 10) || (c =? 13))%N.

Definition skip_ws (s : str) : str := dropwhile is_ws s.

Definition is_digit (c : char) : bool := ((48 <=? c) && (c <=? 57))%N.

Fixpoint take_digits (s : str) : str * str :=
  match s with
  | [] => ([], [])
  | c :: r =>
      if is_digit c then let '(d, r') := take_digits r in (c :: d, r')
      else ([], s)
  end.

Definition digits_value (ds : str) : N :=
  fold_left (fun acc c => acc * 10 + (c - 48))%N ds 0%N.

(** A number: an optional minus sign, an integer part without leading
    zero, an optional fraction (a point and digits) and an optional
    exponent (e or E, an optional sign, digits).  With a fraction or an
    exponent it is a float, the nearest to the decimal written; without,
    an integer. *)
Definition scan_sign (s : str) : bool * str :=
  match s with
  | 45%N :: r => (true, r)
  | _ => (false, s)
  end.

Definition scan_int (s : str) : option (str * str) :=
  match s with
  | [] => None
  | c :: r =>
      if is_digit c then
        Some (if (c =? 48)%N then ([48%N], r) else take_digits s)
      else None
  end.

Definition scan_frac (s : str) : str * str :=
  match s with
  | 46%N :: r =>
      match take_digits r with
      | ([], _) => ([], s)
      | (d, r') => (d, r')
      end
  | _ => ([], s)
  end.

Definition scan_exp (s : str) : option Z * str :=
  match s with
  | e :: r =>
      if ((e =? 101) || (e =? 69))%N then
        let '(eneg, r1) := match r with
                           | 45%N :: r' => (true, r')
                           | 43%N :: r' => (false, r')
                           | _ => (false, r)
                           end in
        match take_digits r1 with
        | ([], _) => (None, s)
        | (d, r2) =>
            (Some (if eneg then (- Z.of_N (digits_value d))%Z
                   else Z.of_N (digits_value d)), r2)
        end
      else (None, s)
  | [] => (None, s)
  end.

Definition decimal_value (neg : bool) (ip fp : str) (ex : option Z) : pyval :=
  let sign := if neg then (-1)%Z else 1%Z in
  match fp, ex with
  | [], None => VInt (sign * Z.of_N (digits_value ip))
  | _, _ =>
      let mant := (inject_Z (Z.of_N (digits_value ip))
                   + inject_Z (Z.of_N (digits_value fp))
                     / Float.pow10 (Z.of_nat (length fp)))%Q in
      let e := match ex with Some e => e | None => 0%Z end in
      VFloat (Float.round64 (inject_Z sign * mant * Float.pow10 e))
  end.

Definition scan_number (s : str) : option (pyval * str) :=
  let '(neg, s1) := scan_sign s in
  match scan_int s1 with
  | None => None
  | Some (ip, s2) =>
      let '(fp, s3) := scan_frac s2 in
      let '(ex, s4) := scan_exp s3 in
      Some (decimal_value neg ip fp ex, s4)
  end.

Definition hex_value (c : char) : option N :=
  (if (48 <=? c) && (c <=? 57) then Some (c - 48)
   else if (97 <=? c) && (c <=? 102) then Some (c - 87)
   else if (65 <=? c) && (c <=? 70) then Some (c - 55)
   else None)%N.

Definition hex4 (a b c d : char) : option N :=
  match hex_value a, hex_value b, hex_value c, hex_value d with
  | Some x, Some y, Some z, Some t => Some (((x * 16 + y) * 16 + z) * 16 + t)%N
  | _, _, _, _ => None
  end.

Definition unescape (c : char) : option char :=
  (if c =? 34 then Some 34
   else if c =? 92 then Some 92
   else if c =? 47 then Some 47
   else if c =? 98 then Some 8
   else if c =? 102 then Some 12
   else if c =? 110 then Some 10
   else if c =? 114 then Some 13
   else if c =? 116 then Some 9
   else None)%N.

(** The body of a string, after its opening quote (strict mode): up to
    the closing quote, with the escapes decoded and a surrogate pair of
    [\u] escapes joined. *)
Fixpoint scan_string (s : str) (acc : str) {struct s} : result (str * str) :=
  match s with
  | [] => Raise JSONDecodeError
  | c :: r =>
      if (c =? 34)%N then Ok (rev acc, r)
      else if (c =? 92)%N then
        match r with
        | [] => Raise JSONDecodeError
        | e :: r1 =>
            if (e =? 117)%N then
              match r1 with
              | h1 :: h2 :: h3 :: h4 :: r2 =>
                  match hex4 h1 h2 h3 h4 with
                  | None => Raise JSONDecodeError
                  | Some u =>
                      if ((55296 <=? u) && (u <=? 56319))%N then
                        match r2 with
                        | 92%N :: 117%N :: g1 :: g2 :: g3 :: g4 :: r3 =>
                            match hex4 g1 g2 g3 g4 with
                            | None => Raise JSONDecodeError
                            | Some u2 =>
                                if ((56320 <=? u2) && (u2 <=? 57343))%N
                                then scan_string r3
                                       ((65536 + (u - 55296) * 1024 + (u2 - 56320))%N :: acc)
                                else scan_string r2 (u :: acc)
                            end
                        | _ => scan_string r2 (u :: acc)
                        end
                      else scan_string r2 (u :: acc)
                  end
              | _ => Raise JSONDecodeError
              end
            else
              match unescape e with
              | Some c' => scan_string r1 (c' :: acc)
              | None => Raise JSONDecodeError
              end
        end
      else if (c <? 32)%N then Raise JSONDecodeError
      else scan_string r (c :: acc)
  end.

(** [dict(pairs)]: a repeated key keeps its first place and its last value. *)
Definition dict_of_pairs (pairs : list (str * pyval)) : dict :=
  fold_left (fun d kv => dict_set d (fst kv) (snd kv)) pairs [].

(** The scanner.  [fuel] bounds the recursion; the length of the text is
    always enough. *)
Fixpoint parse_value (fuel : nat) (s : str) {struct fuel} : result (pyval * str) :=
  match fuel with
  | O => Raise JSONDecodeError
  | S f =>
      match s with
      | [] => Raise JSONDecodeError
      | c :: r =>
          if (c =? 34)%N then
            match scan_string r [] with
            | Ok (k, r') => Ok (VStr k, r')
            | Raise e => Raise e
            end
          else if (c =? 123)%N then
            match skip_ws r with
            | 125%N :: r' => Ok (VDict [], r')
            | 34%N :: r' => parse_members f r' []
            | _ => Raise JSONDecodeError
            end
          else if (c =? 91)%N then
            match skip_ws r with
            | 93%N :: r' => Ok (VList [], r')
            | r' => parse_elems f r' []
            end
          else if startswith s (lit "null") then Ok (VNone, skipn 4 s)
          else if startswith s (lit "true") then Ok (VBool true, skipn 4 s)
          else if startswith s (lit "false") then Ok (VBool false, skipn 5 s)
          else
            match scan_number s with
            | Some vr => Ok vr
            | None => Raise JSONDecodeError
            end
      end
  end

(** The elements of an array, from the first character of an element. *)
with parse_elems (fuel : nat) (s : str) (acc : list pyval) {struct fuel}
  : result (pyval * str) :=
  match fuel with
  | O => Raise JSONDecodeError
  | S f =>
      match parse_value f s with
      | Raise e => Raise e
      | Ok (v, r) =>
          match skip_ws r with
          | 93%N :: r' => Ok (VList (rev (v :: acc)), r')
          | 44%N :: r' => parse_elems f (skip_ws r') (v :: acc)
          | _ => Raise JSONDecodeError
          end
      end
  end

(** The members of an object, from after the opening quote of a key. *)
with parse_members (fuel : nat) (s : str) (acc : list (str * pyval)) {struct fuel}
  : result (pyval * str) :=
  match fuel with
  | O => Raise JSONDecodeError
  | S f =>
      match scan_string s [] with
      | Raise e => Raise e
      | Ok (k, r) =>
          match skip_ws r with
          | 58%N :: r1 =>
              match parse_value f (skip_ws r1) with
              | Raise e => Raise e
              | Ok (v, r2) =>
                  match skip_ws r2 with
                  | 125%N :: r' => Ok (VDict (dict_of_pairs (rev ((k, v) :: acc))), r')
                  | 44%N :: r3 =>
                      match skip_ws r3 with
                      | 34%N :: r4 => parse_members f r4 ((k, v) :: acc)
                      | _ => Raise JSONDecodeError
                      end
                  | _ => Raise JSONDecodeError
                  end
              end
          | _ => Raise JSONDecodeError
          end
      end
  end.

(** [json.loads]: one value, blanks around it allowed, nothing else. *)
Definition loads (s : str) : result pyval :=
  if startswith s [65279%N] then Raise JSONDecodeError
  else
    match parse_value (S (length s)) (skip_ws s) with
    | Raise e => Raise e
    | Ok (v, r) =>
        match skip_ws r with
        | [] => Ok v
        | _ => Raise JSONDecodeError
        end
    end.

(** ** UTF-8 *)

(** Encoding is strict: a surrogate or a value above [0x10FFFF] raises. *)
Definition utf8_char (c : char) : option (list N) :=
  (if c <? 128 then Some [c]
   else if c <? 2048 then Some [192 + c / 64; 128 + c mod 64]
   else if c <? 65536 then
     if (55296 <=? c) && (c <=? 57343) then None
     else Some [224 + c / 4096; 128 + (c / 64) mod 64; 128 + c mod 64]
   else if c <? 1114112 then
     Some [240 + c / 262144; 128 + (c / 4096) mod 64;
           128 + (c / 64) mod 64; 128 + c mod 64]
   else None)%N.

Fixpoint utf8_encode (s : str) : result (list N) :=
  match s with
  | [] => Ok []
  | c :: r =>
      match utf8_char c, utf8_encode r with
      | Some bs, Ok rest => Ok (bs ++ rest)
      | _, _ => Raise UnicodeError
      end
  end.

Definition is_cont (b : N) : bool := ((128 <=? b) && (b <=? 191))%N.

(** Decoding is strict: no stray or missing continuation byte, no
    overlong form, no surrogate, nothing above [0x10FFFF]. *)
Fixpoint utf8_decode (bs : list N) {struct bs} : result str :=
  match bs with
  | [] => Ok []
  | b :: r =>
      if (b <? 128)%N then
        match utf8_decode r with Ok s => Ok (b :: s) | Raise e => Raise e end
      else if ((194 <=? b) && (b <=? 223))%N then
        match r with
        | b1 :: r' =>
            if is_cont b1 then
              match utf8_decode r' with
              | Ok s => Ok (((b - 192) * 64 + (b1 - 128))%N :: s)
              | Raise e => Raise e
              end
            else Raise UnicodeError
        | _ => Raise UnicodeError
        end
      else if ((224 <=? b) && (b <=? 239))%N then
        match r with
        | b1 :: b2 :: r' =>
            let c := (((b - 224) * 64 + (b1 - 128)) * 64 + (b2 - 128))%N in
            if is_cont b1 && is_cont b2 && (2048 <=? c)%N
               && negb ((55296 <=? c) && (c <=? 57343))%N then
              match utf8_decode r' with
              | Ok s => Ok (c :: s)
              | Raise e => Raise e
              end
            else Raise UnicodeError
        | _ => Raise UnicodeError
        end
      else if ((240 <=? b) && (b <=? 244))%N then
        match r with
        | b1 :: b2 :: b3 :: r' =>
            let c := ((((b - 240) * 64 + (b1 - 128)) * 64 + (b2 - 128)) * 64
                      + (b3 - 128))%N in
            if is_cont b1 && is_cont b2 && is_cont b3
               && (65536 <=? c)%N && (c <? 1114112)%N then
              match utf8_decode r' with
              | Ok s => Ok (c :: s)
              | Raise e => Raise e
              end
            else Raise UnicodeError
        | _ => Raise UnicodeError
        end
      else Raise UnicodeError
  end.

End Json.

(* ===================================================================== *)
(** * src/utils.py *)
(* ===================================================================== *)

Module Utils.
Import PyStr Py.

(** [os.path.dirname(path)] is empty exactly when [path] has no slash;
    [os.makedirs('', exist_ok=True)] raises. *)
Definition has_dirname (path : str) : bool := existsb (N.eqb 47) path.

(** [def save_json(data, filepath)]: make the directory, open the file
    for writing as UTF-8 and dump [data] into it.  Directories are not
    part of the file system model.  A failed dump leaves a truncated
    file; the model maps it to the empty file. *)
Definition save_json (data : pyval) (filepath : str) : M unit :=
  if has_dirname filepath then
    match Json.utf8_encode (Json.dumps data) with
    | Ok bytes => write_file filepath bytes
    | Raise e => let* _ := write_file filepath [] in raise e
    end
  else raise FileNotFoundError.

(** [def load_json(filepath)]: open the file as UTF-8 and parse it. *)
Definition load_json (filepath : str) : M pyval :=
  let* bytes := read_file filepath in
  let* text := lift (Json.utf8_decode bytes) in
  lift (Json.loads text).

(** [def generate_campaign_id()]. *)
Definition generate_campaign_id : M str :=
  let* t := now in ret (lit "campaign_" ++ strftime_id t).

(** [def format_timestamp()]. *)
Definition format_timestamp : M str :=
  let* t := now in ret (isoformat t).

Section WithUnicode.
Variable ucd_alnum : char -> bool.

(** The generator's condition: [c.isalnum() or c in (' ', '-', '_')]. *)
Definition keep (c : char) : bool :=
  isalnum ucd_alnum c || (c =? 32)%N || (c =? 45)%N || (c =? 95)%N.

(** [def sanitize_filename(text)]:
    ["".join(c for c in text if ...).rstrip()[:50]]. *)
Definition sanitize_filename (text : str) : str :=
  firstn 50 (rstrip (List.filter keep text)).

(** What the generator of [sanitize_filename] does with a value that is
    not a string: a [for] over a list yields its elements, over a dict its
    keys, and each must have [isalnum], that is, be a string. *)
Definition isalnum_str (s : str) : bool :=
  negb (bool_decide (s = [])) && forallb (isalnum ucd_alnum) s.

Definition iter_items (v : pyval) : result (list pyval) :=
  match v with
  | VStr s => Ok (List.map (fun c => VStr [c]) s)
  | VList l => Ok l
  | VDict d => Ok (List.map (fun kv => VStr (fst kv)) d)
  | _ => Raise TypeError
  end.

Fixpoint kept_items (items : list pyval) : result str :=
  match items with
  | [] => Ok []
  | VStr e :: items' =>
      match kept_items items' with
      | Ok r =>
          Ok ((if isalnum_str e || str_eqb e (lit " ") || str_eqb e (lit "-")
                  || str_eqb e (lit "_")
               then e else []) ++ r)
      | Raise x => Raise x
      end
  | _ :: _ => Raise AttributeError
  end.

Definition sanitize_value (text : pyval) : result str :=
  match iter_items text with
  | Raise e => Raise e
  | Ok items =>
      match kept_items items with
      | Raise e => Raise e
      | Ok joined => Ok (firstn 50 (rstrip joined))
      end
  end.

End WithUnicode.
End Utils.

(* ===================================================================== *)
(** * config.py *)
(* ===================================================================== *)

Module Config.
Import PyStr Py.

(** [os.path.join(a, b)] on POSIX. *)
Definition path_join (a b : str) : str :=
  if startswith b (lit "/") then b
  else if bool_decide (a = []) || endswith a (lit "/") then a ++ b
  else a ++ lit "/" ++ b.

Definition DATA_DIR : str := lit "data".
Definition CONTENT_DIR : str := path_join DATA_DIR (lit "generated_content").
Definition CAMPAIGNS_DIR : str := path_join DATA_DIR (lit "campaigns").
Definition ANALYTICS_DIR : str := path_join DATA_DIR (lit "analytics").

Definition persona_entry (name : str) (focus : list str) (tone : str) : pyval :=
  VDict [ (lit "name", VStr name);
          (lit "focus", VList (List.map VStr focus));
          (lit "tone", VStr tone) ].

(** The persona registry. *)
Definition PERSONAS : dict :=
  [ (lit "founders",
     persona_entry (lit "Founders / Decision-Makers")
       [lit "ROI"; lit "growth"; lit "efficiency"; lit "competitive advantage"]
       (lit "executive, data-driven, strategic"));
    (lit "creatives",
     persona_entry (lit "Creative Professionals")
       [lit "inspiration"; lit "time-saving tools"; lit "creativity"; lit "design"]
       (lit "inspiring, visual, innovative"));
    (lit "operations",
     persona_entry (lit "Operations Managers")
       [lit "workflows"; lit "integrations"; lit "reliability"; lit "scalability"]
       (lit "technical, practical, process-oriented")) ].

End Config.

(* ===================================================================== *)
(** * src/crm_integration.py *)
(* ===================================================================== *)

Module CRM.
Import PyStr Py Utils.

(** [CRMIntegration.__init__]: the mode is decided from the credential. *)
Definition init_mock_mode (api_key : option str) : bool :=
  match api_key with
  | None => true
  | Some k => bool_decide (k = [])
              || str_eqb k (lit "your_hubspot_key_here")
              || (length k <? 20)%nat
  end.

Definition init : M unit :=
  fun w => set_mock_mode (init_mock_mode (env_hubspot_key w)) w.

(** ** [segment_contacts] *)

Definition segments := list (str * list pyval).

(** [{persona: [] for persona in self.config.PERSONAS.keys()}]. *)
Definition empty_segments : segments :=
  List.map (fun p => (p, [])) (dict_keys Config.PERSONAS).

Fixpoint seg_mem (segs : segments) (k : str) : bool :=
  match segs with
  | [] => false
  | (k', _) :: segs' => str_eqb k' k || seg_mem segs' k
  end.

(** [segments[persona].append(contact)] for a key that is present. *)
Fixpoint seg_append (segs : segments) (k : str) (c : pyval) : segments :=
  match segs with
  | [] => []
  | (k', l) :: segs' =>
      if str_eqb k' k then (k', l ++ [c]) :: segs'
      else (k', l) :: seg_append segs' k c
  end.

(** The loop body: [persona = contact.get('persona', 'founders')], then
    [if persona in segments: segments[persona].append(contact)]. *)
Definition segment_step (segs : segments) (contact : pyval) : result segments :=
  match get_default contact (lit "persona") (VStr (lit "founders")) with
  | Raise e => Raise e
  | Ok persona =>
      if hashable persona then
        match persona with
        | VStr p => if seg_mem segs p then Ok (seg_append segs p contact)
                    else Ok segs
        | _ => Ok segs
        end
      else Raise TypeError
  end.

Fixpoint segment_loop (segs : segments) (contacts : list pyval) : result segments :=
  match contacts with
  | [] => Ok segs
  | c :: cs => match segment_step segs c with
               | Ok segs' => segment_loop segs' cs
               | Raise e => Raise e
               end
  end.

Definition segment_contacts (contacts : list pyval) : result segments :=
  segment_loop empty_segments contacts.

(** ** [_check_marketing_access] *)

Definition check_marketing_access : M bool :=
  let* mock := get_mock_mode in
  if mock then ret false
  else
    let* r := http_request in
    match r with
    | Response status _ => ret (status =? 200)%Z
    | NetworkError => ret false
    end.

(** ** Mock responses *)

(** [_mock_campaign_response(campaign_data, persona)]. *)
Definition mock_campaign_response (persona : str) : M pyval :=
  let* n := randint 1000 9999 in
  let* ts := format_timestamp in
  ret (VDict [ (lit "id", VStr (lit "campaign_" ++ persona ++ lit "_" ++ str_of_Z n));
               (lit "status", VStr (lit "SCHEDULED"));
               (lit "created", VStr ts);
               (lit "persona", VStr persona);
               (lit "mock", VBool true) ]).

(** One iteration of [_mock_campaign_distribution]. *)
Definition mock_distribution_entry (newsletters : pyval) (persona : str) : M pyval :=
  let* n := randint 1000 9999 in
  let* ts := format_timestamp in
  let* recipients := randint 80 100 in
  let* nl := lift (getitem newsletters persona) in
  let* subject := lift (getitem nl (lit "subject_line")) in
  ret (VDict [ (lit "id", VStr (lit "campaign_" ++ persona ++ lit "_" ++ str_of_Z n));
               (lit "status", VStr (lit "SIMULATED"));
               (lit "created", VStr ts);
               (lit "persona", VStr persona);
               (lit "recipients", VInt recipients);
               (lit "subject", subject);
               (lit "mock", VBool true) ]).


(** [_mock_campaign_distribution(campaign_data)]. *)
Definition mock_campaign_distribution (campaign_data : pyval) : M dict :=
  let* newsletters := lift (getitem campaign_data (lit "newsletters")) in
  let* nls := lift (items newsletters) in
  for_each (dict_keys nls) []
    (fun persona results =>
       let* entry := mock_distribution_entry newsletters persona in
       ret (dict_set results persona entry)).

(** ** [send_campaign] *)

(** The lookups made while the request's payload is built; they are
    outside the [try]. *)
Definition payload_lookups (campaign_data newsletter : pyval) : M unit :=
  let* _ := lift (getitem campaign_data (lit "blog_title")) in
  let* _ := lift (getitem newsletter (lit "subject_line")) in
  let* _ := lift (getitem newsletter (lit "content")) in
  let* _ := lift (get_default newsletter (lit "preview_text") (VStr [])) in
  let* _ := lift (getitem campaign_data (lit "campaign_id")) in
  ret tt.

(** [response.raise_for_status()] raises on the 4xx and 5xx codes. *)
Definition is_http_error (status : Z) : bool :=
  ((400 <=? status) && (status <? 600))%Z.

(** The loop over [campaign_data['newsletters'].items()].  A 401 or 403
    leaves the loop and returns the mock distribution of the whole
    campaign; any other failure gives that persona a mock response. *)
Fixpoint send_loop (campaign_data : pyval) (todo : dict) (results : dict) : M dict :=
  match todo with
  | [] => ret results
  | (persona, newsletter) :: todo' =>
      let* _ := payload_lookups campaign_data newsletter in
      let* r := http_request in
      match r with
      | Response status body =>
          if is_http_error status then
            if ((status =? 401) || (status =? 403))%Z
            then mock_campaign_distribution campaign_data
            else
              let* m := mock_campaign_response persona in
              send_loop campaign_data todo' (dict_set results persona m)
          else
            match body with
            | Some j => send_loop campaign_data todo' (dict_set results persona j)
            | None =>
                let* m := mock_campaign_response persona in
                send_loop campaign_data todo' (dict_set results persona m)
            end
      | NetworkError =>
          let* m := mock_campaign_response persona in
          send_loop campaign_data todo' (dict_set results persona m)
      end
  end.

Definition send_campaign (campaign_data : pyval) : M dict :=
  let* can_use_marketing := check_marketing_access in
  let* mock := get_mock_mode in
  if mock || negb can_use_marketing then
    mock_campaign_distribution campaign_data
  else
    let* newsletters := lift (getitem campaign_data (lit "newsletters")) in
    let* nls := lift (items newsletters) in
    send_loop campaign_data nls [].

(** ** [log_campaign] *)

Definition log_campaign (campaign_data : pyval) : M dict :=
  let* campaign_id := lift (getitem campaign_data (lit "campaign_id")) in
  let* blog_title := lift (getitem campaign_data (lit "blog_title")) in
  let* send_date := format_timestamp in
  let* newsletters := lift (getitem campaign_data (lit "newsletters")) in
  let* nls := lift (items newsletters) in
  let* mock := get_mock_mode in
  ret [ (lit "campaign_id", campaign_id);
        (lit "blog_title", blog_title);
        (lit "send_date", VStr send_date);
        (lit "personas", VList (List.map VStr (dict_keys nls)));
        (lit "status", VStr (if negb mock then lit "sent" else lit "simulated"));
        (lit "mode", VStr (if mock then lit "mock" else lit "production")) ].

(** ** [create_mock_contacts] *)

Definition companies : list str :=
  [ lit "PixelForge Studio"; lit "CreativeFlow Agency"; lit "DesignLab Co";
    lit "InnovateTech"; lit "BrightIdeas Inc"; lit "StudioX Creative";
    lit "Workflow Masters"; lit "AgileDesign"; lit "TechCanvas";
    lit "CreativeMind Agency"; lit "DigitalCraft"; lit "VisionWorks" ].

Definition first_names : list str :=
  [ lit "Alex"; lit "Jordan"; lit "Taylor"; lit "Morgan"; lit "Casey";
    lit "Riley"; lit "Jamie"; lit "Sam"; lit "Drew"; lit "Quinn" ].

(** [random.choice(seq)] for a non-empty [seq]. *)
Definition choice (seq : list str) : M str :=
  let* r := draw in
  ret (nth (N.to_nat (r mod N.of_nat (length seq))) seq []).

Definition mock_contact (persona_key : str) (persona_info : pyval) (i : nat) : M pyval :=
  let* company := choice companies in
  let* firstname := choice first_names in
  let* name := lift (getitem persona_info (lit "name")) in
  let* name := str_of name in
  ret (VDict
    [ (lit "email",
       VStr (lower firstname ++ lit "." ++ persona_key ++ str_of_N (N.of_nat i)
             ++ lit "@" ++ List.filter (fun c => negb (c =? 32)%N) (lower company)
             ++ lit ".com"));
      (lit "firstname", VStr firstname);
      (lit "lastname", VStr (capitalize persona_key));
      (lit "company", VStr company);
      (lit "persona", VStr persona_key);
      (lit "jobtitle", VStr (strip (before_slash name))) ]).

Definition create_mock_contacts (count_per_persona : nat) : M (list pyval) :=
  for_each Config.PERSONAS []
    (fun '(persona_key, persona_info) contacts =>
       for_each (seq 0 count_per_persona) contacts
         (fun i contacts =>
            let* contact := mock_contact persona_key persona_info i in
            ret (contacts ++ [contact]))).

(** ** Contacts

    [email] is a string and [properties] a dict, as the signatures say. *)

Section WithHash.
(** [hash(s)] for a string: fixed within a process, not across
    processes. *)
Variable py_hash : str -> Z.

(** [f"mock_{abs(hash(email)) % 10000}"]. *)
Definition mock_id (email : str) : str :=
  lit "mock_" ++ str_of_Z (Z.abs (py_hash email) mod 10000).

(** [{'email': email, **properties}]. *)
Definition with_email (email : str) (properties : dict) : dict :=
  fold_left (fun d kv => dict_set d (fst kv) (snd kv)) properties
    [ (lit "email", VStr email) ].

(** [_mock_contact_response(email, properties)]. *)
Definition mock_contact_response (email : str) (properties : dict) : M pyval :=
  let* created := format_timestamp in
  let* updated := format_timestamp in
  ret (VDict [ (lit "id", VStr (mock_id email));
               (lit "properties", VDict (with_email email properties));
               (lit "createdAt", VStr created);
               (lit "updatedAt", VStr updated);
               (lit "mock", VBool true) ]).

(** [results['results'][0]['id']] when [results.get('results')] is
    true; [None] when it is not, or when a step raises: only a non-empty
    list whose first item is a dict with an ['id'] gets through. *)
Definition first_result_id (results : pyval) : pyval :=
  match get_default results (lit "results") VNone with
  | Ok (VList (VDict first :: _)) =>
      match dict_get first (lit "id") with
      | Some id => id
      | None => VNone
      end
  | _ => VNone
  end.

(** [_get_contact_by_email(email)]. *)
Definition get_contact_by_email (email : str) : M pyval :=
  let* mock := get_mock_mode in
  if mock then ret (VStr (mock_id email))
  else
    let* r := http_request in
    match r with
    | Response status (Some results) =>
        if is_http_error status then ret VNone
        else ret (first_result_id results)
    | _ => ret VNone
    end.

(** [_update_contact(contact_id, properties)]. *)
Definition update_contact (contact_id : pyval) (properties : dict) : M pyval :=
  let* mock := get_mock_mode in
  let* id_text := str_of contact_id in
  if mock then mock_contact_response (lit "contact_" ++ id_text) properties
  else
    let* r := http_request in
    match r with
    | Response status (Some j) =>
        if is_http_error status
        then mock_contact_response (lit "contact_" ++ id_text) properties
        else ret j
    | _ => mock_contact_response (lit "contact_" ++ id_text) properties
    end.

(** [create_or_update_contact(email, properties)]. *)
Definition create_or_update_contact (email : str) (properties : dict) : M pyval :=
  let* mock := get_mock_mode in
  if mock then mock_contact_response email properties
  else
    let* r := http_request in
    match r with
    | Response status body =>
        if (status =? 409)%Z then
          let* contact_id := get_contact_by_email email in
          update_contact contact_id properties
        else if is_http_error status then
          if (status =? 401)%Z then
            let* _ := set_mock_mode true in
            mock_contact_response email properties
          else mock_contact_response email properties
        else
          match body with
          | Some j => ret j
          | None => mock_contact_response email properties
          end
    | NetworkError => mock_contact_response email properties
    end.

End WithHash.

End CRM.

(* ===================================================================== *)
(** * src/content_generator.py *)
(* ===================================================================== *)

Module ContentGen.
Import PyStr Py.

Definition fence_json : str := lit "```json".
Definition fence : str := lit "```".

(** [ContentGenerator.clean_response(raw_text)]. *)
Definition clean_response (raw_text : str) : str :=
  let raw_text :=
    if startswith raw_text fence_json
    then slice_from (length fence_json) raw_text else raw_text in
  if endswith raw_text fence
  then slice_to_minus (length fence) raw_text else raw_text.

(** [v[:n]] is defined on strings and lists. *)
Definition sliceable (v : pyval) : result unit :=
  match v with
  | VStr _ | VList _ => Ok tt
  | _ => Raise TypeError
  end.

Definition fallback_blog (topic : str) : pyval :=
  VDict
    [ (lit "title", VStr (lit "How " ++ topic ++ lit " is Transforming Creative Workflows"));
      (lit "outline",
       VList [ VStr (lit "Introduction to automation"); VStr (lit "Key benefits");
               VStr (lit "Implementation strategies"); VStr (lit "Conclusion") ]);
      (lit "content",
       VStr (lit "# How " ++ topic ++ lit " is Transforming Creative Workflows"
             ++ [10%N; 10%N]
             ++ lit "Automation is revolutionizing how creative agencies work...")) ].

(** [generate_blog_post(topic)]: the parsed reply when it has a title,
    the fallback when any step of the [try] raises. *)
Definition generate_blog_post (topic : str) : M pyval :=
  let* raw := ask_llm in
  match raw with
  | None => ret (fallback_blog topic)
  | Some text =>
      match Json.loads (clean_response text) with
      | Raise _ => ret (fallback_blog topic)
      | Ok blog_data =>
          match getitem blog_data (lit "title") with
          | Ok _ => ret blog_data
          | Raise _ => ret (fallback_blog topic)
          end
      end
  end.

Definition fallback_newsletter (title name : str) : pyval :=
  VDict
    [ (lit "subject_line", VStr (lit "New: " ++ title ++ lit " for " ++ name));
      (lit "preview_text", VStr (lit "Discover how this impacts your work"));
      (lit "content",
       VStr (lit "Hi there," ++ [10%N; 10%N]
             ++ lit "We've just published a new article that's perfect for "
             ++ name ++ lit "...")) ].

(** One iteration of [generate_persona_newsletters]: the prompt is built
    outside the [try], the reply is parsed inside it. *)
Definition newsletter_for (blog_data persona_info : pyval) : M pyval :=
  let* name := lift (getitem persona_info (lit "name")) in
  let* title := lift (getitem blog_data (lit "title")) in
  let* content := lift (getitem blog_data (lit "content")) in
  let* _ := lift (sliceable content) in
  let* raw := ask_llm in
  let fallback :=
    let* t := str_of title in
    let* n := str_of name in
    ret (fallback_newsletter t n) in
  match raw with
  | None => fallback
  | Some text =>
      match Json.loads (clean_response text) with
      | Ok newsletter_data => ret newsletter_data
      | Raise _ => fallback
      end
  end.

Definition generate_persona_newsletters (blog_data : pyval) : M dict :=
  for_each Config.PERSONAS []
    (fun '(persona_key, persona_info) newsletters =>
       let* newsletter_data := newsletter_for blog_data persona_info in
       ret (dict_set newsletters persona_key newsletter_data)).

(** [generate_variations(content, num_variations)].  Inside the [try]
    the name [content] is rebound to the cleaned reply, and that is what
    the handler returns when the parse fails. *)
Definition generate_variations (content : pyval) : M pyval :=
  let* _ := lift (sliceable content) in
  let* raw := ask_llm in
  match raw with
  | None => ret (VList [content])
  | Some text =>
      let cleaned := clean_response text in
      match Json.loads cleaned with
      | Raise _ => ret (VList [VStr cleaned])
      | Ok (VDict d) =>
          match dict_get d (lit "variations") with
          | Some variations => ret variations
          | None => ret (VList (List.map snd d))
          end
      | Ok (VList l) => ret (VList l)
      | Ok _ => ret (VList [VStr cleaned])
      end
  end.

Definition fallback_improvements : pyval :=
  VDict
    [ (lit "headline_suggestions",
       VList [ VStr (lit "Consider more specific headlines");
               VStr (lit "Add numbers or data") ]);
      (lit "hook_improvements", VStr (lit "Start with a compelling question or stat"));
      (lit "cta_optimization", VStr (lit "Make CTAs more action-oriented"));
      (lit "engagement_tactics",
       VList [ VStr (lit "Add case studies"); VStr (lit "Include visuals");
               VStr (lit "Use storytelling") ]) ].

(** [suggest_improvements(content, performance_data)]. *)
Definition suggest_improvements (content : pyval) : M pyval :=
  let* _ := lift (sliceable content) in
  let* raw := ask_llm in
  match raw with
  | None => ret fallback_improvements
  | Some text =>
      match Json.loads (clean_response text) with
      | Ok v => ret v
      | Raise _ => ret fallback_improvements
      end
  end.

End ContentGen.

(* ===================================================================== *)
(** * src/performance_analyzer.py *)
(* ===================================================================== *)

Module Perf.
Import PyStr Py Float.

(** [PerformanceAnalyzer.clean_response(raw_text)]. *)
Definition clean_response (raw_text : str) : str :=
  strip (ContentGen.clean_response raw_text).

(** [random.random()]: a multiple of [2^-53] in [[0, 1)]. *)
Definition random : M Q :=
  let* r := draw in
  ret (Qred (inject_Z (Z.of_N (r mod 2 ^ 53)%N) * pow2 (-53))%Q).

(** [random.uniform(a, b)] is [a + (b - a) * random()]. *)
Definition uniform (a b : Q) : M Q :=
  let* u := random in
  ret (fadd a (fmul (fsub b a) u)).

(** The persona's engagement pattern. *)
Definition persona_rates (persona : str) (base_open base_click : Q) : Q * Q :=
  if str_eqb persona (lit "founders") then
    (fmul base_open (literal 11 10), fmul base_click (literal 9 10))
  else if str_eqb persona (lit "creatives") then
    (fmul base_open (literal 12 10), fmul base_click (literal 13 10))
  else
    (base_open, fmul base_click (literal 11 10)).

(** The body of the loop of [simulate_performance_data]. *)
Definition simulate_persona (persona : str) : M pyval :=
  let* sent := randint 80 100 in
  let* delivered := randint (trunc (fmul (of_int sent) (literal 85 100))) sent in
  let* base_open := uniform (literal 18 100) (literal 35 100) in
  let* base_click := uniform (literal 5 100) (literal 15 100) in
  let '(open_rate, click_rate) := persona_rates persona base_open base_click in
  let open_rate := fmin open_rate (literal 95 100) in
  let click_rate := fmin click_rate (fmul open_rate (literal 8 10)) in
  let* unsubscribed := uniform (literal 1 1000) (literal 1 100) in
  let* bounced := uniform (literal 1 100) (literal 5 100) in
  ret (VDict [ (lit "sent", VInt sent);
               (lit "delivered", VInt delivered);
               (lit "opened", VFloat (round_ndigits open_rate 4));
               (lit "clicked", VFloat (round_ndigits click_rate 4));
               (lit "unsubscribed", VFloat (round_ndigits unsubscribed 4));
               (lit "bounced", VFloat (round_ndigits bounced 4)) ]).

(** [simulate_performance_data(campaign_id, personas)]. *)
Definition simulate_performance_data (campaign_id : str) (personas : list str) : M dict :=
  for_each personas []
    (fun persona performance =>
       let* metrics := simulate_persona persona in
       ret (dict_set performance persona metrics)).

(** [store_performance_data(campaign_id, performance_data)]. *)
Definition store_performance_data (campaign_id : str) (performance_data : dict) : M str :=
  let filepath := Config.ANALYTICS_DIR ++ lit "/" ++ campaign_id ++ lit "_performance.json" in
  let* timestamp := Utils.format_timestamp in
  let* _ := Utils.save_json
              (VDict [ (lit "campaign_id", VStr campaign_id);
                       (lit "timestamp", VStr timestamp);
                       (lit "performance", VDict performance_data) ])
              filepath in
  ret filepath.

(** [f"{x:.1f}"]: one decimal place, the nearest to the exact value. *)
Definition format_1f (x : Q) : str :=
  let n := rne (x * 10)%Q in
  (if (n <? 0)%Z then [45%N] else [])
    ++ str_of_N (Z.abs_N n / 10) ++ 46%N :: str_of_N (Z.abs_N n mod 10).

(** The lookups of [_format_performance_for_analysis]. *)
Definition format_lookups (performance_data : dict) : M unit :=
  for_each performance_data tt
    (fun '(persona, metrics) _ =>
       let* _ := lift (getitem metrics (lit "sent")) in
       let* _ := lift (getitem metrics (lit "delivered")) in
       let* _ := lift (getitem metrics (lit "opened")) in
       let* _ := lift (getitem metrics (lit "clicked")) in
       let* _ := lift (getitem metrics (lit "unsubscribed")) in
       ret tt).

Definition number_value (v : pyval) : result Q :=
  match v with
  | VInt z => Ok (inject_Z z)
  | VFloat x => Ok x
  | VBool b => Ok (if b then 1%Q else 0%Q)
  | _ => Raise TypeError
  end.

(** [max(performance_data.items(), key=lambda x: x[1]['clicked'])]: the
    first item with the largest click rate. *)
Fixpoint best_persona (items : dict) (best : str * pyval) (best_clicked : Q)
  : result (str * pyval * Q) :=
  match items with
  | [] => Ok (best, best_clicked)
  | (persona, metrics) :: items' =>
      match getitem metrics (lit "clicked") with
      | Raise e => Raise e
      | Ok c =>
          match number_value c with
          | Raise e => Raise e
          | Ok clicked =>
              if flt best_clicked clicked
              then best_persona items' (persona, metrics) clicked
              else best_persona items' best best_clicked
          end
      end
  end.

Fixpoint total_delivered (items : dict) (acc : Z) : result Z :=
  match items with
  | [] => Ok acc
  | (_, metrics) :: items' =>
      match getitem metrics (lit "delivered") with
      | Ok (VInt d) => total_delivered items' (acc + d)%Z
      | Ok _ => Raise TypeError
      | Raise e => Raise e
      end
  end.

(** [_fallback_summary(performance_data)], for metrics as
    [simulate_performance_data] produces them. *)
Definition fallback_summary (performance_data : dict) : result pyval :=
  match performance_data with
  | [] => Raise ValueError
  | (persona, metrics) :: items =>
      match getitem metrics (lit "clicked") with
      | Raise e => Raise e
      | Ok c =>
          match number_value c with
          | Raise e => Raise e
          | Ok clicked =>
              match best_persona items (persona, metrics) clicked,
                    total_delivered performance_data 0 with
              | Ok (best, best_clicked), Ok total =>
                  Ok (VDict
                    [ (lit "highlights",
                       VStr (lit "Campaign delivered to " ++ str_of_Z total
                             ++ lit " recipients across 3 segments."));
                      (lit "persona_comparison",
                       VStr (fst best ++ lit " segment had the highest engagement with "
                             ++ format_1f (fmul best_clicked (of_int 100))
                             ++ lit "% click rate."));
                      (lit "recommendations",
                       VList [ VStr (lit "Continue targeting the best-performing segment");
                               VStr (lit "A/B test subject lines for lower-performing segments");
                               VStr (lit "Increase visual content for creative professionals") ]);
                      (lit "next_topics",
                       VList [ VStr (lit "Workflow automation case studies");
                               VStr (lit "Integration deep-dives");
                               VStr (lit "ROI calculators for automation") ]) ])
              | Raise e, _ => Raise e
              | _, Raise e => Raise e
              end
          end
      end
  end.

(** [generate_performance_summary(performance_data, blog_title)]. *)
Definition generate_performance_summary (performance_data : dict) : M pyval :=
  let* _ := format_lookups performance_data in
  let* raw := ask_llm in
  match raw with
  | None => lift (fallback_summary performance_data)
  | Some text =>
      match Json.loads (clean_response text) with
      | Ok summary => ret summary
      | Raise _ => lift (fallback_summary performance_data)
      end
  end.

End Perf.

(* ===================================================================== *)
(** * main.py *)
(* ===================================================================== *)

Module Main.
Import PyStr Py.

(** [len(v)]. *)
Definition py_len (v : pyval) : result Z :=
  match v with
  | VStr s => Ok (Z.of_nat (length s))
  | VList l => Ok (Z.of_nat (length l))
  | VDict d => Ok (Z.of_nat (length d))
  | _ => Raise TypeError
  end.

(** [v.split()] is a method of strings. *)
Definition has_split (v : pyval) : result unit :=
  match v with VStr _ => Ok tt | _ => Raise AttributeError end.

(** [enumerate(v, 1)] needs an iterable. *)
Definition iterable (v : pyval) : result unit :=
  match v with
  | VStr _ | VList _ | VDict _ => Ok tt
  | _ => Raise TypeError
  end.

(** [sum(r.get('recipients', 0) for r in distribution_results.values())]. *)
Fixpoint total_recipients (results : dict) : result unit :=
  match results with
  | [] => Ok tt
  | (_, r) :: results' =>
      match get_default r (lit "recipients") (VInt 0) with
      | Raise e => Raise e
      | Ok (VInt _) | Ok (VFloat _) | Ok (VBool _) => total_recipients results'
      | Ok _ => Raise TypeError
      end
  end.

(** The loop that prints each newsletter's subject line. *)
Definition subject_lines (newsletters : dict) : M unit :=
  for_each newsletters tt
    (fun '(persona, newsletter) _ =>
       let* _ := lift (getitem newsletter (lit "subject_line")) in ret tt).

(** The content artifact and its path. *)
Definition content_artifact (campaign_id topic : str) (blog_data : pyval)
    (newsletters : dict) (variations : pyval) (created_at : str) : pyval :=
  VDict [ (lit "campaign_id", VStr campaign_id);
          (lit "topic", VStr topic);
          (lit "blog", blog_data);
          (lit "newsletters", VDict newsletters);
          (lit "variations", variations);
          (lit "created_at", VStr created_at) ].

Definition content_filename (safe_title campaign_id : str) : str :=
  Config.CONTENT_DIR ++ lit "/" ++ safe_title ++ lit "_" ++ campaign_id ++ lit ".json".

Definition campaign_filename (campaign_id : str) : str :=
  Config.CAMPAIGNS_DIR ++ lit "/" ++ campaign_id ++ lit "_log.json".

Definition summary_filename (campaign_id : str) : str :=
  Config.ANALYTICS_DIR ++ lit "/" ++ campaign_id ++ lit "_summary.json".

Definition improvement_filename (campaign_id : str) : str :=
  Config.ANALYTICS_DIR ++ lit "/" ++ campaign_id ++ lit "_improvements.json".

(** [def run_pipeline(topic, use_mock_contacts, generate_variations)].
    What it prints is left out; the lookups made for printing are kept,
    since they can raise. *)
Definition run_pipeline (topic : str) (use_mock_contacts generate_variations : bool)
  : M pyval :=
  let* _ := CRM.init in
  let* campaign_id := Utils.generate_campaign_id in
  (* Step 1: blog content *)
  let* blog_data := ContentGen.generate_blog_post topic in
  let* title := lift (getitem blog_data (lit "title")) in
  let* content := lift (getitem blog_data (lit "content")) in
  let* _ := lift (has_split content) in
  (* optional variations *)
  let* variations :=
    if generate_variations then
      let* vs := ContentGen.generate_variations content in
      let* _ := lift (py_len vs) in
      ret vs
    else ret (VList []) in
  (* Step 2: newsletters *)
  let* newsletters := ContentGen.generate_persona_newsletters blog_data in
  let* _ := subject_lines newsletters in
  (* save content *)
  let* ucd := get_ucd_alnum in
  let* safe_title := lift (Utils.sanitize_value ucd title) in
  let* created_at := Utils.format_timestamp in
  let* _ := Utils.save_json
              (content_artifact campaign_id topic blog_data newsletters variations created_at)
              (content_filename safe_title campaign_id) in
  (* Step 3: contacts *)
  let* contacts :=
    if use_mock_contacts then CRM.create_mock_contacts 10 else ret [] in
  let* _ := lift (CRM.segment_contacts contacts) in
  (* Step 4: distribution *)
  let campaign_data :=
    VDict [ (lit "campaign_id", VStr campaign_id);
            (lit "blog_title", title);
            (lit "newsletters", VDict newsletters) ] in
  let* distribution_results := CRM.send_campaign campaign_data in
  let* mock := get_mock_mode in
  let* simulated :=
    if mock then ret true
    else let* ok := CRM.check_marketing_access in ret (negb ok) in
  let* _ := if simulated then lift (total_recipients distribution_results)
            else ret tt in
  (* log campaign *)
  let* campaign_log := CRM.log_campaign campaign_data in
  let* _ := Utils.save_json
              (VDict (dict_set campaign_log (lit "distribution_results")
                        (VDict distribution_results)))
              (campaign_filename campaign_id) in
  (* Step 5: performance *)
  let* performance_data :=
    Perf.simulate_performance_data campaign_id (dict_keys Config.PERSONAS) in
  let* _ := Perf.store_performance_data campaign_id performance_data in
  let* summary := Perf.generate_performance_summary performance_data in
  let* _ := lift (getitem summary (lit "highlights")) in
  let* _ := lift (getitem summary (lit "persona_comparison")) in
  let* recommendations := lift (getitem summary (lit "recommendations")) in
  let* _ := lift (iterable recommendations) in
  let* next_topics := lift (getitem summary (lit "next_topics")) in
  let* _ := lift (iterable next_topics) in
  let* _ := Utils.save_json summary (summary_filename campaign_id) in
  (* optional improvements *)
  let* _ :=
    if generate_variations then
      let* improvements := ContentGen.suggest_improvements content in
      let* _ := Utils.save_json improvements (improvement_filename campaign_id) in
      let* hs := lift (getitem improvements (lit "headline_suggestions")) in
      let* _ := lift (py_len hs) in
      let* et := lift (getitem improvements (lit "engagement_tactics")) in
      let* _ := lift (py_len et) in
      ret tt
    else ret tt in
  let* mock := get_mock_mode in
  ret (VDict [ (lit "campaign_id", VStr campaign_id);
               (lit "blog_data", blog_data);
               (lit "newsletters", VDict newsletters);
               (lit "performance", VDict performance_data);
               (lit "summary", summary);
               (lit "mock_mode", VBool mock) ]).

End Main.

(* ===================================================================== *)
(** * dashboard/app.py *)
(* ===================================================================== *)

Module Dashboard.
Import PyStr Py.

(** What a view function returns. *)
Inductive response :=
| Text (body : str) (status : Z)
| Template (name : str) (context : dict)
| Jsonify (v : pyval) (status : Z).

Definition log_file (campaign_id : str) : str :=
  Config.path_join Config.CAMPAIGNS_DIR (campaign_id ++ lit "_log.json").
Definition performance_file (campaign_id : str) : str :=
  Config.path_join Config.ANALYTICS_DIR (campaign_id ++ lit "_performance.json").
Definition summary_file (campaign_id : str) : str :=
  Config.path_join Config.ANALYTICS_DIR (campaign_id ++ lit "_summary.json").

(** [None], or the parsed file when it exists. *)
Definition load_if_exists (path : str) : M pyval :=
  let* present := path_exists path in
  if present then Utils.load_json path else ret VNone.

(** [@app.route('/campaign/<campaign_id>') def campaign_detail]. *)
Definition campaign_detail (campaign_id : str) : M response :=
  let* present := path_exists (log_file campaign_id) in
  if negb present then ret (Text (lit "Campaign not found") 404)
  else
    let* campaign := Utils.load_json (log_file campaign_id) in
    let* performance := load_if_exists (performance_file campaign_id) in
    let* summary := load_if_exists (summary_file campaign_id) in
    ret (Template (lit "campaign.html")
           [ (lit "campaign", campaign);
             (lit "performance", performance);
             (lit "summary", summary) ]).

(** [@app.route('/api/performance/<campaign_id>') def api_performance]. *)
Definition api_performance (campaign_id : str) : M response :=
  let* present := path_exists (performance_file campaign_id) in
  if negb present then
    ret (Jsonify (VDict [ (lit "error", VStr (lit "Performance data not found")) ]) 404)
  else
    let* data := Utils.load_json (performance_file campaign_id) in
    ret (Jsonify data 200).

(** The name of an exception, for the status table. *)
Definition exn_text (e : exn) : str :=
  match e with
  | KeyError k => k
  | TypeError => lit "TypeError"
  | AttributeError => lit "AttributeError"
  | ValueError => lit "ValueError"
  | UnicodeError => lit "UnicodeError"
  | JSONDecodeError => lit "JSONDecodeError"
  | FileNotFoundError => lit "FileNotFoundError"
  end.

(** The body of the [try] of [run_pipeline_async]. *)
Definition pipeline_body (campaign_id topic : str) (generate_variations : bool) : M unit :=
  let* status := get_status campaign_id in
  let* entry := match status with
                | Some v => ret v
                | None => raise (KeyError campaign_id)
                end in
  let* entry_items := match entry with
                      | VDict d => ret d
                      | _ => raise TypeError
                      end in
  let* _ := set_status campaign_id
              (VDict (dict_set entry_items (lit "status") (VStr (lit "running")))) in
  let* _ := CRM.init in
  let* blog_data := ContentGen.generate_blog_post topic in
  let* title := lift (getitem blog_data (lit "title")) in
  let* newsletters := ContentGen.generate_persona_newsletters blog_data in
  let* variations :=
    if generate_variations then
      let* content := lift (getitem blog_data (lit "content")) in
      let* vs := ContentGen.generate_variations content in
      let* _ := lift (Main.py_len vs) in
      ret vs
    else ret (VList []) in
  let* ucd := get_ucd_alnum in
  let* safe_title := lift (Utils.sanitize_value ucd title) in
  let* created_at := Utils.format_timestamp in
  let* _ := Utils.save_json
              (Main.content_artifact campaign_id topic blog_data newsletters
                 variations created_at)
              (Main.content_filename safe_title campaign_id) in
  let* contacts := CRM.create_mock_contacts 10 in
  let* _ := lift (CRM.segment_contacts contacts) in
  let campaign_data :=
    VDict [ (lit "campaign_id", VStr campaign_id);
            (lit "blog_title", title);
            (lit "newsletters", VDict newsletters) ] in
  let* distribution_results := CRM.send_campaign campaign_data in
  let* campaign_log := CRM.log_campaign campaign_data in
  let* _ := Utils.save_json
              (VDict (dict_set campaign_log (lit "distribution_results")
                        (VDict distribution_results)))
              (Main.campaign_filename campaign_id) in
  let* performance_data :=
    Perf.simulate_performance_data campaign_id (dict_keys Config.PERSONAS) in
  let* _ := Perf.store_performance_data campaign_id performance_data in
  let* summary := Perf.generate_performance_summary performance_data in
  let* _ := Utils.save_json summary (Main.summary_filename campaign_id) in
  let* _ :=
    if generate_variations then
      let* content := lift (getitem blog_data (lit "content")) in
      let* improvements := ContentGen.suggest_improvements content in
      Utils.save_json improvements (Main.improvement_filename campaign_id)
    else ret tt in
  let* completed_at := Utils.format_timestamp in
  set_status campaign_id
    (VDict [ (lit "status", VStr (lit "completed"));
             (lit "topic", VStr topic);
             (lit "campaign_id", VStr campaign_id);
             (lit "completed_at", VStr completed_at) ]).

(** [def run_pipeline_async(campaign_id, topic, generate_variations)]. *)
Definition run_pipeline_async (campaign_id topic : str) (generate_variations : bool)
  : M unit :=
  try_except (pipeline_body campaign_id topic generate_variations)
    (fun e =>
       let* failed_at := Utils.format_timestamp in
       set_status campaign_id
         (VDict [ (lit "status", VStr (lit "failed"));
                  (lit "topic", VStr topic);
                  (lit "error", VStr (exn_text e));
                  (lit "trace", VStr (exn_text e));
                  (lit "failed_at", VStr failed_at) ])).

(** What a view returns: a response, or a redirect to the detail view or
    to the status view of a campaign
    ([redirect(url_for('campaign_detail', campaign_id=...))]). *)
Inductive view :=
| Page (r : response)
| RedirectToDetail (campaign_id : str)
| RedirectToStatus (campaign_id : str).

(** [status.get('status') == 'completed']. *)
Definition is_completed (status : pyval) : result bool :=
  match get_default status (lit "status") VNone with
  | Ok (VStr s) => Ok (str_eqb s (lit "completed"))
  | Ok _ => Ok false
  | Raise e => Raise e
  end.

(** [@app.route('/status/<campaign_id>') def campaign_status]. *)
Definition campaign_status (campaign_id : str) : M view :=
  let* entry := get_status campaign_id in
  match entry with
  | Some status =>
      let* completed := lift (is_completed status) in
      let* found :=
        if completed then path_exists (log_file campaign_id)
        else ret false in
      if found then ret (RedirectToDetail campaign_id)
      else ret (Page (Template (lit "status.html")
                        [ (lit "campaign_id", VStr campaign_id);
                          (lit "status", status) ]))
  | None =>
      let* present := path_exists (log_file campaign_id) in
      if present then ret (RedirectToDetail campaign_id)
      else ret (Page (Template (lit "status.html")
                        [ (lit "campaign_id", VStr campaign_id);
                          (lit "status",
                           VDict [ (lit "status", VStr (lit "not_found"));
                                   (lit "topic", VStr (lit "Unknown")) ]) ]))
  end.

(** [@app.route('/api/status/<campaign_id>') def api_status]. *)
Definition api_status (campaign_id : str) : M response :=
  let* entry := get_status campaign_id in
  match entry with
  | Some status => ret (Jsonify status 200)
  | None =>
      let* present := path_exists (log_file campaign_id) in
      if present then
        ret (Jsonify
               (VDict [ (lit "status", VStr (lit "completed"));
                        (lit "campaign_id", VStr campaign_id) ]) 200)
      else
        ret (Jsonify (VDict [ (lit "status", VStr (lit "not_found")) ]) 404)
  end.

(** The arguments of a pipeline thread: the campaign id, the topic and
    whether variations were asked for. *)
Definition job : Type := str * str * bool.

(** [@app.route('/create', methods=['GET', 'POST']) def create_campaign],
    given the request's method and the two fields of its form.  The
    thread it starts is returned beside the view, as the arguments
    [run_pipeline_async] is to be called with. *)
Definition create_campaign (method : str) (form_topic form_variations : option str)
  : M (view * option job) :=
  if str_eqb method (lit "POST") then
    let generate_variations :=
      match form_variations with
      | Some v => str_eqb v (lit "on")
      | None => false
      end in
    match form_topic with
    | Some topic =>
        if bool_decide (topic = []) || bool_decide (strip topic = []) then
          ret (Page (Template (lit "create.html")
                       [ (lit "error", VStr (lit "Please enter a topic")) ]), None)
        else
          let* campaign_id := Utils.generate_campaign_id in
          let* started_at := now in
          let* _ := set_status campaign_id
                      (VDict [ (lit "status", VStr (lit "starting"));
                               (lit "topic", VStr topic);
                               (lit "started_at", VStr (isoformat started_at)) ]) in
          ret (RedirectToStatus campaign_id,
               Some (campaign_id, topic, generate_variations))
    | None =>
        ret (Page (Template (lit "create.html")
                     [ (lit "error", VStr (lit "Please enter a topic")) ]), None)
    end
  else ret (Page (Template (lit "create.html") []), None).

End Dashboard.

(* ===================================================================== *)
(** * Verification *)
(* ===================================================================== *)

Section StringLemmas.
Import PyStr.

Lemma dropwhile_suffix p s : exists pre, s = pre ++ dropwhile p s.
Proof.
  induction s as [|c s IH]; simpl.
  - exists []. reflexivity.
  - destruct (p c).
    + destruct IH as [pre E]. exists (c :: pre). simpl. congruence.
    + exists []. reflexivity.
Qed.

Lemma dropwhile_id p s :
  match s with [] => True | c :: _ => p c = false end -> dropwhile p s = s.
Proof. destruct s as [|c s]; simpl; [easy|]. intros ->. reflexivity. Qed.

Lemma dropwhile_head p s :
  match dropwhile p s with [] => True | c :: _ => p c = false end.
Proof.
  induction s as [|c s IH]; simpl; [exact I|].
  destruct (p c) eqn:E; [exact IH|exact E].
Qed.

Lemma dropwhile_idem p s : dropwhile p (dropwhile p s) = dropwhile p s.
Proof. apply dropwhile_id, dropwhile_head. Qed.

(** [rstrip] returns a prefix of its argument. *)
Lemma rstrip_prefix s : exists suf, s = rstrip s ++ suf.
Proof.
  unfold rstrip. destruct (dropwhile_suffix isspace (rev s)) as [pre E].
  exists (rev pre).
  rewrite <- rev_app_distr, <- E, rev_involutive. reflexivity.
Qed.

Lemma rstrip_length s : (length (rstrip s) <= length s)%nat.
Proof.
  destruct (rstrip_prefix s) as [suf E].
  rewrite E at 2. rewrite length_app. lia.
Qed.

Lemma rstrip_idem s : rstrip (rstrip s) = rstrip s.
Proof. unfold rstrip. rewrite rev_involutive, dropwhile_idem. reflexivity. Qed.

Lemma rstrip_incl s c : In c (rstrip s) -> In c s.
Proof.
  destruct (rstrip_prefix s) as [suf E]. intros H.
  rewrite E. apply in_or_app. left. exact H.
Qed.

Lemma filter_all_id {A} (f : A -> bool) l :
  Forall (fun x => f x = true) l -> List.filter f l = l.
Proof.
  induction 1 as [|x l Hx _ IH]; simpl; [reflexivity|].
  rewrite Hx, IH. reflexivity.
Qed.

Lemma firstn_incl {A} n (l : list A) x : In x (firstn n l) -> In x l.
Proof.
  intros H. rewrite <- (firstn_skipn n l). apply in_or_app. left. exact H.
Qed.

End StringLemmas.

(* --------------------------------------------------------------------- *)
(** ** [sanitize_filename] *)
(* --------------------------------------------------------------------- *)

Section Sanitize.
Import PyStr Utils.
Variable ucd : char -> bool.

Lemma sanitize_chars s : Forall (fun c => keep ucd c = true) (sanitize_filename ucd s).
Proof.
  apply List.Forall_forall. intros c H. unfold sanitize_filename in H.
  apply firstn_incl, rstrip_incl, filter_In in H. tauto.
Qed.

Lemma sanitize_length s : (length (sanitize_filename ucd s) <= 50)%nat.
Proof. unfold sanitize_filename. apply firstn_le_length. Qed.

(** A second pass keeps every character and cannot truncate: all it does
    is strip the blanks that the cut at 50 left at the end. *)
Lemma sanitize_twice s :
  sanitize_filename ucd (sanitize_filename ucd s) = rstrip (sanitize_filename ucd s).
Proof.
  unfold sanitize_filename at 1.
  rewrite (filter_all_id _ _ (sanitize_chars s)).
  apply firstn_all2.
  pose proof (rstrip_length (sanitize_filename ucd s)).
  pose proof (sanitize_length s). lia.
Qed.

End Sanitize.

(** The 51-character title ["a" * 49 + " b"]. *)
Definition title51 : PyStr.str :=
  (repeat 97%N 49 ++ PyStr.lit " b").

(** C2, as stated, fails: the cut at 50 characters comes after [rstrip],
    so it can leave a trailing blank, which a second application strips.
    On ["a" * 49 + " b"] the first result is ["a" * 49 + " "] and the
    second ["a" * 49], whatever the Unicode table above ASCII is. *)
Lemma sanitize_filename_not_idempotent :
  exists s, forall ucd,
    Utils.sanitize_filename ucd s = repeat 97%N 49 ++ [32%N] /\
    Utils.sanitize_filename ucd (Utils.sanitize_filename ucd s) = repeat 97%N 49 /\
    Utils.sanitize_filename ucd (Utils.sanitize_filename ucd s)
      <> Utils.sanitize_filename ucd s.
Proof.
  exists title51. intros ucd.
  assert (E1 : Utils.sanitize_filename ucd title51 = repeat 97%N 49 ++ [32%N])
    by reflexivity.
  assert (E2 : Utils.sanitize_filename ucd (repeat 97%N 49 ++ [32%N]) = repeat 97%N 49)
    by reflexivity.
  rewrite E1, E2. repeat split. intros H.
  apply (f_equal (@length _)) in H. vm_compute in H. discriminate.
Qed.

(** C2 (amended): the output of [sanitize_filename] holds only
    alphanumerics, spaces, hyphens and underscores and has at most 50
    characters; applying it twice yields the once-sanitized name with its
    trailing whitespace stripped, so the two agree whenever the filtered,
    right-stripped text has at most 50 characters, and from the second
    application on the result no longer changes. *)
Theorem sanitize_filename_spec (ucd : PyStr.char -> bool) (s : PyStr.str) :
  let once := Utils.sanitize_filename ucd s in
  let twice := Utils.sanitize_filename ucd once in
  Forall (fun c => PyStr.isalnum ucd c = true \/ c = 32%N \/ c = 45%N \/ c = 95%N) once
  /\ (length once <= 50)%nat
  /\ twice = PyStr.rstrip once
  /\ ((length (PyStr.rstrip (List.filter (Utils.keep ucd) s)) <= 50)%nat -> twice = once)
  /\ Utils.sanitize_filename ucd twice = twice.
Proof.
  cbv zeta. repeat split.
  - eapply List.Forall_impl; [|apply sanitize_chars]. cbv beta. intros c H.
    unfold Utils.keep in H.
    repeat (apply orb_prop in H; destruct H as [H|H]); auto;
      apply N.eqb_eq in H; auto.
  - apply sanitize_length.
  - apply sanitize_twice.
  - intros Hlen. rewrite sanitize_twice. unfold Utils.sanitize_filename.
    rewrite firstn_all2 by exact Hlen. apply rstrip_idem.
  - rewrite (sanitize_twice ucd (Utils.sanitize_filename ucd s)).
    rewrite !sanitize_twice. apply rstrip_idem.
Qed.

(* --------------------------------------------------------------------- *)
(** ** The world monad *)
(* --------------------------------------------------------------------- *)

Section MonadLemmas.
Import PyStr Py.

Lemma bind_ok {A B} (m : M A) (k : A -> M B) w b w' :
  bind m k w = (Ok b, w') ->
  exists a w1, m w = (Ok a, w1) /\ k a w1 = (Ok b, w').
Proof.
  unfold bind. destruct (m w) as [[a|e] w1]; intros H.
  - exists a, w1. split; [reflexivity|exact H].
  - discriminate.
Qed.

Lemma lift_ok {A} (r : result A) w a w' :
  lift r w = (Ok a, w') -> r = Ok a /\ w' = w.
Proof. unfold lift. intros H. inversion H. split; reflexivity. Qed.

Lemma ret_ok {A} (x : A) w a w' : ret x w = (Ok a, w') -> a = x /\ w' = w.
Proof. unfold ret. intros H. inversion H. split; reflexivity. Qed.

(** A computation that leaves an observation [f] of the world as it found
    it, whether it returns or raises. *)
Definition preserves {X A} (f : world -> X) (m : M A) : Prop :=
  forall w, f (snd (m w)) = f w.

Section Preserves.
Context {X : Type} (f : world -> X).

Lemma preserves_ret {A} (a : A) : preserves f (ret a).
Proof. intros w. reflexivity. Qed.

Lemma preserves_raise {A} e : preserves f (@raise A e).
Proof. intros w. reflexivity. Qed.

Lemma preserves_lift {A} (r : result A) : preserves f (lift r).
Proof. intros w. reflexivity. Qed.

Lemma preserves_bind {A B} (m : M A) (k : A -> M B) :
  preserves f m -> (forall a, preserves f (k a)) -> preserves f (bind m k).
Proof.
  intros Hm Hk w. unfold bind. specialize (Hm w).
  destruct (m w) as [[a|e] w1]; simpl in *.
  - rewrite Hk. exact Hm.
  - exact Hm.
Qed.

Lemma preserves_try_except {A} (m : M A) (h : exn -> M A) :
  preserves f m -> (forall e, preserves f (h e)) -> preserves f (try_except m h).
Proof.
  intros Hm Hh w. unfold try_except. specialize (Hm w).
  destruct (m w) as [[a|e] w1]; simpl in *.
  - exact Hm.
  - rewrite Hh. exact Hm.
Qed.

Lemma preserves_for_each {A B} (xs : list A) (body : A -> B -> M B) :
  (forall x acc, preserves f (body x acc)) ->
  forall acc, preserves f (for_each xs acc body).
Proof.
  intros Hb. induction xs as [|x xs IH]; intros acc; simpl.
  - apply preserves_ret.
  - apply preserves_bind; [apply Hb|exact IH].
Qed.

(** One step of a run, read backwards. *)
Lemma preserves_step {A} (m : M A) w r w' :
  preserves f m -> m w = (r, w') -> f w' = f w.
Proof. intros Hm E. specialize (Hm w). rewrite E in Hm. exact Hm. Qed.

End Preserves.

(** An observation that none of the reading primitives changes. *)
Definition inert {X} (f : world -> X) : Prop :=
  preserves f http_request /\ preserves f draw /\ preserves f now
  /\ preserves f ask_llm /\ preserves f get_mock_mode
  /\ (forall c, preserves f (get_status c))
  /\ (forall v, preserves f (str_of v))
  /\ preserves f get_ucd_alnum
  /\ (forall p, preserves f (path_exists p))
  /\ (forall p, preserves f (read_file p)).

(** The file at a path. *)
Definition file_at (q : str) (w : world) : option (list N) := fs w !! q.

Lemma inert_mock_mode : inert mock_mode.
Proof.
  repeat split; try (intros w; reflexivity).
  intros p w. unfold read_file. destruct (fs w !! p); reflexivity.
Qed.

Lemma inert_file_at q : inert (file_at q).
Proof.
  repeat split; try (intros w; reflexivity).
  intros p w. unfold read_file. destruct (fs w !! p); reflexivity.
Qed.

Lemma mode_write_file p b : preserves mock_mode (write_file p b).
Proof. intros w. reflexivity. Qed.

Lemma mode_set_status c v : preserves mock_mode (set_status c v).
Proof. intros w. reflexivity. Qed.

Lemma file_set_mock_mode q b : preserves (file_at q) (set_mock_mode b).
Proof. intros w. reflexivity. Qed.

Lemma file_set_status q c v : preserves (file_at q) (set_status c v).
Proof. intros w. reflexivity. Qed.

(** Writing one file leaves every other file alone. *)
Lemma file_write_file q p b : p <> q -> preserves (file_at q) (write_file p b).
Proof.
  intros Hne w. unfold file_at, write_file. simpl.
  apply lookup_insert_ne. exact Hne.
Qed.

End MonadLemmas.

Create HintDb preserves.
#[export] Hint Resolve preserves_ret preserves_raise preserves_lift
  mode_write_file mode_set_status file_set_mock_mode file_set_status : preserves.

(** Closes [preserves] goals over code built from the primitives; the
    hypotheses in scope say what the observation is inert for. *)
Ltac keeps :=
  repeat match goal with
         | H : inert _ |- _ => unfold inert in H; decompose [and] H; clear H
         end;
  repeat first
    [ progress auto with preserves
    | apply preserves_bind; [|intros]
    | apply preserves_try_except; [|intros]
    | apply preserves_for_each; intros
    | match goal with
      | |- preserves _ (if ?c then _ else _) => destruct c
      | |- preserves _ (match ?x with _ => _ end) => destruct x
      | |- preserves _ (let '(_, _) := ?x in _) => destruct x
      | |- preserves _ (match ?x with _ => _ end _) => destruct x
      end ].

(* --------------------------------------------------------------------- *)
(** ** [segment_contacts] *)
(* --------------------------------------------------------------------- *)

(** The persona a contact is filed under: its ['persona'] tag when that is
    a string, ['founders'] when the contact has no such key, and none when
    the tag is some other value ([None], a number, ...). *)
Definition persona_of (contact : Py.pyval) : option PyStr.str :=
  match contact with
  | Py.VDict d =>
      match Py.dict_get d (PyStr.lit "persona") with
      | None => Some (PyStr.lit "founders")
      | Some (Py.VStr p) => Some p
      | Some _ => None
      end
  | _ => None
  end.

Definition files_under (p : PyStr.str) (contact : Py.pyval) : bool :=
  bool_decide (persona_of contact = Some p).

(** The contacts [segment_contacts] accepts: dicts whose tag is hashable. *)
Definition contact_ok (contact : Py.pyval) : Prop :=
  exists d, contact = Py.VDict d /\
    match Py.dict_get d (PyStr.lit "persona") with
    | Some v => Py.hashable v = true
    | None => True
    end.

Definition registry : list PyStr.str := Py.dict_keys Config.PERSONAS.

Section Segments.
Import PyStr Py CRM.

Lemma str_eqb_eq a b : str_eqb a b = true <-> a = b.
Proof. unfold str_eqb. apply bool_decide_eq_true. Qed.

Lemma str_eqb_refl a : str_eqb a a = true.
Proof. apply str_eqb_eq. reflexivity. Qed.

Lemma str_eqb_neq a b : str_eqb a b = false <-> a <> b.
Proof. unfold str_eqb. apply bool_decide_eq_false. Qed.

Lemma seg_mem_In segs k : seg_mem segs k = true <-> In k (List.map fst segs).
Proof.
  induction segs as [|[k' l] segs IH]; simpl.
  - split; [discriminate|tauto].
  - rewrite orb_true_iff, IH, str_eqb_eq. tauto.
Qed.

Lemma seg_append_keys segs k c :
  List.map fst (seg_append segs k c) = List.map fst segs.
Proof.
  induction segs as [|[k' l] segs IH]; simpl; [reflexivity|].
  destruct (str_eqb k' k); simpl; [reflexivity|]. rewrite IH. reflexivity.
Qed.

Lemma segs_unchanged (f : str -> list pyval) (segs : segments) :
  (forall p, In p (List.map fst segs) -> f p = []) ->
  segs = List.map (fun '(p, l) => (p, l ++ f p)) segs.
Proof.
  induction segs as [|[p l] segs IH]; simpl; intros Hf; [reflexivity|].
  rewrite (Hf p) by tauto. rewrite app_nil_r. f_equal.
  apply IH. intros; apply Hf; tauto.
Qed.

(** With distinct keys, appending under [k] extends exactly the group of
    the contacts filed under [k]. *)
Lemma seg_append_spec segs k c :
  List.NoDup (List.map fst segs) ->
  seg_append segs k c =
  List.map (fun '(p, l) => (p, l ++ (if str_eqb p k then [c] else []))) segs.
Proof.
  induction segs as [|[k' l] segs IH]; simpl; intros ND; [reflexivity|].
  inversion ND as [|? ? Hnin ND']; subst.
  destruct (str_eqb k' k) eqn:E.
  - f_equal. apply str_eqb_eq in E. subst k'.
    apply (segs_unchanged (fun p => if str_eqb p k then [c] else [])).
    intros p Hp. destruct (str_eqb p k) eqn:E2; [|reflexivity].
    apply str_eqb_eq in E2. congruence.
  - rewrite app_nil_r. f_equal. apply IH. exact ND'.
Qed.

Lemma segment_step_spec segs c segs' :
  List.NoDup (List.map fst segs) ->
  segment_step segs c = Ok segs' ->
  segs' = List.map (fun '(p, l) => (p, l ++ (if files_under p c then [c] else []))) segs.
Proof.
  intros ND. unfold segment_step, get_default, files_under, persona_of.
  pose proof (fun f => segs_unchanged f segs) as Hid.
  destruct c as [| | | | |?|d]; try discriminate.
  remember (lit "founders") as fd eqn:Hfd.
  destruct (dict_get d (lit "persona")) as [v|] eqn:Eg.
  - destruct v; simpl; try discriminate; intros H; inversion H; subst; clear H.
    1-4: apply (Hid (fun p => _)); intros p _; reflexivity.
    destruct (seg_mem segs s) eqn:Em; inversion H1; subst; clear H1.
    + rewrite seg_append_spec by exact ND. apply map_ext. intros [p l].
      unfold str_eqb.
      rewrite (bool_decide_ext (p = s) (Some s = Some p)); [reflexivity|].
      split; [intros ->; reflexivity|intros [=]; congruence].
    + apply (Hid (fun p => _)). intros p Hp.
      rewrite bool_decide_eq_false_2; [reflexivity|].
      intros [= ->]. apply seg_mem_In in Hp. congruence.
  - cbn [hashable].
    destruct (seg_mem segs fd) eqn:Em; intros H; inversion H; subst segs'; clear H.
    + rewrite seg_append_spec by exact ND. apply map_ext. intros [p l].
      unfold str_eqb.
      rewrite (bool_decide_ext (p = fd) (Some fd = Some p)); [reflexivity|].
      split; [intros ->; reflexivity|intros [=]; congruence].
    + apply (Hid (fun p => _)). intros p Hp.
      rewrite bool_decide_eq_false_2; [reflexivity|].
      intros [= ->]. apply seg_mem_In in Hp. congruence.
Qed.

Lemma segment_loop_spec contacts : forall segs segs',
  List.NoDup (List.map fst segs) ->
  segment_loop segs contacts = Ok segs' ->
  segs' = List.map (fun '(p, l) => (p, l ++ List.filter (files_under p) contacts)) segs.
Proof.
  induction contacts as [|c cs IH]; simpl; intros segs segs' ND H.
  - inversion H; subst. rewrite <- (map_id segs') at 1. apply map_ext.
    intros [p l]. rewrite app_nil_r. reflexivity.
  - destruct (segment_step segs c) as [s1|e] eqn:E1; [|discriminate].
    pose proof (segment_step_spec _ _ _ ND E1) as ->.
    apply IH in H.
    + rewrite H, List.map_map. apply map_ext. intros [p l].
      rewrite <- app_assoc. destruct (files_under p c); reflexivity.
    + rewrite List.map_map. erewrite map_ext; [exact ND|]. intros [p l]. reflexivity.
Qed.

(** What [segment_contacts] returns, when it returns: one group per
    registry persona, in registry order, holding in input order the
    contacts filed under that persona. *)
Lemma segment_contacts_spec contacts segs :
  segment_contacts contacts = Ok segs ->
  segs = List.map (fun p => (p, List.filter (files_under p) contacts)) registry.
Proof.
  intros H. apply segment_loop_spec in H.
  - rewrite H. unfold empty_segments, registry. rewrite List.map_map. reflexivity.
  - vm_compute. repeat constructor; simpl; intuition discriminate.
Qed.

Lemma segment_step_keys segs c segs' :
  segment_step segs c = Ok segs' -> List.map fst segs' = List.map fst segs.
Proof.
  unfold segment_step. destruct (get_default _ _ _) as [v|]; [|discriminate].
  destruct (hashable v); [|discriminate].
  destruct v; try (intros [= <-]; reflexivity).
  destruct (seg_mem segs s); intros [= <-]; [apply seg_append_keys|reflexivity].
Qed.

(** It returns on every list of dicts with hashable tags. *)
Lemma segment_loop_total contacts : forall segs,
  Forall contact_ok contacts -> exists segs', segment_loop segs contacts = Ok segs'.
Proof.
  induction contacts as [|c cs IH]; simpl; intros segs HF.
  - eexists; reflexivity.
  - inversion HF as [|? ? [d [-> Hh]] HF']; subst.
    assert (exists s1, segment_step segs (VDict d) = Ok s1) as [s1 ->].
    { unfold segment_step, get_default.
      destruct (dict_get d (lit "persona")) as [v|].
      - rewrite Hh. destruct v; try (eexists; reflexivity).
        destruct (seg_mem segs s); eexists; reflexivity.
      - simpl. destruct (seg_mem segs (lit "founders")); eexists; reflexivity. }
    apply IH. exact HF'.
Qed.

End Segments.

Section SegmentTheorems.
Import PyStr Py CRM.

Lemma in_segments contacts segs p group :
  segment_contacts contacts = Ok segs ->
  In (p, group) segs <->
  In p registry /\ group = List.filter (files_under p) contacts.
Proof.
  intros H. apply segment_contacts_spec in H. subst segs.
  rewrite in_map_iff. split.
  - intros [q [[= <- <-] Hq]]. tauto.
  - intros [Hp ->]. exists p. tauto.
Qed.

Lemma in_group contacts p c :
  In c (List.filter (files_under p) contacts) <->
  In c contacts /\ persona_of c = Some p.
Proof.
  rewrite filter_In. unfold files_under. rewrite bool_decide_eq_true. tauto.
Qed.

End SegmentTheorems.

(** A contact tagged with a persona outside the registry. *)
Definition marketing_contact : Py.pyval :=
  Py.VDict [ (PyStr.lit "email", Py.VStr (PyStr.lit "kim@example.com"));
             (PyStr.lit "persona", Py.VStr (PyStr.lit "marketing")) ].

(** C4, as stated, fails: a contact whose tag is not a registry persona
    passes the [if persona in segments] guard into no group at all; it is
    dropped, not filed under the default persona. *)
Lemma segment_contacts_drops_unknown :
  CRM.segment_contacts [marketing_contact] =
  Py.Ok [ (PyStr.lit "founders", []); (PyStr.lit "creatives", []);
          (PyStr.lit "operations", []) ].
Proof. reflexivity. Qed.

(** C4 (amended): of the contacts given to [segment_contacts], one with
    no persona tag is filed under the default persona ['founders'], one
    whose tag names a registry persona is filed under that persona and
    under no other, and one whose tag is anything else is in no group; so
    every contact is in at most one group. *)
Theorem segment_contacts_placement
  (contacts : list Py.pyval) (segs : CRM.segments) (c : Py.pyval)
  (Hrun : CRM.segment_contacts contacts = Py.Ok segs) (Hc : In c contacts) :
  (forall d, c = Py.VDict d -> Py.dict_get d (PyStr.lit "persona") = None ->
     exists group, In (PyStr.lit "founders", group) segs /\ In c group)
  /\ (forall p, persona_of c = Some p -> In p registry ->
        exists group, In (p, group) segs /\ In c group)
  /\ (forall p, persona_of c = Some p -> ~ In p registry ->
        forall q group, In (q, group) segs -> ~ In c group)
  /\ (persona_of c = None ->
        forall q group, In (q, group) segs -> ~ In c group)
  /\ (forall q1 g1 q2 g2, In (q1, g1) segs -> In (q2, g2) segs ->
        In c g1 -> In c g2 -> q1 = q2 /\ g1 = g2).
Proof.
  pose proof (in_segments contacts segs) as HS.
  pose proof (in_group contacts) as HG.
  assert (Hfiled : forall p, persona_of c = Some p -> In p registry ->
            exists group, In (p, group) segs /\ In c group).
  { intros p Hp Hr. exists (List.filter (files_under p) contacts). split.
    - apply HS; [exact Hrun|]. tauto.
    - apply HG. tauto. }
  split; [|split; [|split; [|split]]].
  - intros d -> Hd. apply Hfiled.
    + unfold persona_of. rewrite Hd. reflexivity.
    + vm_compute. tauto.
  - exact Hfiled.
  - intros p Hp Hnr q group Hin Hcg.
    apply HS in Hin; [|exact Hrun]. destruct Hin as [Hq ->].
    apply HG in Hcg. destruct Hcg as [_ Hcq]. congruence.
  - intros Hn q group Hin Hcg.
    apply HS in Hin; [|exact Hrun]. destruct Hin as [Hq ->].
    apply HG in Hcg. destruct Hcg as [_ Hcq]. congruence.
  - intros q1 g1 q2 g2 H1 H2 Hc1 Hc2.
    apply HS in H1; [|exact Hrun]. apply HS in H2; [|exact Hrun].
    destruct H1 as [_ ->], H2 as [_ ->].
    apply HG in Hc1, Hc2. destruct Hc1 as [_ E1], Hc2 as [_ E2].
    assert (q1 = q2) by congruence. subst. split; reflexivity.
Qed.

Definition untagged_contact : Py.pyval :=
  Py.VDict [ (PyStr.lit "email", Py.VStr (PyStr.lit "lee@example.com")) ].

Definition creative_contact : Py.pyval :=
  Py.VDict [ (PyStr.lit "email", Py.VStr (PyStr.lit "sam@example.com"));
             (PyStr.lit "persona", Py.VStr (PyStr.lit "creatives")) ].

(** The placement theorem at three contacts: tagged for the registry,
    untagged, and tagged outside it. *)
Lemma segment_contacts_placement_witness :
  CRM.segment_contacts [creative_contact; untagged_contact; marketing_contact] =
    Py.Ok [ (PyStr.lit "founders", [untagged_contact]);
            (PyStr.lit "creatives", [creative_contact]);
            (PyStr.lit "operations", []) ]
  /\ exists group,
       In (PyStr.lit "founders", group)
          [ (PyStr.lit "founders", [untagged_contact]);
            (PyStr.lit "creatives", [creative_contact]);
            (PyStr.lit "operations", []) ]
       /\ In untagged_contact group.
Proof.
  split; [reflexivity|].
  refine (proj1 (segment_contacts_placement
           [creative_contact; untagged_contact; marketing_contact] _
           untagged_contact _ _) _ eq_refl eq_refl).
  - reflexivity.
  - right; left; reflexivity.
Defined.

(** C9: whatever the contact list (the empty one included), the
    dictionary [segment_contacts] returns has exactly the registry's
    personas as its keys, founders, creatives, operations in that order,
    and the group of a persona that no contact is filed under is empty.
    It returns such a dictionary for every list of contact dicts with
    hashable tags. *)
Theorem segment_contacts_keys (contacts : list Py.pyval) :
  (Forall contact_ok contacts ->
     exists segs, CRM.segment_contacts contacts = Py.Ok segs)
  /\ (forall segs, CRM.segment_contacts contacts = Py.Ok segs ->
        List.map fst segs =
          [PyStr.lit "founders"; PyStr.lit "creatives"; PyStr.lit "operations"]
        /\ (forall p group, In (p, group) segs ->
              (forall c, In c contacts -> persona_of c <> Some p) -> group = []))
  /\ CRM.segment_contacts [] =
       Py.Ok [ (PyStr.lit "founders", []); (PyStr.lit "creatives", []);
               (PyStr.lit "operations", []) ].
Proof.
  split; [|split].
  - intros HF. apply segment_loop_total. exact HF.
  - intros segs Hrun. split.
    + apply segment_contacts_spec in Hrun. subst segs.
      rewrite List.map_map. reflexivity.
    + intros p group Hin Hnone.
      apply (in_segments _ _ _ _ Hrun) in Hin. destruct Hin as [_ ->].
      destruct (List.filter (files_under p) contacts) as [|c l] eqn:E; [reflexivity|].
      assert (Hc : In c (List.filter (files_under p) contacts)) by (rewrite E; left; reflexivity).
      apply in_group in Hc. destruct Hc as [Hc Hp]. destruct (Hnone c Hc Hp).
  - reflexivity.
Qed.

(* --------------------------------------------------------------------- *)
(** ** [send_campaign] and [log_campaign] *)
(* --------------------------------------------------------------------- *)

(** Splits a successful run of a sequence of binds into its steps. *)
Ltac run_ok H :=
  repeat match type of H with
         | Py.bind _ _ _ = (Py.Ok _, _) =>
             let a := fresh "a" in let w1 := fresh "w" in
             let H1 := fresh "Hstep" in
             apply bind_ok in H; destruct H as [a [w1 [H1 H]]]
         end.

Section CampaignLemmas.
Import PyStr Py CRM.
Context {X : Type} (f : world -> X) (Hf : inert f).

Lemma inert_randint a b : preserves f (randint a b).
Proof. unfold randint. keeps. Qed.

Lemma inert_format_timestamp : preserves f Utils.format_timestamp.
Proof. unfold Utils.format_timestamp. keeps. Qed.

Lemma inert_generate_campaign_id : preserves f Utils.generate_campaign_id.
Proof. unfold Utils.generate_campaign_id. keeps. Qed.

Lemma inert_mock_campaign_response p : preserves f (mock_campaign_response p).
Proof.
  unfold mock_campaign_response.
  pose proof inert_format_timestamp. pose proof inert_randint. keeps.
Qed.

Lemma inert_mock_distribution_entry nls p : preserves f (mock_distribution_entry nls p).
Proof.
  unfold mock_distribution_entry.
  pose proof inert_format_timestamp. pose proof inert_randint. keeps.
Qed.

Lemma inert_mock_campaign_distribution d : preserves f (mock_campaign_distribution d).
Proof.
  unfold mock_campaign_distribution.
  pose proof inert_mock_distribution_entry. keeps.
Qed.

Lemma inert_payload_lookups d n : preserves f (payload_lookups d n).
Proof. unfold payload_lookups. keeps. Qed.

Lemma inert_check_marketing_access : preserves f check_marketing_access.
Proof. unfold check_marketing_access. keeps. Qed.

Lemma inert_send_loop d todo : forall results, preserves f (send_loop d todo results).
Proof.
  pose proof inert_payload_lookups. pose proof inert_mock_campaign_response.
  pose proof inert_mock_campaign_distribution.
  induction todo as [|[persona newsletter] todo IH]; intros results; simpl; keeps.
Qed.

Lemma inert_send_campaign d : preserves f (send_campaign d).
Proof.
  unfold send_campaign.
  pose proof inert_check_marketing_access. pose proof inert_send_loop.
  pose proof inert_mock_campaign_distribution. keeps.
Qed.

Lemma inert_log_campaign d : preserves f (log_campaign d).
Proof. unfold log_campaign. pose proof inert_format_timestamp. keeps. Qed.

Lemma inert_create_mock_contacts n : preserves f (create_mock_contacts n).
Proof. unfold create_mock_contacts, mock_contact, choice. keeps. Qed.

End CampaignLemmas.

Section LogCampaign.
Import PyStr Py CRM.

(** The mode [log_campaign] records is the flag's value when it is called. *)
Lemma log_campaign_mode d w entry w' :
  log_campaign d w = (Ok entry, w') ->
  dict_get entry (lit "mode")
  = Some (VStr (if mock_mode w then lit "mock" else lit "production"))
  /\ dict_get entry (lit "status")
     = Some (VStr (if mock_mode w then lit "simulated" else lit "sent")).
Proof.
  unfold log_campaign. intros H. run_ok H.
  apply lift_ok in Hstep as [_ ->]. apply lift_ok in Hstep0 as [_ ->].
  assert (mock_mode w2 = mock_mode w) as Hm.
  { exact (preserves_step _ _ _ _ _ (inert_format_timestamp _ inert_mock_mode) Hstep1). }
  apply lift_ok in Hstep2 as [_ ->]. apply lift_ok in Hstep3 as [_ ->].
  unfold get_mock_mode in Hstep4. inversion Hstep4; subst. clear Hstep4.
  apply ret_ok in H as [-> _]. rewrite Hm.
  destruct (mock_mode w); split; reflexivity.
Qed.

End LogCampaign.

(** A campaign with one newsletter, and a world whose credential passes
    the constructor's test, whose marketing probe answers 200 and whose
    every later request is refused with a 401. *)
Definition one_newsletter_campaign : Py.pyval :=
  Py.VDict
    [ (PyStr.lit "campaign_id", Py.VStr (PyStr.lit "campaign_20250101_120000"));
      (PyStr.lit "blog_title", Py.VStr (PyStr.lit "Automating Client Onboarding"));
      (PyStr.lit "newsletters",
       Py.VDict [ (PyStr.lit "founders",
                   Py.VDict [ (PyStr.lit "subject_line", Py.VStr (PyStr.lit "Grow faster"));
                              (PyStr.lit "content", Py.VStr (PyStr.lit "Hello")) ]) ]) ].

Definition noon : Py.datetime :=
  {| Py.isoformat := PyStr.lit "2025-01-01T12:00:00";
     Py.strftime_id := PyStr.lit "20250101_120000" |}.

Definition refusing_world : Py.world :=
  {| Py.env_hubspot_key := Some (PyStr.lit "pat-na1-0123456789abcdef");
     Py.mock_mode := true;
     Py.http := fun n => match n with
                         | O => Py.Response 200 None
                         | _ => Py.Response 401 None
                         end;
     Py.http_n := 0;
     Py.rng := fun _ => 7%N;  Py.rng_n := 0;
     Py.clock := fun _ => noon;  Py.clock_n := 0;
     Py.llm := fun _ => None;  Py.llm_n := 0;
     Py.fs := ∅;
     Py.running_pipelines := [];
     Py.ucd_alnum := fun _ => false;
     Py.py_repr := fun _ => [] |}.

(** C3, as stated, fails.  The client is constructed live; the probe
    answers 200 and the send is refused with a 401.  [send_campaign]
    returns the mock distribution, yet the client's [mock_mode] is still
    false afterwards and [log_campaign] still records production mode. *)
Lemma send_campaign_401_stays_live :
  let after_init := snd (CRM.init refusing_world) in
  let sent := CRM.send_campaign one_newsletter_campaign after_init in
  let logged := CRM.log_campaign one_newsletter_campaign (snd sent) in
  Py.mock_mode after_init = false
  /\ fst sent =
       Py.Ok [ (PyStr.lit "founders",
                Py.VDict [ (PyStr.lit "id", Py.VStr (PyStr.lit "campaign_founders_1007"));
                           (PyStr.lit "status", Py.VStr (PyStr.lit "SIMULATED"));
                           (PyStr.lit "created", Py.VStr (PyStr.lit "2025-01-01T12:00:00"));
                           (PyStr.lit "persona", Py.VStr (PyStr.lit "founders"));
                           (PyStr.lit "recipients", Py.VInt 87);
                           (PyStr.lit "subject", Py.VStr (PyStr.lit "Grow faster"));
                           (PyStr.lit "mock", Py.VBool true) ]) ]
  /\ Py.mock_mode (snd sent) = false
  /\ exists entry,
       fst logged = Py.Ok entry
       /\ Py.dict_get entry (PyStr.lit "mode") = Some (Py.VStr (PyStr.lit "production"))
       /\ Py.dict_get entry (PyStr.lit "status") = Some (Py.VStr (PyStr.lit "sent")).
Proof.
  cbv zeta. split; [reflexivity|]. split; [vm_compute; reflexivity|].
  split; [reflexivity|].
  eexists. split; [vm_compute; reflexivity|]. split; reflexivity.
Qed.

(** C3 (amended): [send_campaign] never changes the client's [mock_mode]
    flag.  A 401 or 403 answer to the request for one persona makes it
    drop what it collected and return the simulated distribution of the
    whole campaign; the client stays in the mode it was in, so a
    [log_campaign] that follows records that mode. *)
Theorem send_campaign_keeps_mode (campaign_data : Py.pyval) (w : Py.world) :
  Py.mock_mode (snd (CRM.send_campaign campaign_data w)) = Py.mock_mode w
  /\ (forall persona newsletter todo results status body,
        Py.http w (Py.http_n w) = Py.Response status body ->
        status = 401%Z \/ status = 403%Z ->
        fst (CRM.payload_lookups campaign_data newsletter w) = Py.Ok tt ->
        CRM.send_loop campaign_data ((persona, newsletter) :: todo) results w
        = Py.bind Py.http_request
            (fun _ => CRM.mock_campaign_distribution campaign_data) w)
  /\ (forall entry w',
        CRM.log_campaign campaign_data (snd (CRM.send_campaign campaign_data w))
          = (Py.Ok entry, w') ->
        Py.dict_get entry (PyStr.lit "mode")
        = Some (Py.VStr (if Py.mock_mode w then PyStr.lit "mock"
                         else PyStr.lit "production"))).
Proof.
  split; [apply (inert_send_campaign _ inert_mock_mode)|]. split.
  - intros persona newsletter todo results status body Hreply Hst Hpay.
    simpl. unfold Py.bind at 1.
    destruct (CRM.payload_lookups campaign_data newsletter w) as [r w1] eqn:E.
    simpl in Hpay. subst r.
    assert (w1 = w) as ->.
    { unfold CRM.payload_lookups in E. run_ok E.
      repeat match goal with
             | H : Py.lift _ _ = _ |- _ => apply lift_ok in H as [_ ->]
             end.
      apply ret_ok in E as [_ ->]. reflexivity. }
    unfold Py.bind, Py.http_request. rewrite Hreply.
    destruct Hst as [-> | ->]; reflexivity.
  - intros entry w' Hlog. apply log_campaign_mode in Hlog as [Hmode _].
    rewrite Hmode, (inert_send_campaign _ inert_mock_mode). reflexivity.
Qed.

(** C10: in the entry [log_campaign] returns, the status is ['simulated']
    exactly when the mode is ['mock'] and ['sent'] exactly when the mode
    is ['production']; both follow the client's [mock_mode] flag at the
    time of the call; and the personas are the keys of the input's
    newsletters, in their order. *)
Theorem log_campaign_entry
  (campaign_data : Py.pyval) (w w' : Py.world) (entry : Py.dict)
  (Hrun : CRM.log_campaign campaign_data w = (Py.Ok entry, w')) :
  let status := Py.dict_get entry (PyStr.lit "status") in
  let mode := Py.dict_get entry (PyStr.lit "mode") in
  (status = Some (Py.VStr (PyStr.lit "simulated"))
     <-> mode = Some (Py.VStr (PyStr.lit "mock")))
  /\ (status = Some (Py.VStr (PyStr.lit "sent"))
        <-> mode = Some (Py.VStr (PyStr.lit "production")))
  /\ (mode = Some (Py.VStr (PyStr.lit "mock")) <-> Py.mock_mode w = true)
  /\ (mode = Some (Py.VStr (PyStr.lit "production")) <-> Py.mock_mode w = false)
  /\ exists newsletters,
       Py.getitem campaign_data (PyStr.lit "newsletters") = Py.Ok (Py.VDict newsletters)
       /\ Py.dict_get entry (PyStr.lit "personas")
          = Some (Py.VList (List.map Py.VStr (Py.dict_keys newsletters))).
Proof.
  cbv zeta. destruct (log_campaign_mode _ _ _ _ Hrun) as [Hmode Hstatus].
  rewrite Hmode, Hstatus.
  repeat split; try (destruct (Py.mock_mode w); intros; (reflexivity || discriminate)).
  unfold CRM.log_campaign in Hrun. run_ok Hrun.
  apply lift_ok in Hstep2 as [Hn _]. apply lift_ok in Hstep3 as [Hi _].
  destruct a2; try discriminate. inversion Hi; subst.
  exists a3. split; [exact Hn|].
  apply ret_ok in Hrun as [-> _]. reflexivity.
Qed.

(** The log entry of the one-newsletter campaign, logged by a live client. *)
Lemma log_campaign_entry_witness :
  Py.dict_get
    [ (PyStr.lit "campaign_id", Py.VStr (PyStr.lit "campaign_20250101_120000"));
      (PyStr.lit "blog_title", Py.VStr (PyStr.lit "Automating Client Onboarding"));
      (PyStr.lit "send_date", Py.VStr (PyStr.lit "2025-01-01T12:00:00"));
      (PyStr.lit "personas", Py.VList [Py.VStr (PyStr.lit "founders")]);
      (PyStr.lit "status", Py.VStr (PyStr.lit "sent"));
      (PyStr.lit "mode", Py.VStr (PyStr.lit "production")) ]
    (PyStr.lit "mode") = Some (Py.VStr (PyStr.lit "production"))
  <-> Py.mock_mode (snd (CRM.init refusing_world)) = false.
Proof.
  exact (proj1 (proj2 (proj2 (proj2
    (log_campaign_entry one_newsletter_campaign (snd (CRM.init refusing_world))
       _ _ eq_refl))))).
Defined.

(* --------------------------------------------------------------------- *)
(** ** [clean_response] *)
(* --------------------------------------------------------------------- *)

Section Fences.
Import PyStr.

Lemma startswith_app p s : startswith (p ++ s) p = true.
Proof.
  induction p as [|a p IH]; simpl; [reflexivity|].
  rewrite N.eqb_refl. exact IH.
Qed.

Lemma endswith_app s p : endswith (s ++ p) p = true.
Proof. unfold endswith. rewrite rev_app_distr. apply startswith_app. Qed.

Lemma slice_from_app p s : slice_from (length p) (p ++ s) = s.
Proof.
  unfold slice_from. induction p as [|a p IH]; simpl; [reflexivity|exact IH].
Qed.

Lemma slice_to_minus_app s p : slice_to_minus (length p) (s ++ p) = s.
Proof.
  unfold slice_to_minus. rewrite length_app.
  replace (length s + length p - length p)%nat with (length s + 0)%nat by lia.
  rewrite firstn_app_2. simpl. apply app_nil_r.
Qed.

(** A text that starts with a prefix has it in front. *)
Lemma startswith_inv s p : startswith s p = true -> exists t, s = p ++ t.
Proof.
  revert s. induction p as [|a p IH]; intros s H.
  - exists s. reflexivity.
  - destruct s as [|b s]; simpl in H; [discriminate|].
    apply andb_prop in H as [Hab Hs]. apply N.eqb_eq in Hab. subst b.
    destruct (IH s Hs) as [t ->]. exists t. reflexivity.
Qed.

End Fences.

(** A reply fenced with a bare opening marker, and a bare reply with
    blanks around it. *)
Definition bare_fenced_reply : PyStr.str :=
  PyStr.lit "```" ++ [10%N] ++ PyStr.lit "{}" ++ [10%N] ++ PyStr.lit "```".

Definition padded_reply : PyStr.str := PyStr.lit " {} ".

(** C6, as stated, fails twice.  Only the opening marker followed by
    [json] is recognised: a reply fenced with a bare marker keeps its
    opening fence.  And the analyzer's variant strips blanks, so it does
    not return an unfenced reply unchanged. *)
Lemma clean_response_keeps_bare_fence :
  ContentGen.clean_response bare_fenced_reply
    = PyStr.lit "```" ++ [10%N] ++ PyStr.lit "{}" ++ [10%N]
  /\ Perf.clean_response bare_fenced_reply
    = PyStr.lit "```" ++ [10%N] ++ PyStr.lit "{}"
  /\ Perf.clean_response padded_reply = PyStr.lit "{}"
  /\ Perf.clean_response padded_reply <> padded_reply.
Proof. repeat split. discriminate. Qed.

(** C6 (amended): [clean_response] removes one leading marker when the
    text starts with the marker followed by [json], and then one
    trailing marker when what is left ends with one.  So a reply fenced
    that way loses exactly its two fences, whatever its body; a reply
    fenced with a bare opening marker loses only the closing one; and a
    text with neither is returned unchanged by the generator's variant.
    The analyzer's variant returns the same text stripped of the blanks
    around it. *)
Theorem clean_response_spec (body text : PyStr.str) :
  ContentGen.clean_response (ContentGen.fence_json ++ body ++ ContentGen.fence) = body
  /\ (PyStr.startswith body (PyStr.lit "json") = false ->
      ContentGen.clean_response (ContentGen.fence ++ body ++ ContentGen.fence)
        = ContentGen.fence ++ body)
  /\ (PyStr.startswith text ContentGen.fence_json = false ->
      PyStr.endswith text ContentGen.fence = false ->
      ContentGen.clean_response text = text)
  /\ Perf.clean_response text = PyStr.strip (ContentGen.clean_response text).
Proof.
  split; [|split; [|split]].
  - unfold ContentGen.clean_response.
    rewrite startswith_app, slice_from_app, endswith_app, slice_to_minus_app.
    reflexivity.
  - intros Hb. unfold ContentGen.clean_response.
    assert (Hs : PyStr.startswith (ContentGen.fence ++ body ++ ContentGen.fence)
                   ContentGen.fence_json = false).
    { destruct (PyStr.startswith _ ContentGen.fence_json) eqn:E; [|reflexivity].
      exfalso. apply startswith_inv in E as [t E].
      change ContentGen.fence_json with (ContentGen.fence ++ PyStr.lit "json") in E.
      rewrite <- app_assoc in E. apply app_inv_head in E.
      destruct body as [|b0 [|b1 [|b2 [|b3 body]]]];
        simpl in E, Hb; try discriminate.
      injection E as -> -> -> -> _. discriminate. }
    rewrite Hs. rewrite app_assoc, endswith_app, slice_to_minus_app. reflexivity.
  - intros Hs He. unfold ContentGen.clean_response. rewrite Hs, He. reflexivity.
  - reflexivity.
Qed.

(** The fenced reply with body [[1, 2]] is cleaned to [[1, 2]]. *)
Lemma clean_response_spec_witness :
  ContentGen.clean_response
    (ContentGen.fence_json ++ PyStr.lit "[1, 2]" ++ ContentGen.fence)
  = PyStr.lit "[1, 2]".
Proof.
  exact (proj1 (clean_response_spec (PyStr.lit "[1, 2]") [])).
Defined.

(* --------------------------------------------------------------------- *)
(** ** The dashboard's queries *)
(* --------------------------------------------------------------------- *)

(** C8: for a campaign id whose log file does not exist, the campaign
    detail view returns the text [Campaign not found] with status 404;
    for one whose performance file does not exist, the performance query
    returns a JSON error object with status 404.  Both return normally,
    without raising and without touching the world. *)
Theorem dashboard_not_found (campaign_id : PyStr.str) (w : Py.world) :
  (Py.fs w !! Dashboard.log_file campaign_id = None ->
   Dashboard.campaign_detail campaign_id w
   = (Py.Ok (Dashboard.Text (PyStr.lit "Campaign not found") 404), w))
  /\ (Py.fs w !! Dashboard.performance_file campaign_id = None ->
      Dashboard.api_performance campaign_id w
      = (Py.Ok (Dashboard.Jsonify
                  (Py.VDict [ (PyStr.lit "error",
                               Py.VStr (PyStr.lit "Performance data not found")) ])
                  404), w)).
Proof.
  split; intros Hnone.
  - unfold Dashboard.campaign_detail, Py.bind, Py.path_exists. rewrite Hnone.
    rewrite bool_decide_eq_false_2 by (intros [x Hx]; discriminate). reflexivity.
  - unfold Dashboard.api_performance, Py.bind, Py.path_exists. rewrite Hnone.
    rewrite bool_decide_eq_false_2 by (intros [x Hx]; discriminate). reflexivity.
Qed.

(** The detail view of an unknown campaign, on an empty file system. *)
Lemma dashboard_not_found_witness :
  Dashboard.campaign_detail (PyStr.lit "campaign_20250101_120000") refusing_world
  = (Py.Ok (Dashboard.Text (PyStr.lit "Campaign not found") 404), refusing_world).
Proof.
  exact (proj1 (dashboard_not_found (PyStr.lit "campaign_20250101_120000")
                  refusing_world) eq_refl).
Defined.

(* --------------------------------------------------------------------- *)
(** ** The pipeline and its artifacts *)
(* --------------------------------------------------------------------- *)

Section PipelineLemmas.
Import PyStr Py.
Context {X : Type} (f : world -> X) (Hf : inert f).

Lemma inert_generate_blog_post t : preserves f (ContentGen.generate_blog_post t).
Proof. unfold ContentGen.generate_blog_post. keeps. Qed.

Lemma inert_newsletter_for b i : preserves f (ContentGen.newsletter_for b i).
Proof. unfold ContentGen.newsletter_for. keeps. Qed.

Lemma inert_generate_persona_newsletters b :
  preserves f (ContentGen.generate_persona_newsletters b).
Proof.
  unfold ContentGen.generate_persona_newsletters.
  pose proof inert_newsletter_for. keeps.
Qed.

Lemma inert_generate_variations c : preserves f (ContentGen.generate_variations c).
Proof. unfold ContentGen.generate_variations. keeps. Qed.

Lemma inert_suggest_improvements c : preserves f (ContentGen.suggest_improvements c).
Proof. unfold ContentGen.suggest_improvements. keeps. Qed.

Lemma inert_uniform a b : preserves f (Perf.uniform a b).
Proof. unfold Perf.uniform, Perf.random. keeps. Qed.

Lemma inert_simulate_persona p : preserves f (Perf.simulate_persona p).
Proof.
  unfold Perf.simulate_persona.
  pose proof inert_uniform. pose proof (inert_randint f Hf). keeps.
Qed.

Lemma inert_simulate_performance_data c ps :
  preserves f (Perf.simulate_performance_data c ps).
Proof.
  unfold Perf.simulate_performance_data. pose proof inert_simulate_persona. keeps.
Qed.

Lemma inert_generate_performance_summary d :
  preserves f (Perf.generate_performance_summary d).
Proof. unfold Perf.generate_performance_summary, Perf.format_lookups. keeps. Qed.

Lemma inert_subject_lines n : preserves f (Main.subject_lines n).
Proof. unfold Main.subject_lines. keeps. Qed.

(** [save_json] changes at most what writing its path changes. *)
Lemma inert_save_json v p :
  (forall b, preserves f (write_file p b)) -> preserves f (Utils.save_json v p).
Proof. intros Hw. unfold Utils.save_json. keeps. Qed.

End PipelineLemmas.

Section ArtifactPaths.
Import PyStr Py.

Lemma rev_suffix_neq (a b s t : str) :
  rev s <> firstn (length s) (rev t ++ rev b) -> a ++ s <> b ++ t.
Proof.
  intros Hne E. apply Hne. apply (f_equal (@rev _)) in E.
  rewrite !rev_app_distr in E. rewrite <- E.
  rewrite firstn_app, length_rev, Nat.sub_diag, firstn_O, app_nil_r.
  rewrite firstn_all2 by (rewrite length_rev; lia). reflexivity.
Qed.

(** No artifact of a run without variations has the path of an
    improvements file. *)
Lemma content_not_improvement t c c' :
  Main.content_filename t c <> Main.improvement_filename c'.
Proof. intros E. vm_compute in E. discriminate. Qed.

Lemma campaign_not_improvement c c' :
  Main.campaign_filename c <> Main.improvement_filename c'.
Proof. intros E. vm_compute in E. discriminate. Qed.

Lemma performance_not_improvement c c' :
  Config.ANALYTICS_DIR ++ lit "/" ++ c ++ lit "_performance.json"
  <> Main.improvement_filename c'.
Proof.
  unfold Main.improvement_filename. rewrite !(app_assoc Config.ANALYTICS_DIR).
  rewrite !app_assoc. apply rev_suffix_neq.
  destruct (rev c') as [|x l]; vm_compute; discriminate.
Qed.

Lemma summary_not_improvement c c' :
  Main.summary_filename c <> Main.improvement_filename c'.
Proof.
  unfold Main.summary_filename, Main.improvement_filename. rewrite !app_assoc.
  apply rev_suffix_neq.
  destruct (rev c') as [|x l]; vm_compute; discriminate.
Qed.

End ArtifactPaths.

Section PipelineFrames.
Import PyStr Py.

Lemma file_init q : preserves (file_at q) CRM.init.
Proof. intros w. reflexivity. Qed.

Lemma file_save_json q v p : p <> q -> preserves (file_at q) (Utils.save_json v p).
Proof.
  intros Hne. apply inert_save_json; [apply inert_file_at|].
  intros b. apply file_write_file. exact Hne.
Qed.

Lemma file_store_performance_data q c d :
  Config.ANALYTICS_DIR ++ lit "/" ++ c ++ lit "_performance.json" <> q ->
  preserves (file_at q) (Perf.store_performance_data c d).
Proof.
  intros Hne. unfold Perf.store_performance_data.
  pose proof (inert_format_timestamp _ (inert_file_at q)).
  pose proof (fun v => file_save_json q v _ Hne). keeps.
Qed.

Lemma dict_get_set_eq d k v : dict_get (dict_set d k v) k = Some v.
Proof.
  induction d as [|[k' v'] d IH]; simpl.
  - rewrite str_eqb_refl. reflexivity.
  - destruct (str_eqb k' k) eqn:E; simpl; rewrite E; [reflexivity|exact IH].
Qed.

(** What a successful [save_json] leaves at its path. *)
Lemma save_json_ok v p w w' :
  Utils.save_json v p w = (Ok tt, w') ->
  exists bytes, Json.utf8_encode (Json.dumps v) = Ok bytes
                /\ file_at p w' = Some bytes.
Proof.
  unfold Utils.save_json. destruct (Utils.has_dirname p); [|discriminate].
  destruct (Json.utf8_encode (Json.dumps v)) as [bytes|e].
  - intros H. inversion H; subst. exists bytes. split; [reflexivity|].
    unfold file_at. simpl. apply lookup_insert_eq.
  - unfold bind, write_file, raise. discriminate.
Qed.

End PipelineFrames.

(** The steps of [main.py]'s pipeline that follow the content artifact
    leave a file alone unless it is the campaign log, the performance
    file or the summary file. *)
Ltac pipeline_frames q :=
  pose proof (inert_file_at q);
  pose proof (file_init q);
  pose proof (inert_generate_campaign_id _ (inert_file_at q));
  pose proof (inert_format_timestamp _ (inert_file_at q));
  pose proof (inert_generate_blog_post _ (inert_file_at q));
  pose proof (inert_generate_persona_newsletters _ (inert_file_at q));
  pose proof (inert_generate_variations _ (inert_file_at q));
  pose proof (inert_suggest_improvements _ (inert_file_at q));
  pose proof (inert_subject_lines _ (inert_file_at q));
  pose proof (inert_create_mock_contacts _ (inert_file_at q));
  pose proof (inert_send_campaign _ (inert_file_at q));
  pose proof (inert_check_marketing_access _ (inert_file_at q));
  pose proof (inert_log_campaign _ (inert_file_at q));
  pose proof (inert_simulate_performance_data _ (inert_file_at q));
  pose proof (inert_generate_performance_summary _ (inert_file_at q)).

Section NoVariations.
Import PyStr Py.

(** Without variations, [run_pipeline] writes no improvements file. *)
Lemma run_pipeline_no_improvements topic use_mock c' :
  preserves (file_at (Main.improvement_filename c'))
    (Main.run_pipeline topic use_mock false).
Proof.
  unfold Main.run_pipeline. cbv iota.
  pipeline_frames (Main.improvement_filename c').
  pose proof (fun v t c => file_save_json _ v _ (content_not_improvement t c c')).
  pose proof (fun v c => file_save_json _ v _ (campaign_not_improvement c c')).
  pose proof (fun v c => file_save_json _ v _ (summary_not_improvement c c')).
  pose proof (fun c d => file_store_performance_data _ c d
                           (performance_not_improvement c c')).
  keeps.
Qed.

Lemma pipeline_body_no_improvements campaign_id topic c' :
  preserves (file_at (Main.improvement_filename c'))
    (Dashboard.pipeline_body campaign_id topic false).
Proof.
  unfold Dashboard.pipeline_body. cbv iota.
  pipeline_frames (Main.improvement_filename c').
  pose proof (fun v t c => file_save_json _ v _ (content_not_improvement t c c')).
  pose proof (fun v c => file_save_json _ v _ (campaign_not_improvement c c')).
  pose proof (fun v c => file_save_json _ v _ (summary_not_improvement c c')).
  pose proof (fun c d => file_store_performance_data _ c d
                           (performance_not_improvement c c')).
  keeps.
Qed.

Lemma run_pipeline_async_no_improvements campaign_id topic c' :
  preserves (file_at (Main.improvement_filename c'))
    (Dashboard.run_pipeline_async campaign_id topic false).
Proof.
  unfold Dashboard.run_pipeline_async.
  pose proof (pipeline_body_no_improvements campaign_id topic c').
  pose proof (inert_format_timestamp _ (inert_file_at (Main.improvement_filename c'))).
  keeps.
Qed.

End NoVariations.

Section ContentArtifact.
Import PyStr Py.

Lemma campaign_not_content c t c' :
  Main.campaign_filename c <> Main.content_filename t c'.
Proof. intros E. vm_compute in E. discriminate. Qed.

Lemma summary_not_content c t c' :
  Main.summary_filename c <> Main.content_filename t c'.
Proof. intros E. vm_compute in E. discriminate. Qed.

Lemma performance_not_content c t c' :
  Config.ANALYTICS_DIR ++ lit "/" ++ c ++ lit "_performance.json"
  <> Main.content_filename t c'.
Proof. intros E. vm_compute in E. discriminate. Qed.

(** Splits a successful run up to its first [save_json]. *)
Ltac run_to_save H :=
  repeat match type of H with
         | bind (Utils.save_json _ _) _ _ = (Ok _, _) => fail 1
         | bind _ _ _ = (Ok _, _) =>
             let a := fresh "a" in let w1 := fresh "w" in
             let H1 := fresh "Hstep" in
             apply bind_ok in H; destruct H as [a [w1 [H1 H]]]
         end.

(** A run of [main.py]'s pipeline without variations that completes
    leaves, at the content artifact's path, the dump of an artifact whose
    variations are the empty list. *)
Lemma run_pipeline_content topic use_mock w r w' :
  Main.run_pipeline topic use_mock false w = (Ok r, w') ->
  exists campaign_id blog_data newsletters created_at safe_title bytes,
    fs w' !! Main.content_filename safe_title campaign_id = Some bytes
    /\ Json.utf8_encode
         (Json.dumps (Main.content_artifact campaign_id topic blog_data
                        newsletters (VList []) created_at)) = Ok bytes.
Proof.
  unfold Main.run_pipeline. cbv iota. intros H. run_to_save H.
  apply bind_ok in H as [[] [w_saved [Hsave H]]].
  match goal with H : ret (VList []) _ = _ |- _ => apply ret_ok in H as [-> ->] end.
  match type of Hsave with
  | Utils.save_json (Main.content_artifact ?i _ ?b ?n _ ?c) (Main.content_filename ?t _) _ = _ =>
      apply save_json_ok in Hsave as [bytes [Henc Hfile]];
      exists i, b, n, c, t, bytes
  end.
  split; [|exact Henc].
  match goal with
  | |- fs w' !! ?q = _ => change (file_at q w' = Some bytes);
      rewrite <- Hfile; revert H; apply preserves_step;
      pipeline_frames q
  end.
  match goal with
  | |- preserves (file_at (Main.content_filename ?t ?c0)) _ =>
      pose proof (fun v c => file_save_json _ v _ (campaign_not_content c t c0));
      pose proof (fun v c => file_save_json _ v _ (summary_not_content c t c0));
      pose proof (fun c d => file_store_performance_data _ c d
                               (performance_not_content c t c0))
  end.
  keeps.
Qed.

Lemma pipeline_body_content campaign_id topic w w' :
  Dashboard.pipeline_body campaign_id topic false w = (Ok tt, w') ->
  exists blog_data newsletters created_at safe_title bytes,
    fs w' !! Main.content_filename safe_title campaign_id = Some bytes
    /\ Json.utf8_encode
         (Json.dumps (Main.content_artifact campaign_id topic blog_data
                        newsletters (VList []) created_at)) = Ok bytes.
Proof.
  unfold Dashboard.pipeline_body. cbv iota. intros H. run_to_save H.
  apply bind_ok in H as [[] [w_saved [Hsave H]]].
  match goal with H : ret (VList []) _ = _ |- _ => apply ret_ok in H as [-> ->] end.
  match type of Hsave with
  | Utils.save_json (Main.content_artifact _ _ ?b ?n _ ?c) (Main.content_filename ?t _) _ = _ =>
      apply save_json_ok in Hsave as [bytes [Henc Hfile]];
      exists b, n, c, t, bytes
  end.
  split; [|exact Henc].
  match goal with
  | |- fs w' !! ?q = _ => change (file_at q w' = Some bytes);
      rewrite <- Hfile; revert H; apply preserves_step;
      pipeline_frames q
  end.
  match goal with
  | |- preserves (file_at (Main.content_filename ?t ?c0)) _ =>
      pose proof (fun v c => file_save_json _ v _ (campaign_not_content c t c0));
      pose proof (fun v c => file_save_json _ v _ (summary_not_content c t c0));
      pose proof (fun c d => file_store_performance_data _ c d
                               (performance_not_content c t c0))
  end.
  keeps.
Qed.

End ContentArtifact.

(** A world without credentials and without a language model: the CRM
    client is in mock mode and every generation falls back. *)
Definition offline_world : Py.world :=
  {| Py.env_hubspot_key := None;
     Py.mock_mode := false;
     Py.http := fun _ => Py.NetworkError;  Py.http_n := 0;
     Py.rng := fun n => (N.of_nat n * 7919 + 13)%N;  Py.rng_n := 0;
     Py.clock := fun _ => noon;  Py.clock_n := 0;
     Py.llm := fun _ => None;  Py.llm_n := 0;
     Py.fs := ∅;
     Py.running_pipelines := [];
     Py.ucd_alnum := fun _ => false;
     Py.py_repr := fun _ => [] |}.

Definition is_ok {A} (r : Py.result A) : bool :=
  match r with Py.Ok _ => true | Py.Raise _ => false end.

(** C7, as stated, fails in its second half.  A run on the topic [AI]
    without variations completes, and the content artifact it persisted,
    read back, has a [variations] entry: the empty list. *)
Lemma run_without_variations_persists_placeholder :
  is_ok (fst (Main.run_pipeline (PyStr.lit "AI") true false offline_world)) = true
  /\ match fst (Utils.load_json
                  (PyStr.lit "data/generated_content/How AI is Transforming Creative Workflows_campaign_20250101_120000.json")
                  (snd (Main.run_pipeline (PyStr.lit "AI") true false offline_world)))
     with
     | Py.Ok artifact => Py.getitem artifact (PyStr.lit "variations")
     | Py.Raise e => Py.Raise e
     end = Py.Ok (Py.VList []).
Proof. split; vm_compute; reflexivity. Qed.

(** C7 (amended): in a run in which variations were not requested, no
    improvements file is written, by [main.py]'s pipeline and by the
    dashboard's alike, whether the run completes or fails.  The content
    artifact is persisted with a [variations] entry holding the empty
    list: when the run completes, the file at the content artifact's path
    is the dump of an artifact whose [variations] value is [[]]. *)
Theorem run_without_variations
  (topic campaign_id : PyStr.str) (use_mock_contacts : bool) (w : Py.world) :
  (forall c,
     Py.fs (snd (Main.run_pipeline topic use_mock_contacts false w))
       !! Main.improvement_filename c
     = Py.fs w !! Main.improvement_filename c)
  /\ (forall c,
        Py.fs (snd (Dashboard.run_pipeline_async campaign_id topic false w))
          !! Main.improvement_filename c
        = Py.fs w !! Main.improvement_filename c)
  /\ (forall r w',
        Main.run_pipeline topic use_mock_contacts false w = (Py.Ok r, w') ->
        exists id blog_data newsletters created_at safe_title bytes,
          Py.fs w' !! Main.content_filename safe_title id = Some bytes
          /\ Json.utf8_encode
               (Json.dumps (Main.content_artifact id topic blog_data newsletters
                              (Py.VList []) created_at)) = Py.Ok bytes
          /\ Py.getitem (Main.content_artifact id topic blog_data newsletters
                           (Py.VList []) created_at) (PyStr.lit "variations")
             = Py.Ok (Py.VList []))
  /\ (forall w' status,
        snd (Dashboard.run_pipeline_async campaign_id topic false w) = w' ->
        Py.dict_get (Py.running_pipelines w') campaign_id = Some status ->
        Py.getitem status (PyStr.lit "status") = Py.Ok (Py.VStr (PyStr.lit "completed")) ->
        exists blog_data newsletters created_at safe_title bytes,
          Py.fs w' !! Main.content_filename safe_title campaign_id = Some bytes
          /\ Json.utf8_encode
               (Json.dumps (Main.content_artifact campaign_id topic blog_data
                              newsletters (Py.VList []) created_at)) = Py.Ok bytes).
Proof.
  split; [|split; [|split]].
  - intros c. apply (run_pipeline_no_improvements topic use_mock_contacts c w).
  - intros c. apply (run_pipeline_async_no_improvements campaign_id topic c w).
  - intros r w' Hrun.
    destruct (run_pipeline_content _ _ _ _ _ Hrun)
      as (id & blog & nls & created & safe & bytes & Hfile & Henc).
    exists id, blog, nls, created, safe, bytes. repeat split; assumption.
  - intros w' status Hrun Hst Hdone.
    unfold Dashboard.run_pipeline_async, Py.try_except in Hrun.
    destruct (Dashboard.pipeline_body campaign_id topic false w) as [[[]|e] w1] eqn:Hbody.
    + simpl in Hrun. subst w1. exact (pipeline_body_content _ _ _ _ Hbody).
    + exfalso. unfold Py.bind in Hrun.
      destruct (Utils.format_timestamp w1) as [[ts|e'] w2] eqn:Hts.
      * simpl in Hrun. subst w'. simpl in Hst.
        rewrite dict_get_set_eq in Hst. inversion Hst; subst status.
        vm_compute in Hdone. discriminate.
      * unfold Utils.format_timestamp, Py.bind, Py.now, Py.ret in Hts. discriminate.
Qed.

(** The run on [AI] completes, so its content file is the dump of an
    artifact with an empty [variations] list. *)
Lemma run_without_variations_witness :
  exists id blog_data newsletters created_at safe_title bytes,
    Py.fs (snd (Main.run_pipeline (PyStr.lit "AI") true false offline_world))
      !! Main.content_filename safe_title id = Some bytes
    /\ Json.utf8_encode
         (Json.dumps (Main.content_artifact id (PyStr.lit "AI") blog_data newsletters
                        (Py.VList []) created_at)) = Py.Ok bytes
    /\ Py.getitem (Main.content_artifact id (PyStr.lit "AI") blog_data newsletters
                     (Py.VList []) created_at) (PyStr.lit "variations")
       = Py.Ok (Py.VList []).
Proof.
  destruct (Main.run_pipeline (PyStr.lit "AI") true false offline_world)
    as [r w'] eqn:Hrun.
  destruct r as [r|e].
  - exact (proj1 (proj2 (proj2
      (run_without_variations (PyStr.lit "AI") [] true offline_world))) r w' Hrun).
  - exfalso.
    assert (H : is_ok (fst (Main.run_pipeline (PyStr.lit "AI") true false offline_world))
                = true) by (vm_compute; reflexivity).
    rewrite Hrun in H. discriminate.
Defined.

(* --------------------------------------------------------------------- *)
(** ** Rounding to binary64 *)
(* --------------------------------------------------------------------- *)

Section FloatLemmas.
Import Float.
Local Open Scope Q_scope.

Lemma pow2_pos e : 0 < pow2 e.
Proof. apply Qpower_0_lt. reflexivity. Qed.

Lemma pow2_add a b : pow2 (a + b) == pow2 a * pow2 b.
Proof. apply Qpower_plus. discriminate. Qed.

Lemma pow2_le a b : (a <= b)%Z -> pow2 a <= pow2 b.
Proof. intros H. apply Qpower_le_compat_l; [exact H|discriminate]. Qed.

Lemma pow2_lt a b : (a < b)%Z -> pow2 a < pow2 b.
Proof. intros H. apply Qpower_lt_compat_l; [exact H|reflexivity]. Qed.

Lemma pow2_Z n : (0 <= n)%Z -> pow2 n == inject_Z (2 ^ n).
Proof. intros H. unfold pow2. rewrite Zpower_Qpower by exact H. reflexivity. Qed.

Lemma pow2_Z_inv n : (0 <= n)%Z -> inject_Z (2 ^ n) == pow2 n.
Proof. intros H. symmetry. apply pow2_Z. exact H. Qed.

Lemma pow2_succ a : pow2 (a + 1) == 2 * pow2 a.
Proof. rewrite pow2_add. change (pow2 1) with 2. ring. Qed.

(** [ilog2] brackets a positive rational between two powers of two. *)
Lemma ilog2_spec x : 0 < x -> pow2 (ilog2 x) <= x < pow2 (ilog2 x + 1).
Proof.
  intros Hx. destruct x as [p q]. unfold ilog2. cbn [Qnum Qden].
  assert (Hp : (0 < p)%Z) by (unfold Qlt in Hx; simpl in Hx; lia).
  set (lp := Z.log2 p). set (lq := Z.log2 (Zpos q)).
  destruct (Z.log2_spec p Hp) as [Hp1 Hp2]. fold lp in Hp1, Hp2.
  destruct (Z.log2_spec (Zpos q) (Pos2Z.is_pos q)) as [Hq1 Hq2]. fold lq in Hq1, Hq2.
  assert (Hlp : (0 <= lp)%Z) by apply Z.log2_nonneg.
  assert (Hlq : (0 <= lq)%Z) by apply Z.log2_nonneg.
  assert (E : p # q == inject_Z p / inject_Z (Zpos q)) by apply Qmake_Qdiv.
  assert (Hqpos : 0 < inject_Z (Zpos q)) by reflexivity.
  assert (Hup : p # q < pow2 (lp - lq + 1)).
  { rewrite E. apply Qlt_shift_div_r; [exact Hqpos|].
    apply Qlt_le_trans with (pow2 (lp + 1)).
    - rewrite pow2_Z by lia. rewrite <- Zlt_Qlt. replace (lp + 1)%Z with (Z.succ lp) by lia. exact Hp2.
    - replace (lp + 1)%Z with ((lp - lq + 1) + lq)%Z by lia. rewrite pow2_add.
      apply Qmult_le_l; [apply pow2_pos|]. rewrite pow2_Z by lia. rewrite <- Zle_Qle. exact Hq1. }
  assert (Hlo : pow2 (lp - lq - 1) <= p # q).
  { rewrite E. apply Qle_shift_div_l; [exact Hqpos|].
    apply Qle_trans with (pow2 lp).
    - replace lp with ((lp - lq - 1) + (lq + 1))%Z at 2 by lia. rewrite pow2_add.
      apply Qmult_le_l; [apply pow2_pos|]. rewrite pow2_Z by lia. rewrite <- Zle_Qle.
      replace (lq + 1)%Z with (Z.succ lq) by lia. lia.
    - rewrite pow2_Z by lia. rewrite <- Zle_Qle. exact Hp1. }
  destruct (Qle_bool (pow2 (lp - lq)) (p # q)) eqn:Eb.
  - apply Qle_bool_iff in Eb. split; assumption.
  - split; [exact Hlo|].
    replace (lp - lq - 1 + 1)%Z with (lp - lq)%Z by lia.
    apply Qnot_le_lt. intros H. apply Qle_bool_iff in H. congruence.
Qed.

Lemma ilog2_unique x e : pow2 e <= x -> x < pow2 (e + 1) -> ilog2 x = e.
Proof.
  intros H1 H2.
  assert (Hx : 0 < x) by (eapply Qlt_le_trans; [apply pow2_pos|exact H1]).
  destruct (ilog2_spec x Hx) as [H3 H4].
  destruct (Z.lt_trichotomy (ilog2 x) e) as [Hlt|[Heq|Hgt]]; [|exact Heq|].
  - exfalso. assert (pow2 (ilog2 x + 1) <= pow2 e) by (apply pow2_le; lia).
    apply (Qlt_irrefl x). eapply Qlt_le_trans; [exact H4|]. eapply Qle_trans; eassumption.
  - exfalso. assert (pow2 (e + 1) <= pow2 (ilog2 x)) by (apply pow2_le; lia).
    apply (Qlt_irrefl x). eapply Qlt_le_trans; [exact H2|]. eapply Qle_trans; eassumption.
Qed.

Lemma ilog2_mono x y : 0 < x -> x <= y -> (ilog2 x <= ilog2 y)%Z.
Proof.
  intros Hx Hxy.
  assert (Hy : 0 < y) by (eapply Qlt_le_trans; eassumption).
  destruct (ilog2_spec x Hx) as [H1 H2]. destruct (ilog2_spec y Hy) as [H3 H4].
  destruct (Z.le_gt_cases (ilog2 x) (ilog2 y)) as [H|H]; [exact H|exfalso].
  assert (pow2 (ilog2 y + 1) <= pow2 (ilog2 x)) by (apply pow2_le; lia).
  apply (Qlt_irrefl y). eapply Qlt_le_trans; [exact H4|].
  eapply Qle_trans; [eassumption|]. eapply Qle_trans; eassumption.
Qed.


#[local] Instance rne_comp : Proper (Qeq ==> eq) rne.
Proof.
  intros x y E. unfold rne.
  assert (Ef : Qfloor x = Qfloor y) by (apply Qfloor_comp; exact E).
  rewrite Ef.
  assert (Ec : Qcompare (x - inject_Z (Qfloor y)) (1 # 2)
               = Qcompare (y - inject_Z (Qfloor y)) (1 # 2)).
  { apply Qcompare_comp; [|reflexivity]. rewrite E. reflexivity. }
  rewrite Ec. reflexivity.
Qed.

Lemma rne_Z z : rne (inject_Z z) = z.
Proof.
  unfold rne. rewrite Qfloor_Z.
  assert (E : inject_Z z - inject_Z z == 0) by ring.
  rewrite E. reflexivity.
Qed.

(** [rne x] is the floor of [x] or the integer after it. *)
Lemma rne_cases x :
  (rne x = Qfloor x /\ x - inject_Z (Qfloor x) <= 1 # 2)
  \/ (rne x = (Qfloor x + 1)%Z /\ 1 # 2 <= x - inject_Z (Qfloor x)).
Proof.
  unfold rne.
  destruct (Qcompare_spec (x - inject_Z (Qfloor x)) (1 # 2)) as [E|L|G].
  - destruct (Z.even (Qfloor x)); [left|right]; split; try reflexivity; rewrite E; apply Qle_refl.
  - left. split; [reflexivity|apply Qlt_le_weak; exact L].
  - right. split; [reflexivity|apply Qlt_le_weak; exact G].
Qed.

Lemma rne_mono x y : x <= y -> (rne x <= rne y)%Z.
Proof.
  intros Hxy.
  pose proof (Qfloor_resp_le x y Hxy) as Hf.
  destruct (Z.eq_dec (Qfloor x) (Qfloor y)) as [Ef|Nf].
  - unfold rne. rewrite <- Ef.
    assert (Hr : x - inject_Z (Qfloor x) <= y - inject_Z (Qfloor x)) by lra.
    destruct (Qcompare_spec (x - inject_Z (Qfloor x)) (1 # 2)) as [E1|L1|G1];
      destruct (Qcompare_spec (y - inject_Z (Qfloor x)) (1 # 2)) as [E2|L2|G2];
      try destruct (Z.even (Qfloor x)); try lia; exfalso; lra.
  - destruct (rne_cases x) as [[-> _]|[-> _]]; destruct (rne_cases y) as [[-> _]|[-> _]]; lia.
Qed.

Lemma rne_le_Z x n : x <= inject_Z n -> (rne x <= n)%Z.
Proof. intros H. rewrite <- (rne_Z n). apply rne_mono. exact H. Qed.

Lemma rne_ge_Z x n : inject_Z n <= x -> (n <= rne x)%Z.
Proof. intros H. rewrite <- (rne_Z n). apply rne_mono. exact H. Qed.

(** The exponent of the last bit kept. *)
Definition ulp_exp (x : Q) : Z := Z.max (ilog2 (Qabs x) - 52) (-1074).

Lemma round64_eq x : round64 x == inject_Z (rne (x / pow2 (ulp_exp x))) * pow2 (ulp_exp x).
Proof. unfold round64. rewrite Qred_correct. reflexivity. Qed.

Lemma round64_nonneg x : 0 <= x -> 0 <= round64 x.
Proof.
  intros Hx. rewrite round64_eq. apply Qmult_le_0_compat.
  - change 0 with (inject_Z 0). rewrite <- Zle_Qle. apply rne_ge_Z.
    apply Qle_shift_div_l; [apply pow2_pos|]. change (inject_Z 0) with 0. lra.
  - apply Qlt_le_weak, pow2_pos.
Qed.

Lemma round64_zero x : x == 0 -> round64 x == 0.
Proof.
  intros E. rewrite round64_eq. generalize (ulp_exp x). intros e.
  assert (E' : x / pow2 e == inject_Z 0).
  { rewrite E. unfold Qdiv. change (inject_Z 0) with 0. ring. }
  rewrite E', rne_Z. change (inject_Z 0) with 0. ring.
Qed.

Lemma scaled_div x e : x / pow2 e * pow2 e == x.
Proof. field. pose proof (pow2_pos e). lra. Qed.

(** Rounding is monotone on the non-negative rationals. *)
Lemma round64_mono x y : 0 <= x -> x <= y -> round64 x <= round64 y.
Proof.
  intros Hx Hxy.
  destruct (Qlt_le_dec 0 x) as [Hpos|Hle].
  2:{ rewrite (round64_zero x) by lra. apply round64_nonneg. lra. }
  assert (Hy : 0 < y) by lra.
  rewrite !round64_eq.
  assert (Hax : Qabs x == x) by (apply Qabs_pos; lra).
  assert (Hay : Qabs y == y) by (apply Qabs_pos; lra).
  assert (Hpx : 0 < Qabs x) by lra. assert (Hpy : 0 < Qabs y) by lra.
  pose proof (ilog2_mono (Qabs x) (Qabs y) Hpx ltac:(lra)) as Hl.
  destruct (ilog2_spec _ Hpx) as [Hx1 Hx2]. destruct (ilog2_spec _ Hpy) as [Hy1 Hy2].
  unfold ulp_exp.
  set (ex := Z.max (ilog2 (Qabs x) - 52) (-1074)).
  set (ey := Z.max (ilog2 (Qabs y) - 52) (-1074)).
  assert (Hexy : (ex <= ey)%Z) by lia.
  destruct (Z.eq_dec ex ey) as [Ee|Ne].
  - rewrite <- Ee. apply Qmult_le_compat_r; [|apply Qlt_le_weak, pow2_pos].
    rewrite <- Zle_Qle. apply rne_mono.
    apply Qmult_le_compat_r; [exact Hxy|]. apply Qlt_le_weak, Qinv_lt_0_compat, pow2_pos.
  - set (L := ilog2 (Qabs y)) in *.
    assert (HeyL : ey = (L - 52)%Z) by lia.
    assert (HxL : (ilog2 (Qabs x) + 1 <= L)%Z) by lia.
    apply Qle_trans with (pow2 L).
    + (* round64 x <= 2^L *)
      assert (Hk : (0 <= L - ex)%Z) by lia.
      apply Qle_trans with (inject_Z (2 ^ (L - ex)) * pow2 ex).
      * apply Qmult_le_compat_r; [|apply Qlt_le_weak, pow2_pos].
        rewrite <- Zle_Qle. apply rne_le_Z.
        apply Qle_shift_div_r; [apply pow2_pos|].
        rewrite <- pow2_Z by lia. rewrite <- pow2_add.
        replace (L - ex + ex)%Z with L by lia.
        apply Qle_trans with (pow2 (ilog2 (Qabs x) + 1)); [lra|apply pow2_le; lia].
      * rewrite <- pow2_Z by lia. rewrite <- pow2_add.
        replace (L - ex + ex)%Z with L by lia. apply Qle_refl.
    + (* 2^L <= round64 y *)
      apply Qle_trans with (inject_Z (2 ^ 52) * pow2 ey).
      * rewrite <- pow2_Z by lia. rewrite <- pow2_add.
        replace (52 + ey)%Z with L by lia. apply Qle_refl.
      * apply Qmult_le_compat_r; [|apply Qlt_le_weak, pow2_pos].
        rewrite <- Zle_Qle. apply rne_ge_Z.
        apply Qle_shift_div_l; [apply pow2_pos|].
        rewrite <- pow2_Z by lia. rewrite <- pow2_add.
        replace (52 + ey)%Z with L by lia. lra.
Qed.


(** A multiple of the last bit's weight rounds to itself. *)
Lemma round64_exact r m :
  r == inject_Z m * pow2 (ulp_exp r) -> round64 r == r.
Proof.
  intros E. rewrite round64_eq. revert E. generalize (ulp_exp r). intros e E.
  assert (E' : r / pow2 e == inject_Z m).
  { rewrite E. field. pose proof (pow2_pos e). lra. }
  rewrite E', rne_Z. rewrite E. reflexivity.
Qed.

Lemma ulp_exp_ge x : (-1074 <= ulp_exp x)%Z.
Proof. unfold ulp_exp. lia. Qed.

(** The scaled mantissa has at most 53 bits, up to the carry. *)
Lemma mantissa_bound x :
  0 < x -> (0 <= rne (x / pow2 (ulp_exp x)) <= 2 ^ 53)%Z.
Proof.
  intros Hx.
  assert (Hax : Qabs x == x) by (apply Qabs_pos; lra).
  assert (Hpx : 0 < Qabs x) by lra.
  destruct (ilog2_spec _ Hpx) as [H1 H2].
  assert (He : (ilog2 (Qabs x) - 52 <= ulp_exp x)%Z) by (unfold ulp_exp; lia).
  revert He. generalize (ulp_exp x). intros e He. split.
  - apply rne_ge_Z. apply Qle_shift_div_l; [apply pow2_pos|].
    change (inject_Z 0) with 0. lra.
  - apply rne_le_Z. apply Qle_shift_div_r; [apply pow2_pos|].
    rewrite <- pow2_Z by lia. rewrite <- pow2_add.
    apply Qle_trans with (pow2 (ilog2 (Qabs x) + 1)); [lra|apply pow2_le; lia].
Qed.

(** Rounding twice is rounding once. *)
Lemma round64_idem x : 0 <= x -> round64 (round64 x) == round64 x.
Proof.
  intros Hx0.
  destruct (Qlt_le_dec 0 x) as [Hx|Hle].
  2:{ assert (E : round64 x == 0) by (apply round64_zero; lra).
      apply round64_zero in E as E2. rewrite E2, E. reflexivity. }
  pose proof (mantissa_bound x Hx) as [Hn0 Hn53].
  pose proof (round64_eq x) as Er.
  pose proof (ulp_exp_ge x) as Hex.
  revert Hn0 Hn53 Er Hex. generalize (ulp_exp x) (rne (x / pow2 (ulp_exp x))).
  intros e n Hn0 Hn53 Er Hex.
  destruct (Z.eq_dec n 0%Z) as [-> | Hn].
  { assert (E : round64 x == 0) by (rewrite Er; change (inject_Z 0) with 0; ring).
    apply round64_zero in E as E2. rewrite E2, E. reflexivity. }
  set (r := round64 x) in *.
  assert (Hr : 0 < r).
  { rewrite Er. apply Qmult_lt_0_compat; [|apply pow2_pos].
    change 0 with (inject_Z 0). rewrite <- Zlt_Qlt. lia. }
  assert (Har : Qabs r == r) by (apply Qabs_pos; lra).
  assert (Hpr : 0 < Qabs r) by lra.
  destruct (ilog2_spec _ Hpr) as [H1 _].
  destruct (Z.le_gt_cases (ulp_exp r) e) as [Hk|Hk].
  - (* the last bit's weight did not grow *)
    apply (round64_exact r (n * 2 ^ (e - ulp_exp r))).
    rewrite Er at 1. rewrite inject_Z_mult, pow2_Z_inv by lia. 
    rewrite <- Qmult_assoc, <- pow2_add.
    replace (e - ulp_exp r + ulp_exp r)%Z with e by lia. reflexivity.
  - (* it grew: the mantissa carried to 2^53 *)
    assert (He' : ulp_exp r = (ilog2 (Qabs r) - 52)%Z) by (unfold ulp_exp in *; lia).
    assert (Hge : pow2 (ulp_exp r + 52 - e) <= inject_Z n).
    { apply Qmult_le_r with (z := pow2 e); [apply pow2_pos|].
      rewrite <- pow2_add. replace (ulp_exp r + 52 - e + e)%Z with (ilog2 (Qabs r)) by lia.
      rewrite <- Er. lra. }
    rewrite pow2_Z in Hge by lia. rewrite <- Zle_Qle in Hge.
    assert (Hk1 : ulp_exp r = (e + 1)%Z).
    { destruct (Z.eq_dec (ulp_exp r) (e + 1)%Z) as [E1|N1]; [exact E1|exfalso].
      assert (2 ^ 54 <= 2 ^ (ulp_exp r + 52 - e))%Z by (apply Z.pow_le_mono_r; lia).
      lia. }
    assert (Hn53' : n = (2 ^ 53)%Z).
    { rewrite Hk1 in Hge. replace (e + 1 + 52 - e)%Z with 53%Z in Hge by lia. lia. }
    apply (round64_exact r (2 ^ 52)). rewrite Hk1, Er, Hn53'.
    rewrite pow2_succ. change (inject_Z (2 ^ 53)) with (2 * inject_Z (2 ^ 52)). ring.
Qed.


(** A non-negative binary64 value. *)
Definition nonneg_float (x : Q) : Prop := 0 <= x /\ round64 x == x.

Lemma round64_float z : 0 <= z -> nonneg_float (round64 z).
Proof. intros Hz. split; [apply round64_nonneg; exact Hz|apply round64_idem; exact Hz]. Qed.

Lemma literal_float n d : (0 <= n)%Z -> nonneg_float (literal n d).
Proof. intros Hn. apply round64_float. unfold Qle. simpl. lia. Qed.

Lemma fmul_float x y : 0 <= x -> 0 <= y -> nonneg_float (fmul x y).
Proof. intros Hx Hy. apply round64_float. apply Qmult_le_0_compat; assumption. Qed.

Lemma fadd_float x y : 0 <= x -> 0 <= y -> nonneg_float (fadd x y).
Proof. intros Hx Hy. apply round64_float. lra. Qed.

Lemma fmin_cases x y : (fmin x y = x /\ x <= y) \/ (fmin x y = y /\ y <= x).
Proof.
  unfold fmin, flt. destruct (Qle_bool x y) eqn:E; simpl.
  - left. split; [reflexivity|apply Qle_bool_iff; exact E].
  - right. split; [reflexivity|].
    apply Qlt_le_weak, Qnot_le_lt. intros H. apply Qle_bool_iff in H. congruence.
Qed.

Lemma fmin_float x y : nonneg_float x -> nonneg_float y -> nonneg_float (fmin x y).
Proof. intros Hx Hy. destruct (fmin_cases x y) as [[-> _]|[-> _]]; assumption. Qed.

Lemma fmin_le_l x y : fmin x y <= x.
Proof. destruct (fmin_cases x y) as [[-> _]|[-> H]]; [apply Qle_refl|exact H]. Qed.

Lemma fmin_le_r x y : fmin x y <= y.
Proof. destruct (fmin_cases x y) as [[-> H]|[-> _]]; [exact H|apply Qle_refl]. Qed.

(** Scaling a float down by a factor of at most one does not raise it. *)
Lemma fmul_le_l x c : nonneg_float x -> 0 <= c -> c <= 1 -> fmul x c <= x.
Proof.
  intros [Hx Ex] Hc0 Hc1. unfold fmul.
  apply Qle_trans with (round64 x); [|rewrite Ex; apply Qle_refl].
  apply round64_mono; [apply Qmult_le_0_compat; assumption|].
  rewrite <- (Qmult_1_r x) at 2.
  apply Qmult_le_compat_nonneg; split; try assumption; apply Qle_refl.
Qed.

Lemma pow10_pos n : 0 < pow10 n.
Proof. apply Qpower_0_lt. reflexivity. Qed.

Lemma round_ndigits_nonneg x n : 0 <= x -> 0 <= round_ndigits x n.
Proof.
  intros Hx. unfold round_ndigits. apply round64_nonneg.
  apply Qle_shift_div_l; [apply pow10_pos|]. rewrite Qmult_0_l.
  change 0 with (inject_Z 0). rewrite <- Zle_Qle. apply rne_ge_Z.
  change (inject_Z 0) with 0. apply Qmult_le_0_compat; [exact Hx|].
  apply Qlt_le_weak, pow10_pos.
Qed.

Lemma round_ndigits_mono x y n :
  0 <= x -> x <= y -> round_ndigits x n <= round_ndigits y n.
Proof.
  intros Hx Hxy. unfold round_ndigits. apply round64_mono.
  - apply Qle_shift_div_l; [apply pow10_pos|]. rewrite Qmult_0_l.
    change 0 with (inject_Z 0). rewrite <- Zle_Qle. apply rne_ge_Z.
    change (inject_Z 0) with 0. apply Qmult_le_0_compat; [exact Hx|].
    apply Qlt_le_weak, pow10_pos.
  - apply Qmult_le_compat_r; [|apply Qlt_le_weak, Qinv_lt_0_compat, pow10_pos].
    rewrite <- Zle_Qle. apply rne_mono.
    apply Qmult_le_compat_r; [exact Hxy|apply Qlt_le_weak, pow10_pos].
Qed.

End FloatLemmas.

(* --------------------------------------------------------------------- *)
(** ** [simulate_performance_data] *)
(* --------------------------------------------------------------------- *)

(** What C1 says of one metrics record. *)
Definition metrics_ok (metrics : Py.pyval) : Prop :=
  exists (sent delivered : Z) (open_rate click_rate unsubscribed bounced : Q),
    metrics =
      Py.VDict [ (PyStr.lit "sent", Py.VInt sent);
                 (PyStr.lit "delivered", Py.VInt delivered);
                 (PyStr.lit "opened", Py.VFloat (Float.round_ndigits open_rate 4));
                 (PyStr.lit "clicked", Py.VFloat (Float.round_ndigits click_rate 4));
                 (PyStr.lit "unsubscribed", Py.VFloat (Float.round_ndigits unsubscribed 4));
                 (PyStr.lit "bounced", Py.VFloat (Float.round_ndigits bounced 4)) ]
    /\ (80 <= sent <= 100)%Z
    /\ (Float.trunc (Float.fmul (Float.of_int sent) (Float.literal 85 100)) <= delivered)%Z
    /\ (delivered <= sent)%Z
    /\ (0 <= click_rate)%Q
    /\ (click_rate <= Float.fmul open_rate (Float.literal 8 10))%Q
    /\ (0 <= Float.round_ndigits click_rate 4)%Q
    /\ (Float.round_ndigits click_rate 4 <= Float.round_ndigits open_rate 4)%Q
    /\ (Float.round_ndigits open_rate 4 <= Float.literal 95 100)%Q
    /\ (Float.literal 95 100 <= 95 # 100)%Q.

Section Simulation.
Import PyStr Py Float.
Local Open Scope Q_scope.

Lemma randint_run a b w :
  (a <= b)%Z ->
  exists n, randint a b w = (Ok n, snd (draw w)) /\ (a <= n <= b)%Z.
Proof.
  intros Hab. unfold randint.
  destruct (b <? a)%Z eqn:E; [apply Z.ltb_lt in E; lia|].
  exists (a + Z.of_N (rng w (rng_n w)) mod (b - a + 1))%Z. split; [reflexivity|].
  pose proof (Z.mod_pos_bound (Z.of_N (rng w (rng_n w))) (b - a + 1)). lia.
Qed.

Lemma random_run w : exists u, Perf.random w = (Ok u, snd (draw w)) /\ 0 <= u.
Proof.
  eexists. split; [reflexivity|]. rewrite Qred_correct.
  apply Qmult_le_0_compat; [|apply Qlt_le_weak, pow2_pos].
  change 0 with (inject_Z 0). rewrite <- Zle_Qle. apply N2Z.is_nonneg.
Qed.

Lemma uniform_run a b w :
  0 <= a -> 0 <= fsub b a ->
  exists x, Perf.uniform a b w = (Ok x, snd (draw w)) /\ nonneg_float x.
Proof.
  intros Ha Hd. destruct (random_run w) as [u [E Hu]].
  exists (fadd a (fmul (fsub b a) u)). split.
  - unfold Perf.uniform, bind. rewrite E. reflexivity.
  - apply fadd_float; [exact Ha|]. apply fmul_float; assumption.
Qed.

(** The delivery floor [int(sent * 0.85)] never exceeds [sent]. *)
Lemma delivery_floor_le sent :
  (80 <= sent <= 100)%Z -> (trunc (fmul (of_int sent) (literal 85 100)) <= sent)%Z.
Proof.
  intros H.
  assert (Hall : forallb (fun s => (trunc (fmul (of_int s) (literal 85 100)) <=? s)%Z)
                   (List.map (fun n => (80 + Z.of_nat n)%Z) (seq 0 21)) = true)
    by (vm_compute; reflexivity).
  rewrite forallb_forall in Hall. apply Z.leb_le, Hall.
  apply in_map_iff. exists (Z.to_nat (sent - 80)). split; [lia|].
  apply in_seq. lia.
Qed.

Lemma persona_rates_float persona base_open base_click o c :
  nonneg_float base_open -> nonneg_float base_click ->
  Perf.persona_rates persona base_open base_click = (o, c) ->
  nonneg_float o /\ nonneg_float c.
Proof.
  intros [Ho Eo] [Hc Ec]. unfold Perf.persona_rates.
  assert (H11 : 0 <= literal 11 10) by (apply literal_float; lia).
  assert (H9 : 0 <= literal 9 10) by (apply literal_float; lia).
  assert (H12 : 0 <= literal 12 10) by (apply literal_float; lia).
  assert (H13 : 0 <= literal 13 10) by (apply literal_float; lia).
  destruct (str_eqb persona (lit "founders")); [|destruct (str_eqb persona (lit "creatives"))];
    intros [= <- <-]; split; try (apply fmul_float; assumption); split; assumption.
Qed.

Lemma simulate_persona_ok persona w :
  exists metrics w', Perf.simulate_persona persona w = (Ok metrics, w') /\ metrics_ok metrics.
Proof.
  unfold Perf.simulate_persona.
  destruct (randint_run 80 100 w ltac:(lia)) as [sent [E1 Hsent]].
  unfold bind at 1. rewrite E1. set (w1 := snd (draw w)).
  destruct (randint_run _ sent w1 (delivery_floor_le sent Hsent)) as [delivered [E2 Hdel]].
  unfold bind at 1. rewrite E2. set (w2 := snd (draw w1)).
  destruct (uniform_run (literal 18 100) (literal 35 100) w2) as [base_open [E3 Hbo]];
    [apply literal_float; lia|vm_compute; discriminate|].
  unfold bind at 1. rewrite E3. set (w3 := snd (draw w2)).
  destruct (uniform_run (literal 5 100) (literal 15 100) w3) as [base_click [E4 Hbc]];
    [apply literal_float; lia|vm_compute; discriminate|].
  unfold bind at 1. rewrite E4. set (w4 := snd (draw w3)).
  destruct (Perf.persona_rates persona base_open base_click) as [o c] eqn:Erates.
  destruct (persona_rates_float _ _ _ _ _ Hbo Hbc Erates) as [Ho Hc].
  destruct (uniform_run (literal 1 1000) (literal 1 100) w4) as [unsub [E5 Hun]];
    [apply literal_float; lia|vm_compute; discriminate|].
  unfold bind at 1. rewrite E5. set (w5 := snd (draw w4)).
  destruct (uniform_run (literal 1 100) (literal 5 100) w5) as [bounced [E6 Hbn]];
    [apply literal_float; lia|vm_compute; discriminate|].
  unfold bind at 1. rewrite E6.
  eexists. eexists. split; [reflexivity|].
  set (open_rate := fmin o (literal 95 100)).
  set (click_rate := fmin c (fmul open_rate (literal 8 10))).
  assert (H95 : nonneg_float (literal 95 100)) by (apply literal_float; lia).
  assert (Hor : nonneg_float open_rate) by (apply fmin_float; assumption).
  assert (H8 : 0 <= literal 8 10 /\ literal 8 10 <= 1) by (split; vm_compute; discriminate).
  assert (Hcap : nonneg_float (fmul open_rate (literal 8 10)))
    by (apply fmul_float; [apply Hor|apply H8]).
  assert (Hcr : nonneg_float click_rate) by (apply fmin_float; assumption).
  assert (Hcr_or : click_rate <= open_rate).
  { apply Qle_trans with (fmul open_rate (literal 8 10)); [apply fmin_le_r|].
    apply fmul_le_l; [exact Hor|apply H8|apply H8]. }
  exists sent, delivered, open_rate, click_rate, unsub, bounced.
  split; [reflexivity|]. split; [exact Hsent|]. split; [apply Hdel|]. split; [apply Hdel|].
  split; [apply Hcr|]. split; [apply fmin_le_r|].
  split; [apply round_ndigits_nonneg, Hcr|].
  split; [apply round_ndigits_mono; [apply Hcr|exact Hcr_or]|].
  split.
  - apply Qle_trans with (round_ndigits (literal 95 100) 4).
    + apply round_ndigits_mono; [apply Hor|apply fmin_le_r].
    + vm_compute. discriminate.
  - vm_compute. discriminate.
Qed.


Lemma dict_set_Forall (P : pyval -> Prop) d k v :
  Forall (fun e => P (snd e)) d -> P v -> Forall (fun e => P (snd e)) (dict_set d k v).
Proof.
  intros Hd Hv. induction Hd as [|[k' v'] d Hk' Hd IH]; simpl.
  - constructor; [exact Hv|constructor].
  - destruct (str_eqb k' k); constructor; assumption.
Qed.

Lemma dict_set_keys d k v p :
  In p (dict_keys (dict_set d k v)) <-> p = k \/ In p (dict_keys d).
Proof.
  induction d as [|[k' v'] d IH]; simpl.
  - intuition.
  - destruct (str_eqb k' k) eqn:E; simpl.
    + apply str_eqb_eq in E. subst k'. intuition.
    + rewrite IH. intuition.
Qed.

Lemma simulate_loop_ok personas : forall acc w,
  Forall (fun e => metrics_ok (snd e)) acc ->
  exists performance w',
    for_each personas acc
      (fun persona performance =>
         bind (Perf.simulate_persona persona)
           (fun metrics => ret (dict_set performance persona metrics))) w
    = (Ok performance, w')
    /\ Forall (fun e => metrics_ok (snd e)) performance
    /\ (forall p, In p (dict_keys performance) <-> In p personas \/ In p (dict_keys acc)).
Proof.
  induction personas as [|persona personas IH]; intros acc w Hacc; simpl.
  - exists acc, w. split; [reflexivity|]. split; [exact Hacc|]. intuition.
  - destruct (simulate_persona_ok persona w) as (metrics & w1 & E & Hm).
    unfold bind at 1. unfold bind at 1. rewrite E. unfold ret at 1.
    destruct (IH (dict_set acc persona metrics) w1
                (dict_set_Forall _ _ _ _ Hacc Hm)) as (perf & w' & Erun & Hall & Hkeys).
    exists perf, w'. split; [exact Erun|]. split; [exact Hall|].
    intros p. rewrite Hkeys, dict_set_keys. intuition.
Qed.

End Simulation.

(** C1: whatever the campaign id, the persona list and the random draws,
    [simulate_performance_data] returns a dictionary with one record per
    persona of the list, and in every record: [sent] is an integer of
    80..100; [delivered] is an integer from [int(sent * 0.85)] to [sent];
    the click rate, before rounding, is at least 0 and at most 0.8 times
    the open rate (as the code computes the product); and after rounding
    to four decimal places, 0 <= clicked <= opened <= 0.95.  The four
    fractional metrics are [round(_, 4)] of a rate. *)
Theorem simulate_performance_data_metrics
  (campaign_id : PyStr.str) (personas : list PyStr.str) (w : Py.world) :
  exists performance,
    fst (Perf.simulate_performance_data campaign_id personas w) = Py.Ok performance
    /\ Forall (fun entry => metrics_ok (snd entry)) performance
    /\ (forall persona, In persona (Py.dict_keys performance) <-> In persona personas).
Proof.
  destruct (simulate_loop_ok personas [] w (List.Forall_nil _)) as (perf & w' & E & Hall & Hkeys).
  exists perf. unfold Perf.simulate_performance_data.
  split; [|split; [exact Hall|]].
  - match goal with |- fst ?t = _ => replace t with (Py.Ok perf, w') end. reflexivity.
  - intros p. rewrite Hkeys. simpl. intuition.
Qed.

(* ===================================================================== *)
(** * The JSON round trip *)
(* ===================================================================== *)

(* --------------------------------------------------------------------- *)
(** ** UTF-8 *)
(* --------------------------------------------------------------------- *)

(** A Unicode scalar value: a code point that is not a surrogate. *)
Definition valid_char (c : PyStr.char) : bool :=
  ((c <? 1114112) && negb ((55296 <=? c) && (c <=? 57343)))%N.


Ltac decide_tests :=
  repeat match goal with
         | |- context [(?a <? ?b)%N] =>
             first [ replace (a <? b)%N with true by (symmetry; apply N.ltb_lt; lia)
                   | replace (a <? b)%N with false by (symmetry; apply N.ltb_ge; lia) ]
         | |- context [(?a <=? ?b)%N] =>
             first [ replace (a <=? b)%N with true by (symmetry; apply N.leb_le; lia)
                   | replace (a <=? b)%N with false by (symmetry; apply N.leb_gt; lia) ]
         | |- context [(?a =? ?b)%N] =>
             first [ replace (a =? b)%N with true by (symmetry; apply N.eqb_eq; lia)
                   | replace (a =? b)%N with false by (symmetry; apply N.eqb_neq; lia) ]
         end.

Section Utf8.
Import PyStr Py Json.
Local Open Scope N_scope.




End Utf8.

(* --------------------------------------------------------------------- *)
(** ** String literals *)
(* --------------------------------------------------------------------- *)

Section JsonStrings.
Import PyStr Py Json.
Local Open Scope N_scope.

Lemma control_cases c :
  c < 32 -> In c [0;1;2;3;4;5;6;7;8;9;10;11;12;13;14;15;16;17;18;19;20;21;22;23;
                  24;25;26;27;28;29;30;31].
Proof.
  intros H. cbn [In].
  destruct c as [|p]; [auto|].
  do 5 (try destruct p as [p|p|]); try (exfalso; lia); tauto.
Qed.

(** Reading an escaped character gives the character back. *)
Lemma scan_string_escape c rest acc :
  scan_string (escape_char c ++ rest) acc = scan_string rest (c :: acc).
Proof.
  destruct (N.ltb_spec c 32) as [Hc|Hc].
  - apply control_cases in Hc. cbn [In] in Hc.
    repeat (destruct Hc as [<-|Hc]; [reflexivity|]). destruct Hc.
  - destruct (N.eqb_spec c 34) as [->|H34]; [reflexivity|].
    destruct (N.eqb_spec c 92) as [->|H92]; [reflexivity|].
    unfold escape_char. decide_tests. cbn [app scan_string]. decide_tests.
    reflexivity.
Qed.

Lemma scan_string_body s rest acc :
  scan_string (flat_map escape_char s ++ 34 :: rest) acc = Ok (rev acc ++ s, rest).
Proof.
  revert acc. induction s as [|c s IH]; intros acc.
  - cbn. rewrite app_nil_r. reflexivity.
  - cbn [flat_map]. rewrite <- app_assoc, scan_string_escape, IH.
    cbn [rev]. rewrite <- app_assoc. reflexivity.
Qed.

(** A string literal is read back as the string it was written from. *)
Lemma scan_string_encode s rest :
  exists body, encode_basestring s ++ rest = 34 :: body
               /\ scan_string body [] = Ok (s, rest).
Proof.
  exists (flat_map escape_char s ++ 34 :: rest). split.
  - unfold encode_basestring. cbn [app]. rewrite <- app_assoc. reflexivity.
  - apply scan_string_body.
Qed.

End JsonStrings.

(* --------------------------------------------------------------------- *)
(** ** Digits *)
(* --------------------------------------------------------------------- *)

(** The text that follows a number does not continue it. *)
Definition no_digit_head (s : PyStr.str) : bool :=
  match s with [] => true | c :: _ => negb (Json.is_digit c) end.

Definition number_end (s : PyStr.str) : bool :=
  match s with
  | [] => true
  | c :: _ => negb (Json.is_digit c || (c =? 46) || (c =? 101) || (c =? 69))%N
  end.

(** An integer part as JSON writes it: a lone zero, or digits that do not
    start with a zero. *)
Definition int_digits (s : PyStr.str) : bool :=
  forallb Json.is_digit s
  && match s with
     | [] => false
     | [c] => true
     | c :: _ => negb (c =? 48)%N
     end.

Section Digits.
Import PyStr Py Json.
Local Open Scope N_scope.

Lemma digit_cases c :
  is_digit c = true ->
  In c [48; 49; 50; 51; 52; 53; 54; 55; 56; 57].
Proof.
  unfold is_digit. intros H. apply andb_prop in H as [H1 H2].
  apply N.leb_le in H1. apply N.leb_le in H2. cbn [In].
  assert (Hc : c = 48 + (c - 48)) by lia. revert Hc.
  assert (Hd : c - 48 < 10) by lia. revert Hd.
  generalize (c - 48). intros d Hd ->.
  destruct d as [|p]; [auto|].
  do 4 (try destruct p as [p|p|]); try (exfalso; lia); cbn; tauto.
Qed.

Lemma uint_chars_digits d : forallb is_digit (uint_chars d) = true.
Proof. induction d; cbn; auto. Qed.

Lemma digits_value_acc ds acc :
  fold_left (fun a c => a * 10 + (c - 48)) ds acc
  = acc * 10 ^ N.of_nat (length ds) + digits_value ds.
Proof.
  unfold digits_value. revert acc. induction ds as [|c ds IH]; intros acc.
  - cbn. lia.
  - cbn [fold_left length]. rewrite IH, (IH (0 * 10 + (c - 48))).
    rewrite Nat2N.inj_succ, N.pow_succ_r'.
    generalize (10 ^ N.of_nat (length ds)) (c - 48) (fold_left (fun a c0 => a * 10 + (c0 - 48)) ds 0).
    intros p k r. ring.
Qed.

Lemma digits_value_cons c ds :
  digits_value (c :: ds) = (c - 48) * 10 ^ N.of_nat (length ds) + digits_value ds.
Proof.
  unfold digits_value at 1. cbn [fold_left]. rewrite digits_value_acc.
  rewrite N.mul_0_l, N.add_0_l. reflexivity.
Qed.

Lemma digits_value_app a b :
  digits_value (a ++ b)
  = digits_value a * 10 ^ N.of_nat (length b) + digits_value b.
Proof.
  unfold digits_value at 1. rewrite fold_left_app.
  fold (digits_value a). apply digits_value_acc.
Qed.

Lemma digits_value_zeros n : digits_value (zeros n) = 0.
Proof.
  induction n as [|n IH]; [reflexivity|].
  cbn [zeros repeat]. rewrite digits_value_cons. fold (zeros n). rewrite IH. lia.
Qed.

Lemma zeros_digits n : forallb is_digit (zeros n) = true.
Proof. induction n; cbn; auto. Qed.

Lemma length_zeros n : length (zeros n) = n.
Proof. apply repeat_length. Qed.

Lemma of_uint_acc_value d acc :
  fold_left (fun a c => a * 10 + (c - 48)) (uint_chars d) (Npos acc)
  = Npos (Pos.of_uint_acc d acc).
Proof.
  revert acc. induction d; intros acc; cbn [uint_chars fold_left Pos.of_uint_acc];
    try reflexivity;
    match goal with
    | |- fold_left _ _ ?a = N.pos (Pos.of_uint_acc _ ?b) =>
        replace a with (N.pos b) by lia
    end; apply IHd.
Qed.

Lemma of_uint_value d : digits_value (uint_chars d) = N.of_uint d.
Proof.
  unfold N.of_uint. induction d; cbn [uint_chars Pos.of_uint];
    try reflexivity;
    unfold digits_value; cbn [fold_left];
    try (apply IHd);
    match goal with
    | |- fold_left _ _ ?a = N.pos (Pos.of_uint_acc _ ?b) =>
        replace a with (N.pos b) by lia
    end; apply of_uint_acc_value.
Qed.

Lemma digits_value_str_of_N n : digits_value (str_of_N n) = n.
Proof. unfold str_of_N. rewrite of_uint_value. apply DecimalN.Unsigned.of_to. Qed.

Lemma nzhead_head d : match Decimal.nzhead d with Decimal.D0 _ => False | _ => True end.
Proof. induction d; cbn; auto. Qed.

Lemma to_uint_head n d : N.to_uint n = Decimal.D0 d -> n = 0.
Proof.
  intros E. pose proof (DecimalN.Unsigned.to_of (N.to_uint n)) as H.
  rewrite DecimalN.Unsigned.of_to, E in H.
  rewrite <- (DecimalN.Unsigned.of_to n), E.
  rewrite unorm_D0 in H. unfold Decimal.unorm in H.
  pose proof (nzhead_head d) as Hh.
  destruct (Decimal.nzhead d); try discriminate H; try contradiction.
  injection H as ->. reflexivity.
Qed.

Lemma to_uint_nonnil n : N.to_uint n <> Decimal.Nil.
Proof.
  destruct n as [|p]; [discriminate|]. cbn. apply DecimalPos.Unsigned.to_uint_nonnil.
Qed.

Lemma str_of_N_int_digits n : int_digits (str_of_N n) = true.
Proof.
  unfold int_digits, str_of_N. rewrite uint_chars_digits. cbn [andb].
  pose proof (to_uint_nonnil n) as Hn.
  destruct (N.to_uint n) as [|d|d|d|d|d|d|d|d|d|d] eqn:E; try contradiction;
    cbn [uint_chars]; try (destruct (uint_chars d); reflexivity).
  apply to_uint_head in E as E0. subst n. cbn in E. injection E as <-. reflexivity.
Qed.

Lemma str_of_N_head_nonzero n :
  0 < n -> exists c ds, str_of_N n = c :: ds /\ is_digit c = true /\ c <> 48.
Proof.
  intros Hpos. unfold str_of_N.
  pose proof (to_uint_nonnil n) as Hn.
  destruct (N.to_uint n) as [|d|d|d|d|d|d|d|d|d|d] eqn:E; try contradiction;
    cbn [uint_chars];
    try (eexists _, _; split; [reflexivity|]; split; [reflexivity|discriminate]).
  apply to_uint_head in E. lia.
Qed.

Lemma str_of_N_digits n : forallb is_digit (str_of_N n) = true.
Proof. apply uint_chars_digits. Qed.

Lemma take_digits_app ds rest :
  forallb is_digit ds = true -> no_digit_head rest = true ->
  take_digits (ds ++ rest) = (ds, rest).
Proof.
  intros Hd Hr. induction ds as [|c ds IH].
  - destruct rest as [|c r]; [reflexivity|]. cbn in *.
    apply negb_true_iff in Hr. rewrite Hr. reflexivity.
  - cbn in Hd. apply andb_prop in Hd as [Hc Hd].
    cbn [app take_digits]. rewrite Hc, (IH Hd). reflexivity.
Qed.

End Digits.

(* --------------------------------------------------------------------- *)
(** ** The number scanner *)
(* --------------------------------------------------------------------- *)

(** The text of a fraction and of an exponent. *)
Definition frac_text (fp : PyStr.str) : PyStr.str :=
  match fp with [] => [] | tl => 46%N :: tl end.

Definition exp_text (ex : option Z) : PyStr.str :=
  match ex with None => [] | Some e => 101%N :: Json.exponent_repr e end.

Section Numbers.
Import PyStr Py Json.
Local Open Scope N_scope.

Ltac by_digit H :=
  apply digit_cases in H; cbn [In] in H;
  repeat (destruct H as [<-|H]; [try reflexivity|]); try destruct H.

Lemma scan_sign_digit c r :
  is_digit c = true -> scan_sign (c :: r) = (false, c :: r).
Proof. intros H. by_digit H. Qed.

Lemma number_end_no_digit rest : number_end rest = true -> no_digit_head rest = true.
Proof.
  destruct rest as [|c r]; [reflexivity|]. cbn. intros H.
  apply negb_true_iff in H. apply negb_true_iff.
  apply orb_false_iff in H as [H _]. apply orb_false_iff in H as [H _].
  apply orb_false_iff in H as [H _]. exact H.
Qed.

Lemma scan_int_app ip tail :
  int_digits ip = true -> no_digit_head tail = true ->
  scan_int (ip ++ tail) = Some (ip, tail).
Proof.
  unfold int_digits. intros H Ht. apply andb_prop in H as [Hd Hz].
  destruct ip as [|c ip]; [discriminate|].
  pose proof (take_digits_app _ _ Hd Ht) as Htake.
  cbn [forallb] in Hd. apply andb_prop in Hd as [Hc Hd].
  cbn [app scan_int]. rewrite Hc.
  destruct (N.eqb_spec c 48) as [->|Hne].
  - destruct ip as [|d ip]; [reflexivity|discriminate].
  - cbn [app] in Htake. rewrite Htake. reflexivity.
Qed.

Lemma scan_frac_other c r : c <> 46 -> scan_frac (c :: r) = ([], c :: r).
Proof.
  intros H. unfold scan_frac.
  destruct c as [|p]; [reflexivity|].
  do 6 (try destruct p as [p|p|]); try reflexivity. congruence.
Qed.

Lemma scan_frac_some fp tail :
  forallb is_digit fp = true -> fp <> [] -> no_digit_head tail = true ->
  scan_frac (46 :: fp ++ tail) = (fp, tail).
Proof.
  intros Hd Hn Ht. unfold scan_frac. rewrite (take_digits_app _ _ Hd Ht).
  destruct fp; [contradiction|reflexivity].
Qed.

Lemma scan_exp_none rest : number_end rest = true -> scan_exp rest = (None, rest).
Proof.
  destruct rest as [|c r]; [reflexivity|]. cbn [number_end scan_exp]. intros H.
  apply negb_true_iff in H. apply orb_false_iff in H as [H H69].
  apply orb_false_iff in H as [H H101]. rewrite H101, H69. reflexivity.
Qed.

Lemma scan_frac_none rest : number_end rest = true -> scan_frac rest = ([], rest).
Proof.
  destruct rest as [|c r]; [reflexivity|]. cbn [number_end]. intros H.
  apply negb_true_iff in H. apply orb_false_iff in H as [H _].
  apply orb_false_iff in H as [H _]. apply orb_false_iff in H as [_ H].
  apply scan_frac_other. apply N.eqb_neq. exact H.
Qed.

Lemma scan_exp_some e rest :
  no_digit_head rest = true ->
  scan_exp (101 :: exponent_repr e ++ rest) = (Some e, rest).
Proof.
  intros Ht. unfold exponent_repr.
  set (ds := if (length (str_of_N (Z.abs_N e)) <? 2)%nat
             then 48 :: str_of_N (Z.abs_N e) else str_of_N (Z.abs_N e)).
  assert (Hd : forallb is_digit ds = true).
  { unfold ds. destruct (_ <? _)%nat; cbn [forallb]; rewrite ?str_of_N_digits; reflexivity. }
  assert (Hv : digits_value ds = Z.abs_N e).
  { unfold ds. destruct (_ <? _)%nat; rewrite ?digits_value_cons, digits_value_str_of_N; lia. }
  assert (Hne : ds <> []).
  { unfold ds. destruct (_ <? _)%nat eqn:E; [discriminate|].
    apply Nat.ltb_ge in E. destruct (str_of_N (Z.abs_N e)); [cbn in E; lia|discriminate]. }
  pose proof (take_digits_app _ _ Hd Ht) as Htake.
  destruct (Z.ltb_spec e 0) as [Hneg|Hpos]; cbn [app scan_exp N.eqb Pos.eqb orb];
    rewrite Htake; (destruct ds; [contradiction|]); rewrite Hv; f_equal; f_equal; lia.
Qed.

(** The scanner reads a number written as sign, integer part, fraction
    and exponent back into these parts. *)
Lemma scan_number_text (neg : bool) ip fp ex rest :
  int_digits ip = true -> forallb is_digit fp = true -> number_end rest = true ->
  scan_number ((if neg then [45] else []) ++ ip ++ frac_text fp ++ exp_text ex ++ rest)
  = Some (decimal_value neg ip fp ex, rest).
Proof.
  intros Hip Hfp Hrest.
  pose proof (number_end_no_digit _ Hrest) as Hnd.
  assert (Hex : no_digit_head (exp_text ex ++ rest) = true).
  { destruct ex; [reflexivity|exact Hnd]. }
  assert (Hfr : no_digit_head (frac_text fp ++ exp_text ex ++ rest) = true).
  { destruct fp; [exact Hex|reflexivity]. }
  unfold scan_number.
  assert (Hsign : scan_sign ((if neg then [45] else []) ++ ip ++ frac_text fp ++ exp_text ex ++ rest)
                  = (neg, ip ++ frac_text fp ++ exp_text ex ++ rest)).
  { destruct neg; [reflexivity|]. cbn [app].
    unfold int_digits in Hip. apply andb_prop in Hip as [Hd Hz].
    destruct ip as [|c ip]; [discriminate|].
    cbn in Hd. apply andb_prop in Hd as [Hc _]. apply scan_sign_digit, Hc. }
  rewrite Hsign, (scan_int_app _ _ Hip Hfr).
  assert (Hfrac : scan_frac (frac_text fp ++ exp_text ex ++ rest) = (fp, exp_text ex ++ rest)).
  { destruct fp as [|d fp].
    - cbn [frac_text app]. destruct ex; [reflexivity|]. apply scan_frac_none, Hrest.
    - apply scan_frac_some; [exact Hfp|discriminate|exact Hex]. }
  rewrite Hfrac.
  assert (Hexp : scan_exp (exp_text ex ++ rest) = (ex, rest)).
  { destruct ex as [e|]; [apply scan_exp_some, Hnd|apply scan_exp_none, Hrest]. }
  rewrite Hexp. reflexivity.
Qed.

End Numbers.

(* --------------------------------------------------------------------- *)
(** ** The layouts of [repr] *)
(* --------------------------------------------------------------------- *)

(** The rational a decimal text denotes. *)
Definition decimal_Q (ip fp : PyStr.str) (ex : option Z) : Q :=
  (inject_Z (Z.of_N (Json.digits_value ip))
   + inject_Z (Z.of_N (Json.digits_value fp)) / Float.pow10 (Z.of_nat (length fp)))
  * Float.pow10 (match ex with Some e => e | None => 0%Z end).

Section FloatText.
Import PyStr Py Json Float.

Lemma scan_number_int z rest :
  number_end rest = true ->
  scan_number (str_of_Z z ++ rest) = Some (VInt z, rest).
Proof.
  intros Hr. unfold str_of_Z. destruct (Z.ltb_spec z 0) as [Hz|Hz].
  - change ((45%N :: str_of_N (Z.abs_N z)) ++ rest)
      with ((if true then [45%N] else []) ++ str_of_N (Z.abs_N z)
            ++ frac_text [] ++ exp_text None ++ rest).
    rewrite scan_number_text by (auto using str_of_N_int_digits).
    unfold decimal_value. rewrite digits_value_str_of_N, N2Z.inj_abs_N.
    do 3 f_equal. lia.
  - change (str_of_N (Z.to_N z) ++ rest)
      with ((if false then [45%N] else []) ++ str_of_N (Z.to_N z)
            ++ frac_text [] ++ exp_text None ++ rest).
    rewrite scan_number_text by (auto using str_of_N_int_digits).
    unfold decimal_value. rewrite digits_value_str_of_N, Z2N.id by lia.
    do 3 f_equal. lia.
Qed.

Lemma pow10_nonzero k : ~ pow10 k == 0.
Proof. pose proof (pow10_pos k). lra. Qed.

Lemma pow10_add a b : pow10 (a + b) == pow10 a * pow10 b.
Proof. unfold pow10. apply Qpower_plus. discriminate. Qed.

Lemma pow10_opp a : pow10 (- a) == / pow10 a.
Proof. unfold pow10. apply Qpower_opp. Qed.

Lemma pow10_nat n : pow10 (Z.of_nat n) == inject_Z (Z.of_N (10 ^ N.of_nat n)).
Proof.
  unfold pow10. rewrite N2Z.inj_pow, nat_N_Z.
  rewrite Zpower_Qpower by lia. reflexivity.
Qed.

Lemma inject_digits a n b :
  inject_Z (Z.of_N (a * 10 ^ N.of_nat n + b))
  == inject_Z (Z.of_N a) * pow10 (Z.of_nat n) + inject_Z (Z.of_N b).
Proof.
  rewrite pow10_nat, N2Z.inj_add, N2Z.inj_mul, inject_Z_plus, inject_Z_mult.
  reflexivity.
Qed.

Lemma int_digits_cons c tl :
  is_digit c = true -> c <> 48%N -> forallb is_digit tl = true ->
  int_digits (c :: tl) = true.
Proof.
  intros Hc Hne Ht. unfold int_digits. cbn [forallb]. rewrite Hc, Ht. cbn [andb].
  destruct tl; [reflexivity|]. apply negb_true_iff, N.eqb_neq, Hne.
Qed.

Lemma forallb_firstn {A} (f : A -> bool) n l :
  forallb f l = true -> forallb f (firstn n l) = true.
Proof.
  revert n; induction l as [|a l IH]; intros [|n]; cbn; auto.
  intros H. apply andb_prop in H as [-> H]. cbn. auto.
Qed.

Lemma forallb_skipn {A} (f : A -> bool) n l :
  forallb f l = true -> forallb f (skipn n l) = true.
Proof.
  revert n; induction l as [|a l IH]; intros [|n]; cbn; auto.
  intros H. apply andb_prop in H as [_ H]. auto.
Qed.

(** [repr] writes the decimal [m * 10^k] in one of four layouts; each is
    a number text that denotes [m * 10^k]. *)
Lemma format_digits_parts (m : N) (k : Z) :
  (0 < m)%N ->
  exists ip fp ex,
    format_digits (str_of_N m) (Z.of_nat (length (str_of_N m)) + k)
    = ip ++ frac_text fp ++ exp_text ex
    /\ int_digits ip = true /\ forallb is_digit fp = true
    /\ (fp <> [] \/ ex <> None)
    /\ decimal_Q ip fp ex == inject_Z (Z.of_N m) * pow10 k.
Proof.
  intros Hm.
  destruct (str_of_N_head_nonzero m Hm) as (c & tl & Eds & Hc & Hne).
  pose proof (str_of_N_digits m) as Hds.
  pose proof (digits_value_str_of_N m) as Hval.
  rewrite Eds in *. cbn [forallb] in Hds. apply andb_prop in Hds as [_ Htl].
  set (n := length (c :: tl)). set (D := (Z.of_nat n + k)%Z).
  unfold format_digits. change (length (c :: tl)) with n.
  destruct ((D <=? -4)%Z || (16 <? D)%Z) eqn:Eexp.
  { (* exponent layout *)
    exists [c], tl, (Some (D - 1)%Z). cbn [firstn skipn].
    split; [|split; [|split; [|split]]].
    - unfold frac_text, exp_text. destruct tl; reflexivity.
    - apply int_digits_cons; auto.
    - exact Htl.
    - right. discriminate.
    - unfold decimal_Q.
      assert (E1 : digits_value [c] = (c - 48)%N) by (unfold digits_value; cbn; lia).
      rewrite E1, <- Hval, digits_value_cons, inject_digits.
      replace (D - 1)%Z with (Z.of_nat (length tl) + k)%Z
        by (unfold D, n; cbn [length]; lia).
      rewrite pow10_add. field. apply pow10_nonzero. }
  apply orb_false_iff in Eexp as [E1 E2].
  apply Z.leb_gt in E1. apply Z.ltb_ge in E2.
  destruct (Z.leb_spec D 0) as [E3|E3].
  { (* zeros after the point *)
    exists [48%N], (zeros (Z.to_nat (- D)) ++ c :: tl), None.
    split; [|split; [|split; [|split]]].
    - unfold frac_text, exp_text. rewrite app_nil_r.
      destruct (zeros (Z.to_nat (- D)) ++ c :: tl) eqn:E; [|reflexivity].
      apply app_eq_nil in E as [_ E]. discriminate.
    - reflexivity.
    - rewrite forallb_app, zeros_digits. cbn [forallb andb]. rewrite Hc, Htl. reflexivity.
    - left. intros E. apply app_eq_nil in E as [_ E]. discriminate.
    - unfold decimal_Q. rewrite digits_value_app, digits_value_zeros, Hval.
      rewrite length_app, length_zeros. fold n.
      replace (Z.of_nat (Z.to_nat (- D) + n)) with (- k)%Z by (unfold D in *; lia).
      rewrite pow10_opp. change (digits_value [48%N]) with 0%N.
      replace (0 * 10 ^ N.of_nat n + m)%N with m by lia.
      change (pow10 0) with 1%Q. change (inject_Z (Z.of_N 0)) with 0%Q.
      field. apply pow10_nonzero. }
  destruct (Z.leb_spec (Z.of_nat n) D) as [E4|E4].
  { (* zeros before the point *)
    exists ((c :: tl) ++ zeros (Z.to_nat D - n)), [48%N], None.
    split; [|split; [|split; [|split]]].
    - unfold frac_text, exp_text. rewrite app_nil_r, <- app_assoc. reflexivity.
    - cbn [app]. apply int_digits_cons; auto.
      rewrite forallb_app, Htl, zeros_digits. reflexivity.
    - reflexivity.
    - left. discriminate.
    - unfold decimal_Q. rewrite digits_value_app, digits_value_zeros, Hval, length_zeros.
      rewrite N.add_0_r.
      replace (m * 10 ^ N.of_nat (Z.to_nat D - n))%N
        with (m * 10 ^ N.of_nat (Z.to_nat D - n) + 0)%N by lia.
      rewrite inject_digits.
      replace (Z.of_nat (Z.to_nat D - n)) with k by (unfold D in *; lia).
      change (digits_value [48%N]) with 0%N. cbn [length].
      change (pow10 0) with 1%Q. change (inject_Z (Z.of_N 0)) with 0%Q.
      field. apply pow10_nonzero. }
  (* the point inside the digits *)
  exists (firstn (Z.to_nat D) (c :: tl)), (skipn (Z.to_nat D) (c :: tl)), None.
  assert (Hlen : (length (skipn (Z.to_nat D) (c :: tl)) = n - Z.to_nat D)%nat)
    by apply length_skipn.
  assert (Hfp : skipn (Z.to_nat D) (c :: tl) <> []).
  { intros E. rewrite E in Hlen. change (length (@nil char)) with 0%nat in Hlen. lia. }
  split; [|split; [|split; [|split]]].
  - unfold frac_text, exp_text. rewrite app_nil_r.
    destruct (skipn (Z.to_nat D) (c :: tl)); [contradiction|reflexivity].
  - destruct (Z.to_nat D) as [|d] eqn:Ed; [lia|]. cbn [firstn].
    apply int_digits_cons; auto. apply forallb_firstn, Htl.
  - apply forallb_skipn. cbn [forallb]. rewrite Hc, Htl. reflexivity.
  - left. exact Hfp.
  - unfold decimal_Q.
    assert (Hsplit : m = (digits_value (firstn (Z.to_nat D) (c :: tl))
                          * 10 ^ N.of_nat (length (skipn (Z.to_nat D) (c :: tl)))
                          + digits_value (skipn (Z.to_nat D) (c :: tl)))%N).
    { rewrite <- digits_value_app, firstn_skipn. symmetry. exact Hval. }
    rewrite Hsplit at 1. rewrite inject_digits.
    replace k with (- Z.of_nat (length (skipn (Z.to_nat D) (c :: tl))))%Z
      by (rewrite Hlen; unfold D in *; lia).
    rewrite pow10_opp. change (pow10 0) with 1%Q.
    field. apply pow10_nonzero.
Qed.

End FloatText.

(* --------------------------------------------------------------------- *)
(** ** Rounding, equality and sign *)
(* --------------------------------------------------------------------- *)

(** Equality of two rationals as fractions (not up to reduction). *)
Definition Q_eqb (a b : Q) : bool :=
  (Qnum a =? Qnum b)%Z && (Qden a =? Qden b)%positive.

(** A rational that is a binary64: rounding returns it, as the same
    reduced fraction. *)
Definition is_float (x : Q) : bool := Q_eqb (Float.round64 x) x.

Section FloatRepr.
Import PyStr Py Json Float.
Local Open Scope Q_scope.

Lemma Q_eqb_eq a b : Q_eqb a b = true <-> a = b.
Proof.
  unfold Q_eqb. destruct a as [p q], b as [p' q']. cbn [Qnum Qden]. split.
  - intros H. apply andb_prop in H as [H1 H2].
    apply Z.eqb_eq in H1. apply Pos.eqb_eq in H2. congruence.
  - intros E. injection E as -> ->. rewrite Z.eqb_refl, Pos.eqb_refl. reflexivity.
Qed.

Lemma is_float_eq x : is_float x = true <-> round64 x = x.
Proof. apply Q_eqb_eq. Qed.

(** ** Rounding respects equality of rationals and negation *)

Lemma ilog2_comp x y : 0 < x -> x == y -> ilog2 x = ilog2 y.
Proof.
  intros Hx E. symmetry. pose proof (ilog2_spec x Hx) as [H1 H2].
  apply ilog2_unique; rewrite <- E; assumption.
Qed.

Lemma ulp_exp_comp x y : ~ x == 0 -> x == y -> ulp_exp x = ulp_exp y.
Proof.
  intros Hx E. unfold ulp_exp. f_equal. f_equal. apply ilog2_comp.
  - pose proof (Qabs_nonneg x) as H. apply Qle_lteq in H as [H|H]; [exact H|].
    exfalso. apply Hx. revert H. apply Qabs_case; intros; lra.
  - rewrite E. reflexivity.
Qed.

Lemma round64_comp x y : x == y -> round64 x = round64 y.
Proof.
  intros E. destruct (Qeq_dec x 0) as [Hz|Hnz].
  - unfold round64. apply Qred_complete.
    assert (H0 : forall z e, z == 0 -> rne (z / pow2 e) = 0%Z).
    { intros z e Ez. rewrite (rne_comp _ 0); [apply (rne_Z 0)|].
      rewrite Ez. unfold Qdiv. ring. }
    rewrite (H0 x) by exact Hz. rewrite (H0 y) by (rewrite <- E; exact Hz). ring.
  - unfold round64. fold (ulp_exp x) (ulp_exp y).
    rewrite (ulp_exp_comp x y Hnz E). apply Qred_complete.
    rewrite (rne_comp (x / pow2 (ulp_exp y)) (y / pow2 (ulp_exp y))); [reflexivity|].
    rewrite E. reflexivity.
Qed.

Lemma Qfloor_opp_nonint x :
  ~ x == inject_Z (Qfloor x) -> Qfloor (- x) = (- Qfloor x - 1)%Z.
Proof.
  intros Hn. pose proof (Qfloor_le x) as H1. pose proof (Qlt_floor x) as H2.
  assert (H3 : inject_Z (Qfloor x) < x).
  { apply Qle_lteq in H1 as [H1|H1]; [exact H1|]. exfalso. apply Hn. symmetry. exact H1. }
  assert (Hlo : (- Qfloor x - 1 <= Qfloor (- x))%Z).
  { replace (- Qfloor x - 1)%Z with (- (Qfloor x + 1))%Z by lia.
    rewrite <- (Qfloor_Z (- (Qfloor x + 1))). apply Qfloor_resp_le.
    rewrite inject_Z_opp. lra. }
  assert (Hhi : (Qfloor (- x) < - Qfloor x)%Z).
  { rewrite Zlt_Qlt. eapply Qle_lt_trans; [apply Qfloor_le|].
    rewrite inject_Z_opp. lra. }
  lia.
Qed.

Lemma rne_opp x : rne (- x) = (- rne x)%Z.
Proof.
  destruct (Qeq_dec x (inject_Z (Qfloor x))) as [Hi|Hn].
  - rewrite (rne_comp x _ Hi), (rne_comp (- x) (inject_Z (- Qfloor x))), !rne_Z; auto.
    rewrite inject_Z_opp. lra.
  - unfold rne. rewrite (Qfloor_opp_nonint x Hn).
    pose proof (Qfloor_le x) as H1.
    assert (E : inject_Z (- Qfloor x - 1) == - inject_Z (Qfloor x) - 1).
    { replace (- Qfloor x - 1)%Z with (- (Qfloor x + 1))%Z by lia.
      rewrite inject_Z_opp, inject_Z_plus. change (inject_Z 1) with 1. ring. }
    replace (Z.even (- Qfloor x - 1)) with (negb (Z.even (Qfloor x))).
    2:{ replace (- Qfloor x - 1)%Z with (- (Qfloor x + 1))%Z by lia.
        rewrite Z.even_opp, Z.even_add. destruct (Z.even (Qfloor x)); reflexivity. }
    revert E H1. generalize (inject_Z (- Qfloor x - 1)) (inject_Z (Qfloor x)).
    intros a b E H1.
    destruct (Qcompare_spec (x - b) (1 # 2)) as [C|C|C];
      destruct (Qcompare_spec (- x - a) (1 # 2)) as [C'|C'|C'];
      try (exfalso; lra); try lia.
    destruct (Z.even (Qfloor x)); cbn [negb]; lia.
Qed.

Lemma ulp_exp_opp x : ulp_exp (- x) = ulp_exp x.
Proof.
  unfold ulp_exp. do 3 f_equal. destruct x as [p q]. unfold Qabs, Qopp. cbn.
  f_equal. apply Z.abs_opp.
Qed.

Lemma round64_opp x : round64 (- x) == - round64 x.
Proof.
  rewrite !round64_eq, ulp_exp_opp.
  rewrite (rne_comp (- x / pow2 (ulp_exp x)) (- (x / pow2 (ulp_exp x)))).
  - rewrite rne_opp, inject_Z_opp. ring.
  - unfold Qdiv. ring.
Qed.

(** A rounded value is a reduced fraction, so two of them that are equal
    as rationals are the same fraction. *)
Lemma Qred_round64 x : Qred (round64 x) = round64 x.
Proof. unfold round64. apply Qred_complete, Qred_correct. Qed.

Lemma round64_canon x y : round64 x == y -> round64 y = y -> round64 x = y.
Proof.
  intros E Hy. rewrite <- (Qred_round64 x), <- Hy, <- (Qred_round64 y).
  apply Qred_complete. rewrite Hy. exact E.
Qed.

End FloatRepr.

(* --------------------------------------------------------------------- *)
(** ** The digits of [repr] *)
(* --------------------------------------------------------------------- *)

Section Shortest.
Import PyStr Py Json Float.
Local Open Scope Q_scope.

(** ** The denominator of a binary64 is a power of two *)

Lemma divide_pow2 (a : nat) (d : Z) :
  (0 < d)%Z -> (d | 2 ^ Z.of_nat a)%Z -> exists j, (0 <= j)%Z /\ d = (2 ^ j)%Z.
Proof.
  revert d. induction a as [|a IH]; intros d Hd Hdiv.
  - exists 0%Z. split; [lia|]. apply Z.divide_1_r_nonneg; [lia|exact Hdiv].
  - rewrite Nat2Z.inj_succ, Z.pow_succ_r in Hdiv by lia.
    destruct (Z.even d) eqn:Ev.
    + apply Z.even_spec in Ev as [d' ->].
      apply Z.mul_divide_cancel_l in Hdiv; [|lia].
      destruct (IH d' ltac:(lia) Hdiv) as (j & Hj & ->).
      exists (j + 1)%Z. split; [lia|]. rewrite Z.pow_add_r by lia. lia.
    + apply IH; [exact Hd|]. apply (Z.gauss d 2); [exact Hdiv|].
      pose proof (Z.gcd_nonneg d 2) as Hg0.
      pose proof (Z.gcd_divide_l d 2) as Hgl.
      pose proof (Z.gcd_divide_r d 2) as Hgr.
      apply Z.divide_pos_le in Hgr as Hle; [|lia].
      assert (Hcases : (Z.gcd d 2 = 0 \/ Z.gcd d 2 = 1 \/ Z.gcd d 2 = 2)%Z) by lia.
      destruct Hcases as [E|[E|E]]; [|exact E|].
      * apply Z.gcd_eq_0_l in E. lia.
      * rewrite E in Hgl. destruct Hgl as [c ->].
        rewrite Z.mul_comm, Z.even_mul in Ev. discriminate.
Qed.

Lemma dyadic_den r e :
  exists j, (0 <= j)%Z /\ Zpos (Qden (Qred (inject_Z r * pow2 e))) = (2 ^ j)%Z.
Proof.
  set (q := Qred (inject_Z r * pow2 e)).
  assert (E : q == inject_Z r * pow2 e) by apply Qred_correct.
  pose proof (gcd_Qred (inject_Z r * pow2 e)) as Hg. fold q in Hg.
  set (a := Z.to_nat (Z.max 0 (- e))).
  assert (Hint : q * inject_Z (2 ^ Z.of_nat a) == inject_Z (r * 2 ^ (e + Z.of_nat a))).
  { rewrite E, inject_Z_mult, !pow2_Z_inv by (unfold a; lia).
    rewrite pow2_add. ring. }
  apply (divide_pow2 a); [reflexivity|].
  apply (Z.gauss _ (Qnum q)).
  - destruct q as [n d]. unfold Qeq, Qmult, inject_Z in Hint. cbn in Hint |- *.
    exists (r * 2 ^ (e + Z.of_nat a))%Z. lia.
  - rewrite Z.gcd_comm. exact Hg.
Qed.

Lemma float_den x :
  round64 x = x -> exists j, (0 <= j)%Z /\ Zpos (Qden x) = (2 ^ j)%Z.
Proof. intros <-. apply dyadic_den. Qed.

Lemma exact_decimal_value x :
  round64 x = x ->
  inject_Z (fst (exact_decimal x)) * pow10 (snd (exact_decimal x)) == x.
Proof.
  intros Hx. destruct (float_den x Hx) as (j & Hj & Hden).
  unfold exact_decimal. cbn [fst snd]. clear Hx.
  destruct x as [n d]. cbn [Qnum Qden] in *.
  rewrite (Qmake_Qdiv n d), Hden, Z.log2_pow2 by exact Hj.
  rewrite pow10_opp. unfold pow10.
  change 10 with (inject_Z 10). rewrite <- Zpower_Qpower by exact Hj.
  replace (10 ^ j)%Z with (2 ^ j * 5 ^ j)%Z by (rewrite <- Z.pow_mul_l; reflexivity).
  rewrite !inject_Z_mult. field. split.
  - change 0 with (inject_Z 0). rewrite inject_Z_injective. lia.
  - change 0 with (inject_Z 0). rewrite inject_Z_injective. lia.
Qed.

(** ** The digits of [repr] denote a decimal that reads back *)

Lemma strip_zeros_value fuel m k :
  inject_Z (fst (strip_zeros fuel m k)) * pow10 (snd (strip_zeros fuel m k))
  == inject_Z m * pow10 k
  /\ ((0 < m)%Z -> (0 < fst (strip_zeros fuel m k))%Z).
Proof.
  revert m k. induction fuel as [|fuel IH]; intros m k; cbn [strip_zeros].
  - split; [reflexivity|auto].
  - destruct ((m mod 10 =? 0)%Z && negb (m =? 0)%Z) eqn:E; [|split; [reflexivity|auto]].
    apply andb_prop in E as [E1 E2]. apply Z.eqb_eq in E1.
    apply negb_true_iff, Z.eqb_neq in E2.
    pose proof (Z.div_mod m 10 ltac:(lia)) as Hm. rewrite E1, Z.add_0_r in Hm.
    destruct (IH (m / 10)%Z (k + 1)%Z) as [Hv Hp]. split.
    + rewrite Hv, pow10_add. rewrite Hm at 2. rewrite inject_Z_mult.
      change (pow10 1) with (inject_Z 10). ring.
    + intros Hpos. apply Hp. lia.
Qed.

Lemma candidate_some x n m k :
  0 < x -> candidate x n = Some (m, k) ->
  reads_back x m k = true /\ (0 <= m)%Z.
Proof.
  intros Hx. unfold candidate.
  set (k' := (ilog10 x + 1 - n)%Z). set (lo := Qfloor (x / pow10 k')).
  assert (Hlo : (0 <= lo)%Z).
  { unfold lo. rewrite <- (Qfloor_Z 0). apply Qfloor_resp_le.
    apply Qle_shift_div_l; [apply pow10_pos|]. change (inject_Z 0) with 0. lra. }
  destruct (reads_back x lo k') eqn:E1, (reads_back x (lo + 1) k') eqn:E2;
    try discriminate.
  - destruct (Qle_bool _ _); intros [= <- <-]; split; auto; lia.
  - intros [= <- <-]; split; auto.
  - intros [= <- <-]; split; auto; lia.
Qed.

Lemma shortest_from_ok fuel x n :
  0 < x -> round64 x = x ->
  (0 < fst (shortest_from fuel x n))%Z
  /\ round64 (inject_Z (fst (shortest_from fuel x n))
              * pow10 (snd (shortest_from fuel x n))) == x.
Proof.
  intros Hx Hf.
  assert (Hpos : forall m k, (0 <= m)%Z -> round64 (inject_Z m * pow10 k) == x -> (0 < m)%Z).
  { intros m k Hm E. destruct (Z.eq_dec m 0%Z) as [->|]; [|lia].
    rewrite round64_zero in E by (change (inject_Z 0) with 0; ring). lra. }
  revert n. induction fuel as [|fuel IH]; intros n; cbn [shortest_from].
  - pose proof (exact_decimal_value x Hf) as E.
    assert (E' : round64 (inject_Z (fst (exact_decimal x)) * pow10 (snd (exact_decimal x))) == x).
    { rewrite (round64_comp _ _ E), Hf. reflexivity. }
    split; [|exact E'].
    apply (Hpos _ _) in E'; [exact E'|].
    unfold exact_decimal. cbn [fst]. apply Z.mul_nonneg_nonneg.
    + destruct x as [p q]. unfold Qlt in Hx. cbn in *. lia.
    + apply Z.pow_nonneg. lia.
  - destruct (candidate x n) as [[m k]|] eqn:E; [|apply IH].
    apply candidate_some in E as [Hr Hm]; [|exact Hx].
    unfold reads_back in Hr. apply Qeq_bool_iff in Hr. cbn [fst snd].
    split; [|exact Hr]. apply (Hpos m k Hm Hr).
Qed.

Lemma shortest_ok x :
  0 < x -> round64 x = x ->
  (0 < fst (shortest x))%Z
  /\ round64 (inject_Z (fst (shortest x)) * pow10 (snd (shortest x))) == x.
Proof.
  intros Hx Hf. unfold shortest.
  destruct (shortest_from_ok 17 x 1 Hx Hf) as [Hm Hr].
  destruct (shortest_from 17 x 1) as [m k]. cbn [fst snd] in *.
  destruct (strip_zeros_value (Z.to_nat (Z.log2 m)) m k) as [Hv Hp].
  split; [apply Hp, Hm|].
  rewrite (round64_comp _ _ Hv). exact Hr.
Qed.

End Shortest.

(* --------------------------------------------------------------------- *)
(** ** Number texts *)
(* --------------------------------------------------------------------- *)

(** A number as JSON writes it. *)
Definition number_text (neg : bool) (ip fp : PyStr.str) (ex : option Z) : PyStr.str :=
  (if neg then [45%N] else []) ++ ip ++ frac_text fp ++ exp_text ex.

Section NumberTexts.
Import PyStr Py Json Float.
Local Open Scope Q_scope.

Lemma scan_number_of_text neg ip fp ex rest :
  int_digits ip = true -> forallb is_digit fp = true -> number_end rest = true ->
  scan_number (number_text neg ip fp ex ++ rest)
  = Some (decimal_value neg ip fp ex, rest).
Proof.
  intros. unfold number_text. rewrite <- !app_assoc.
  apply scan_number_text; assumption.
Qed.

Lemma int_text z :
  exists neg ip,
    str_of_Z z = number_text neg ip [] None
    /\ int_digits ip = true
    /\ decimal_value neg ip [] None = VInt z.
Proof.
  unfold str_of_Z, number_text, decimal_value.
  destruct (Z.ltb_spec z 0) as [Hz|Hz].
  - exists true, (str_of_N (Z.abs_N z)). cbn [frac_text exp_text].
    rewrite !app_nil_r, digits_value_str_of_N, N2Z.inj_abs_N.
    split; [reflexivity|]. split; [apply str_of_N_int_digits|]. f_equal. lia.
  - exists false, (str_of_N (Z.to_N z)). cbn [frac_text exp_text].
    rewrite !app_nil_r, digits_value_str_of_N, Z2N.id by exact Hz.
    split; [reflexivity|]. split; [apply str_of_N_int_digits|]. f_equal. lia.
Qed.

Lemma is_float_opp x : round64 x = x -> round64 (- x) = - x.
Proof.
  intros Hx. rewrite <- Hx at 2. clear Hx.
  pose proof (round64_opp x) as E.
  unfold round64 in *. rewrite <- Qred_opp in *. apply Qred_complete.
  rewrite !Qred_correct in E. exact E.
Qed.

Lemma Qabs_float x : round64 x = x -> round64 (Qabs x) = Qabs x.
Proof.
  intros Hx. destruct x as [n d]. unfold Qabs.
  destruct (Z.le_ge_cases 0 n) as [Hn|Hn].
  - rewrite Z.abs_eq by exact Hn. exact Hx.
  - rewrite Z.abs_neq by exact Hn. apply (is_float_opp _ Hx).
Qed.

(** [repr] of a float is a number text that denotes the float. *)
Lemma float_text x :
  round64 x = x ->
  exists neg ip fp ex,
    float_repr x = number_text neg ip fp ex
    /\ int_digits ip = true /\ forallb is_digit fp = true
    /\ decimal_value neg ip fp ex = VFloat x.
Proof.
  intros Hx. unfold float_repr.
  destruct (Qeq_bool x 0) eqn:E0.
  { apply Qeq_bool_iff in E0.
    exists false, [48%N], [48%N], None.
    split; [reflexivity|]. split; [reflexivity|]. split; [reflexivity|].
    unfold decimal_value. f_equal. apply round64_canon; [|exact Hx].
    rewrite round64_zero; [symmetry; exact E0|].
    change (digits_value [48%N]) with 0%N. change (inject_Z (Z.of_N 0)) with 0.
    unfold Qdiv. ring. }
  apply Qeq_bool_neq in E0.
  assert (Hy : 0 < Qabs x).
  { pose proof (Qabs_nonneg x) as H. apply Qle_lteq in H as [H|H]; [exact H|].
    exfalso. apply E0. revert H. apply Qabs_case; intros; lra. }
  destruct (shortest_ok (Qabs x) Hy (Qabs_float x Hx)) as [Hm Hr].
  destruct (shortest (Qabs x)) as [m k]. cbn [fst snd] in *.
  destruct (format_digits_parts (Z.to_N m) k ltac:(lia))
    as (ip & fp & ex & Etext & Hip & Hfp & Hne & Hval).
  rewrite Z2N.id in Hval by lia.
  exists (negb (Qle_bool 0 x)), ip, fp, ex.
  split; [|split; [exact Hip|split; [exact Hfp|]]].
  { unfold number_text. rewrite Etext. destruct (Qle_bool 0 x); reflexivity. }
  assert (Hdv : decimal_value (negb (Qle_bool 0 x)) ip fp ex
                = VFloat (round64 (inject_Z (if negb (Qle_bool 0 x) then -1 else 1)
                                   * decimal_Q ip fp ex))).
  { unfold decimal_value, decimal_Q.
    assert (Harg : forall s a b, s * a * b == s * (a * b)) by (intros; ring).
    destruct fp as [|c fp]; [destruct ex as [e|]; [|destruct Hne; congruence]|];
      f_equal; apply round64_comp, Harg. }
  rewrite Hdv. f_equal. apply round64_canon; [|exact Hx].
  destruct (Qle_bool 0 x) eqn:Es; cbn [negb].
  - apply Qle_bool_iff in Es.
    assert (Earg : inject_Z 1 * decimal_Q ip fp ex == inject_Z m * pow10 k)
      by (rewrite Hval; change (inject_Z 1) with 1; ring).
    rewrite (round64_comp _ _ Earg), Hr. apply Qabs_pos, Es.
  - assert (Es' : x <= 0).
    { apply Qlt_le_weak, Qnot_le_lt. intros H. apply Qle_bool_iff in H. congruence. }
    assert (Earg : inject_Z (-1) * decimal_Q ip fp ex == - (inject_Z m * pow10 k))
      by (rewrite Hval; change (inject_Z (-1)) with (-1); ring).
    rewrite (round64_comp _ _ Earg), round64_opp, Hr, (Qabs_neg x Es'). ring.
Qed.

End NumberTexts.

(* --------------------------------------------------------------------- *)
(** ** The shape of the encoder's output *)
(* --------------------------------------------------------------------- *)

(** The first character of a JSON value, and what may follow a value in
    the encoder's output: a comma, a line break or the end. *)
Definition value_start (c : PyStr.char) : bool :=
  ((c =? 45) || Json.is_digit c || (c =? 34) || (c =? 91) || (c =? 123)
   || (c =? 110) || (c =? 116) || (c =? 102))%N.

Definition value_end (s : PyStr.str) : bool :=
  match s with [] => true | c :: _ => ((c =? 44) || (c =? 10))%N end.

(** The items of an array after the first, and the members of an object
    after the first, as [Json.dump] writes them at item level [lvl]. *)
Definition elems_text (lvl : nat) : list Py.pyval -> PyStr.str :=
  fix rest (l : list Py.pyval) : PyStr.str :=
    match l with
    | [] => []
    | y :: l' =>
        PyStr.lit "," ++ Json.newline_indent lvl ++ Json.dump lvl y ++ rest l'
    end.

Definition members_text (lvl : nat) : list (PyStr.str * Py.pyval) -> PyStr.str :=
  fix rest (l : list (PyStr.str * Py.pyval)) : PyStr.str :=
    match l with
    | [] => []
    | (k', y) :: l' =>
        PyStr.lit "," ++ Json.newline_indent lvl
          ++ Json.encode_basestring k' ++ PyStr.lit ": " ++ Json.dump lvl y ++ rest l'
    end.

(** The recursion depth budget a value needs in [Json.parse_value]. *)
Fixpoint size (v : Py.pyval) : nat :=
  match v with
  | Py.VList l => S (list_sum (List.map (fun x => S (size x)) l))
  | Py.VDict d => S (list_sum (List.map (fun kv => S (size (snd kv))) d))
  | _ => 1
  end.

(** No string occurs twice. *)
Fixpoint distinct (l : list PyStr.str) : bool :=
  match l with
  | [] => true
  | k :: r => negb (existsb (PyStr.str_eqb k) r) && distinct r
  end.

(** The values [json] can write and read back: strings of Unicode scalar
    values, floats that are binary64 values, objects without a repeated
    key. *)
Fixpoint wf_json (v : Py.pyval) : bool :=
  match v with
  | Py.VFloat x => is_float x
  | Py.VStr s => forallb valid_char s
  | Py.VList l => forallb wf_json l
  | Py.VDict d =>
      forallb (fun kv => forallb valid_char (fst kv) && wf_json (snd kv)) d
      && distinct (List.map fst d)
  | _ => true
  end.

Section ParseDump.
Import PyStr Py Json.
Local Open Scope N_scope.

Lemma dump_list lvl x xs :
  dump lvl (VList (x :: xs))
  = 91 :: newline_indent (S lvl) ++ dump (S lvl) x
      ++ elems_text (S lvl) xs ++ newline_indent lvl ++ [93].
Proof. reflexivity. Qed.

Lemma dump_dict lvl k x kvs :
  dump lvl (VDict ((k, x) :: kvs))
  = 123 :: newline_indent (S lvl) ++ encode_basestring k ++ [58; 32]
      ++ dump (S lvl) x ++ members_text (S lvl) kvs ++ newline_indent lvl ++ [125].
Proof. reflexivity. Qed.

Lemma elems_text_cons lvl y l :
  elems_text lvl (y :: l)
  = 44 :: newline_indent lvl ++ dump lvl y ++ elems_text lvl l.
Proof. reflexivity. Qed.

Lemma members_text_cons lvl k y l :
  members_text lvl ((k, y) :: l)
  = 44 :: newline_indent lvl ++ encode_basestring k ++ [58; 32]
      ++ dump lvl y ++ members_text lvl l.
Proof. reflexivity. Qed.

Lemma value_start_cases c :
  value_start c = true ->
  In c [45; 48; 49; 50; 51; 52; 53; 54; 55; 56; 57; 34; 91; 123; 110; 116; 102].
Proof.
  unfold value_start. intros H.
  repeat (apply orb_prop in H as [H|H]);
    try (apply N.eqb_eq in H; subst c; cbn; tauto).
  apply digit_cases in H. cbn in H |- *. tauto.
Qed.

Ltac by_start H :=
  apply value_start_cases in H; cbn [In] in H;
  repeat (destruct H as [<-|H]; [try reflexivity; try discriminate|]); try destruct H.

Lemma value_start_not_ws c : value_start c = true -> is_ws c = false.
Proof. intros H. by_start H. Qed.

Lemma skip_ws_spaces n c t :
  is_ws c = false -> skip_ws (repeat 32 n ++ c :: t) = c :: t.
Proof.
  intros Hc. induction n as [|n IH]; cbn [repeat app].
  - unfold skip_ws. cbn [dropwhile]. rewrite Hc. reflexivity.
  - exact IH.
Qed.

Lemma skip_ws_indent n c t :
  is_ws c = false -> skip_ws (newline_indent n ++ c :: t) = c :: t.
Proof. intros Hc. apply (skip_ws_spaces (2 * n) c t Hc). Qed.

Lemma number_text_start neg ip fp ex :
  int_digits ip = true ->
  exists c t, number_text neg ip fp ex = c :: t /\ value_start c = true.
Proof.
  intros Hip. unfold number_text. destruct neg.
  - eexists _, _. split; reflexivity.
  - destruct ip as [|c ip]; [discriminate|].
    unfold int_digits in Hip. apply andb_prop in Hip as [Hd _].
    cbn in Hd. apply andb_prop in Hd as [Hc _].
    eexists _, _. split; [reflexivity|]. unfold value_start. rewrite Hc.
    rewrite orb_true_r. reflexivity.
Qed.

Lemma value_end_number_end rest : value_end rest = true -> number_end rest = true.
Proof.
  destruct rest as [|c r]; [reflexivity|]. cbn. intros H.
  apply orb_prop in H as [H|H]; apply N.eqb_eq in H; subst c; reflexivity.
Qed.

Lemma parse_value_number f c r :
  c = 45 \/ is_digit c = true ->
  parse_value (S f) (c :: r)
  = match scan_number (c :: r) with
    | Some vr => Ok vr
    | None => Raise JSONDecodeError
    end.
Proof.
  intros [->|H]; [reflexivity|].
  apply digit_cases in H. cbn [In] in H.
  repeat (destruct H as [<-|H]; [reflexivity|]). destruct H.
Qed.

Lemma parse_number_text f neg ip fp ex rest :
  int_digits ip = true -> forallb is_digit fp = true -> value_end rest = true ->
  parse_value (S f) (number_text neg ip fp ex ++ rest)
  = Ok (decimal_value neg ip fp ex, rest).
Proof.
  intros Hip Hfp Hend.
  pose proof (scan_number_of_text neg ip fp ex rest Hip Hfp
                (value_end_number_end _ Hend)) as Hscan.
  assert (Hhead : exists c t, number_text neg ip fp ex = c :: t
                              /\ (c = 45 \/ is_digit c = true)).
  { unfold number_text. destruct neg; [eexists _, _; split; [reflexivity|left; reflexivity]|].
    destruct ip as [|c ip]; [discriminate|].
    unfold int_digits in Hip. apply andb_prop in Hip as [Hd _].
    cbn in Hd. apply andb_prop in Hd as [Hc _].
    eexists _, _. split; [reflexivity|right; exact Hc]. }
  destruct Hhead as (c & t & E & Hc). rewrite E in *. cbn [app] in *.
  rewrite (parse_value_number f c _ Hc).
  match goal with
  | |- match ?s with _ => _ end = _ =>
      replace s with (Some (decimal_value neg ip fp ex, rest))
        by (symmetry; exact Hscan)
  end.
  reflexivity.
Qed.

End ParseDump.

(* --------------------------------------------------------------------- *)
(** ** Steps of the parser *)
(* --------------------------------------------------------------------- *)

Definition elems_size (l : list Py.pyval) : nat :=
  list_sum (List.map (fun x => S (size x)) l).

Definition members_size (d : list (PyStr.str * Py.pyval)) : nat :=
  list_sum (List.map (fun kv => S (size (snd kv))) d).

Definition wf_member (kv : PyStr.str * Py.pyval) : bool :=
  forallb valid_char (fst kv) && wf_json (snd kv).

Section ParseSteps.
Import PyStr Py Json.
Local Open Scope N_scope.

Lemma skip_ws_cons c t : is_ws c = false -> skip_ws (c :: t) = c :: t.
Proof. intros H. unfold skip_ws. cbn [dropwhile]. rewrite H. reflexivity. Qed.

Lemma parse_value_string f body s rest :
  scan_string body [] = Ok (s, rest) ->
  parse_value (S f) (34 :: body) = Ok (VStr s, rest).
Proof.
  intros E.
  change (parse_value (S f) (34 :: body))
    with (match scan_string body [] with
          | Ok (k, r') => Ok (VStr k, r')
          | Raise e => Raise e
          end).
  rewrite E. reflexivity.
Qed.

Lemma parse_value_list f r c t :
  skip_ws r = c :: t -> value_start c = true ->
  parse_value (S f) (91 :: r) = parse_elems f (c :: t) [].
Proof.
  intros E Hc.
  change (parse_value (S f) (91 :: r))
    with (match skip_ws r with
          | 93 :: r' => Ok (VList [], r')
          | r' => parse_elems f r' []
          end).
  rewrite E. apply value_start_cases in Hc. cbn [In] in Hc.
  repeat (destruct Hc as [<-|Hc]; [reflexivity|]). destruct Hc.
Qed.

Lemma parse_value_dict f r s :
  skip_ws r = 34 :: s ->
  parse_value (S f) (123 :: r) = parse_members f s [].
Proof.
  intros E.
  change (parse_value (S f) (123 :: r))
    with (match skip_ws r with
          | 125 :: r' => Ok (VDict [], r')
          | 34 :: r' => parse_members f r' []
          | _ => Raise JSONDecodeError
          end).
  rewrite E. reflexivity.
Qed.

Lemma elems_step_end f s acc v r rest :
  parse_value f s = Ok (v, r) -> skip_ws r = 93 :: rest ->
  parse_elems (S f) s acc = Ok (VList (rev (v :: acc)), rest).
Proof.
  intros E1 E2.
  change (parse_elems (S f) s acc)
    with (match parse_value f s with
          | Raise e => Raise e
          | Ok (v, r) =>
              match skip_ws r with
              | 93 :: r' => Ok (VList (rev (v :: acc)), r')
              | 44 :: r' => parse_elems f (skip_ws r') (v :: acc)
              | _ => Raise JSONDecodeError
              end
          end).
  rewrite E1, E2. reflexivity.
Qed.

Lemma elems_step_more f s acc v r r' :
  parse_value f s = Ok (v, r) -> skip_ws r = 44 :: r' ->
  parse_elems (S f) s acc = parse_elems f (skip_ws r') (v :: acc).
Proof.
  intros E1 E2.
  change (parse_elems (S f) s acc)
    with (match parse_value f s with
          | Raise e => Raise e
          | Ok (v, r) =>
              match skip_ws r with
              | 93 :: r' => Ok (VList (rev (v :: acc)), r')
              | 44 :: r' => parse_elems f (skip_ws r') (v :: acc)
              | _ => Raise JSONDecodeError
              end
          end).
  rewrite E1, E2. reflexivity.
Qed.

Lemma parse_members_S f s acc :
  parse_members (S f) s acc
  = match scan_string s [] with
    | Raise e => Raise e
    | Ok (k, r) =>
        match skip_ws r with
        | 58 :: r1 =>
            match parse_value f (skip_ws r1) with
            | Raise e => Raise e
            | Ok (v, r2) =>
                match skip_ws r2 with
                | 125 :: r' => Ok (VDict (dict_of_pairs (rev ((k, v) :: acc))), r')
                | 44 :: r3 =>
                    match skip_ws r3 with
                    | 34 :: r4 => parse_members f r4 ((k, v) :: acc)
                    | _ => Raise JSONDecodeError
                    end
                | _ => Raise JSONDecodeError
                end
            end
        | _ => Raise JSONDecodeError
        end
    end.
Proof. reflexivity. Qed.

Lemma members_step_end f s acc k r r1 v r2 rest :
  scan_string s [] = Ok (k, r) -> skip_ws r = 58 :: r1 ->
  parse_value f (skip_ws r1) = Ok (v, r2) -> skip_ws r2 = 125 :: rest ->
  parse_members (S f) s acc = Ok (VDict (dict_of_pairs (rev ((k, v) :: acc))), rest).
Proof.
  intros E1 E2 E3 E4. rewrite parse_members_S, E1, E2, E3, E4. reflexivity.
Qed.

Lemma members_step_more f s acc k r r1 v r2 r3 r4 :
  scan_string s [] = Ok (k, r) -> skip_ws r = 58 :: r1 ->
  parse_value f (skip_ws r1) = Ok (v, r2) -> skip_ws r2 = 44 :: r3 ->
  skip_ws r3 = 34 :: r4 ->
  parse_members (S f) s acc = parse_members f r4 ((k, v) :: acc).
Proof.
  intros E1 E2 E3 E4 E5. rewrite parse_members_S, E1, E2, E3, E4, E5. reflexivity.
Qed.

Lemma dump_start lvl v :
  wf_json v = true -> exists c t, dump lvl v = c :: t /\ value_start c = true.
Proof.
  intros Hwf. destruct v as [|b|z|x|s|l|d].
  - eexists _, _. split; reflexivity.
  - destruct b; eexists _, _; split; reflexivity.
  - destruct (int_text z) as (neg & ip & E & Hip & _). cbn [dump]. rewrite E.
    apply number_text_start, Hip.
  - apply is_float_eq in Hwf.
    destruct (float_text x Hwf) as (neg & ip & fp & ex & E & Hip & _).
    cbn [dump]. rewrite E. apply number_text_start, Hip.
  - eexists _, _. split; reflexivity.
  - destruct l as [|x xs]; [eexists _, _; split; reflexivity|].
    rewrite dump_list. eexists _, _. split; reflexivity.
  - destruct d as [|[k x] kvs]; [eexists _, _; split; reflexivity|].
    rewrite dump_dict. eexists _, _. split; reflexivity.
Qed.

Lemma skip_ws_dump lvl v tail :
  wf_json v = true -> skip_ws (dump lvl v ++ tail) = dump lvl v ++ tail.
Proof.
  intros Hwf. destruct (dump_start lvl v Hwf) as (c & t & E & Hc). rewrite E.
  apply skip_ws_cons, value_start_not_ws, Hc.
Qed.

Lemma skip_ws_indent_dump n lvl v tail :
  wf_json v = true ->
  skip_ws (newline_indent n ++ dump lvl v ++ tail) = dump lvl v ++ tail.
Proof.
  intros Hwf. destruct (dump_start lvl v Hwf) as (c & t & E & Hc). rewrite E.
  apply skip_ws_indent, value_start_not_ws, Hc.
Qed.

Lemma size_pos v : (1 <= size v)%nat.
Proof. destruct v; cbn; lia. Qed.

End ParseSteps.

(* --------------------------------------------------------------------- *)
(** ** Reading back what was written *)
(* --------------------------------------------------------------------- *)

Section ParseDumped.
Import PyStr Py Json.
Local Open Scope N_scope.

Lemma distinct_NoDup l : distinct l = true -> List.NoDup l.
Proof.
  induction l as [|k r IH]; cbn; intros H; constructor.
  - apply andb_prop in H as [H _]. apply negb_true_iff in H.
    intros Hin. assert (E : existsb (str_eqb k) r = true).
    { apply existsb_exists. exists k. split; [exact Hin|]. apply bool_decide_eq_true_2. reflexivity. }
    congruence.
  - apply IH. apply andb_prop in H as [_ H]. exact H.
Qed.

Lemma dict_set_fresh d k v :
  ~ In k (List.map fst d) -> dict_set d k v = d ++ [(k, v)].
Proof.
  induction d as [|[k' v'] d IH]; cbn [dict_set List.map fst In app]; intros H.
  - reflexivity.
  - unfold str_eqb. rewrite bool_decide_eq_false_2 by (intros ->; apply H; left; reflexivity).
    rewrite IH by (intros Hin; apply H; right; exact Hin). reflexivity.
Qed.

Lemma fold_dict_set l d :
  List.NoDup (List.map fst (d ++ l)) ->
  fold_left (fun d kv => dict_set d (fst kv) (snd kv)) l d = d ++ l.
Proof.
  revert d. induction l as [|[k v] l IH]; intros d H; cbn [fold_left fst snd].
  - rewrite app_nil_r. reflexivity.
  - rewrite dict_set_fresh.
    + rewrite IH; rewrite <- app_assoc; [reflexivity|exact H].
    + rewrite List.map_app in H. cbn [List.map fst] in H.
      apply List.NoDup_remove_2 in H. intros Hin. apply H.
      apply in_or_app. left. exact Hin.
Qed.

(** Rebuilding a dict from its own pairs gives it back. *)
Lemma dict_of_pairs_distinct d :
  distinct (List.map fst d) = true -> dict_of_pairs d = d.
Proof.
  intros H. unfold dict_of_pairs. apply (fold_dict_set d []).
  apply distinct_NoDup, H.
Qed.

Lemma skip_ws_space s : skip_ws (32 :: s) = skip_ws s.
Proof. reflexivity. Qed.

(** The parser reads back what the encoder wrote: a value, the items of
    an array from the first character of an item, and the members of an
    object from after the opening quote of a key. *)
Lemma parse_dump fuel :
  (forall v lvl rest,
      wf_json v = true -> value_end rest = true -> (size v <= fuel)%nat ->
      parse_value fuel (dump lvl v ++ rest) = Ok (v, rest))
  /\ (forall x xs lvl lvl' rest acc,
         wf_json x = true -> forallb wf_json xs = true ->
         (elems_size (x :: xs) <= fuel)%nat ->
         parse_elems fuel
           (dump lvl x ++ elems_text lvl xs ++ newline_indent lvl' ++ 93 :: rest) acc
         = Ok (VList (rev acc ++ x :: xs), rest))
  /\ (forall k x kvs lvl lvl' rest acc,
         wf_json x = true -> forallb wf_member kvs = true ->
         (members_size ((k, x) :: kvs) <= fuel)%nat ->
         parse_members fuel
           (flat_map escape_char k ++ 34 :: 58 :: 32 :: dump lvl x
              ++ members_text lvl kvs ++ newline_indent lvl' ++ 125 :: rest) acc
         = Ok (VDict (dict_of_pairs (rev acc ++ (k, x) :: kvs)), rest)).
Proof.
  induction fuel as [|fuel (IHP & IHQ & IHR)].
  { split; [|split].
    - intros v ? ? _ _ H. pose proof (size_pos v). lia.
    - intros ? ? ? ? ? ? _ _ H. cbn in H. lia.
    - intros ? ? ? ? ? ? ? _ _ H. cbn in H. lia. }
  split; [|split].
  - intros v lvl rest Hwf Hend Hsize. destruct v as [|b|z|x|s|l|d].
    + reflexivity.
    + destruct b; reflexivity.
    + destruct (int_text z) as (neg & ip & E & Hip & Hv). cbn [dump].
      rewrite E, parse_number_text, Hv; auto.
    + apply is_float_eq in Hwf.
      destruct (float_text x Hwf) as (neg & ip & fp & ex & E & Hip & Hfp & Hv).
      cbn [dump]. rewrite E, parse_number_text, Hv; auto.
    + cbn [dump]. unfold encode_basestring. cbn [app]. rewrite <- app_assoc.
      apply parse_value_string. cbn [app]. apply scan_string_body.
    + destruct l as [|x xs]; [reflexivity|].
      cbn [wf_json forallb] in Hwf. apply andb_prop in Hwf as [Hx Hxs].
      rewrite dump_list. cbn [app]. rewrite <- !app_assoc. cbn [app].
      destruct (dump_start (S lvl) x Hx) as (c & t & Ed & Hc).
      rewrite (parse_value_list fuel _ c
                 (t ++ elems_text (S lvl) xs ++ newline_indent lvl ++ 93 :: rest)); auto.
      * change (c :: t ++ elems_text (S lvl) xs ++ newline_indent lvl ++ 93 :: rest)
          with ((c :: t) ++ elems_text (S lvl) xs ++ newline_indent lvl ++ 93 :: rest).
        rewrite <- Ed. apply (IHQ x xs (S lvl) lvl rest []); auto.
        cbn [size] in Hsize. unfold elems_size. lia.
      * rewrite Ed. cbn [app]. apply skip_ws_indent, value_start_not_ws, Hc.
    + destruct d as [|[k x] kvs]; [reflexivity|].
      cbn [wf_json forallb] in Hwf. apply andb_prop in Hwf as [Hwf Hdis].
      apply andb_prop in Hwf as [Hkx Hkvs]. apply andb_prop in Hkx as [_ Hx].
      cbn [snd] in Hx.
      rewrite dump_dict. cbn [app]. rewrite <- !app_assoc. cbn [app].
      unfold encode_basestring at 1. cbn [app]. rewrite <- !app_assoc. cbn [app].
      rewrite (parse_value_dict fuel _
                 (flat_map escape_char k ++ 34 :: 58 :: 32 :: dump (S lvl) x
                    ++ members_text (S lvl) kvs ++ newline_indent lvl ++ 125 :: rest)).
      * rewrite (IHR k x kvs (S lvl) lvl rest []); auto.
        -- cbn [rev app]. rewrite dict_of_pairs_distinct by exact Hdis. reflexivity.
        -- cbn [size] in Hsize. unfold members_size. lia.
      * apply (skip_ws_indent (S lvl) 34). reflexivity.
  - intros x xs lvl lvl' rest acc Hx Hxs Hsize.
    assert (Hsx : (size x <= fuel)%nat) by (unfold elems_size in Hsize; cbn in Hsize; lia).
    destruct xs as [|y ys].
    + rewrite (elems_step_end fuel _ acc x (newline_indent lvl' ++ 93 :: rest) rest).
      * cbn [rev]. reflexivity.
      * apply IHP; auto.
      * apply (skip_ws_indent lvl' 93). reflexivity.
    + cbn [forallb] in Hxs. apply andb_prop in Hxs as [Hy Hys].
      rewrite elems_text_cons. cbn [app]. rewrite <- !app_assoc.
      rewrite (elems_step_more fuel _ acc x
                 (44 :: newline_indent lvl ++ dump lvl y ++ elems_text lvl ys
                     ++ newline_indent lvl' ++ 93 :: rest)
                 (newline_indent lvl ++ dump lvl y ++ elems_text lvl ys
                     ++ newline_indent lvl' ++ 93 :: rest)).
      * rewrite skip_ws_indent_dump by exact Hy.
        rewrite (IHQ y ys lvl lvl' rest (x :: acc)); auto.
        -- cbn [rev]. rewrite <- app_assoc. reflexivity.
        -- unfold elems_size in *. cbn [List.map list_sum fold_right] in *. lia.
      * apply IHP; auto.
      * apply skip_ws_cons. reflexivity.
  - intros k x kvs lvl lvl' rest acc Hx Hkvs Hsize.
    assert (Hsx : (size x <= fuel)%nat)
      by (unfold members_size in Hsize; cbn in Hsize; lia).
    assert (Hscan : forall tail,
               scan_string (flat_map escape_char k ++ 34 :: tail) [] = Ok (k, tail))
      by (intros; apply scan_string_body).
    destruct kvs as [|[k' y] kvs].
    + cbn [members_text app]. set (tail := newline_indent lvl' ++ 125 :: rest).
      rewrite (members_step_end fuel _ acc k (58 :: 32 :: dump lvl x ++ tail)
                 (32 :: dump lvl x ++ tail) x tail rest (Hscan _)).
      * cbn [rev]. reflexivity.
      * apply skip_ws_cons. reflexivity.
      * rewrite skip_ws_space, skip_ws_dump by auto.
        apply IHP; auto.
      * apply (skip_ws_indent lvl' 125). reflexivity.
    + cbn [forallb] in Hkvs. apply andb_prop in Hkvs as [Hky Hkvs].
      unfold wf_member in Hky. apply andb_prop in Hky as [_ Hy]. cbn [snd] in Hy.
      rewrite members_text_cons. unfold encode_basestring.
      repeat first [rewrite <- !app_assoc | progress cbn [app]].
      set (r4 := flat_map escape_char k'
                   ++ 34 :: 58 :: 32 :: dump lvl y ++ members_text lvl kvs
                   ++ newline_indent lvl' ++ 125 :: rest).
      set (r3 := newline_indent lvl ++ 34 :: r4).
      eapply eq_trans.
      { apply (members_step_more fuel _ acc k (58 :: 32 :: dump lvl x ++ 44 :: r3)
                 (32 :: dump lvl x ++ 44 :: r3) x (44 :: r3) r3 r4).
        - apply Hscan.
        - apply skip_ws_cons. reflexivity.
        - rewrite skip_ws_space, skip_ws_dump by auto. apply IHP; auto.
        - apply skip_ws_cons. reflexivity.
        - apply (skip_ws_indent lvl 34). reflexivity. }
      unfold r4. rewrite (IHR k' y kvs lvl lvl' rest ((k, x) :: acc)); auto.
      * cbn [rev]. rewrite <- app_assoc. reflexivity.
      * unfold members_size in *. cbn [List.map list_sum fold_right snd] in *. lia.
Qed.

End ParseDumped.

(* --------------------------------------------------------------------- *)
(** ** The characters and the length of the output *)
(* --------------------------------------------------------------------- *)

Section ValueInduction.
Import Py.

Variable P : pyval -> Prop.
Hypothesis HNone : P VNone.
Hypothesis HBool : forall b, P (VBool b).
Hypothesis HInt : forall z, P (VInt z).
Hypothesis HFloat : forall x, P (VFloat x).
Hypothesis HStr : forall s, P (VStr s).
Hypothesis HList : forall l, List.Forall P l -> P (VList l).
Hypothesis HDict : forall d, List.Forall (fun kv => P (snd kv)) d -> P (VDict d).

(** Induction on a value, with the property available for the items of
    a list and the values of a dict. *)
Fixpoint pyval_nested_ind (v : pyval) : P v :=
  match v with
  | VNone => HNone
  | VBool b => HBool b
  | VInt z => HInt z
  | VFloat x => HFloat x
  | VStr s => HStr s
  | VList l =>
      HList l ((fix items (l : list pyval) : List.Forall P l :=
                  match l with
                  | [] => @List.Forall_nil pyval P
                  | x :: xs =>
                      @List.Forall_cons pyval P x xs (pyval_nested_ind x) (items xs)
                  end) l)
  | VDict d =>
      HDict d ((fix members (d : list (PyStr.str * pyval))
                  : List.Forall (fun kv => P (snd kv)) d :=
                  match d with
                  | [] => @List.Forall_nil _ (fun kv => P (snd kv))
                  | kv :: kvs =>
                      @List.Forall_cons _ (fun kv => P (snd kv)) kv kvs
                        (pyval_nested_ind (snd kv)) (members kvs)
                  end) d)
  end.

End ValueInduction.

Section DumpedText.
Import PyStr Py Json.
Local Open Scope N_scope.









(** A value needs no more recursion depth than its text has characters. *)
Lemma size_le_length v :
  forall lvl, wf_json v = true -> (size v <= length (dump lvl v))%nat.
Proof.
  assert (Hatom : forall lvl u, wf_json u = true -> (1 <= length (dump lvl u))%nat).
  { intros lvl u Hwf. destruct (dump_start lvl u Hwf) as (c & t & E & _).
    rewrite E. cbn [length]. lia. }
  induction v as [|b|z|x|s|l IH|d IH] using pyval_nested_ind; intros lvl Hwf;
    try (apply (Hatom lvl _ Hwf)).
  - destruct l as [|x xs]; [cbn; lia|].
    cbn [wf_json forallb] in Hwf. apply andb_prop in Hwf as [Hx Hxs].
    apply List.Forall_cons_iff in IH as [IHx IHxs].
    rewrite dump_list. cbn [length size List.map list_sum fold_right].
    rewrite !length_app. specialize (IHx (S lvl) Hx).
    assert (E : (list_sum (List.map (fun x => S (size x)) xs)
                 <= length (elems_text (S lvl) xs))%nat).
    { clear Hx IHx. revert Hxs IHxs.
      induction xs as [|y ys IHys]; intros Hxs IHxs; [cbn; lia|].
      cbn [forallb] in Hxs. apply andb_prop in Hxs as [Hy Hys].
      apply List.Forall_cons_iff in IHxs as [IHy IHxs].
      rewrite elems_text_cons. cbn [length List.map list_sum fold_right].
      rewrite !length_app. specialize (IHy (S lvl) Hy). specialize (IHys Hys IHxs).
      unfold list_sum in IHys. lia. }
    unfold newline_indent. cbn [length]. unfold list_sum in E. lia.
  - destruct d as [|[k x] kvs]; [cbn; lia|].
    cbn [wf_json forallb] in Hwf. apply andb_prop in Hwf as [Hwf _].
    apply andb_prop in Hwf as [Hkx Hkvs]. apply andb_prop in Hkx as [_ Hx].
    cbn [snd] in Hx.
    apply List.Forall_cons_iff in IH as [IHx IHkvs]. cbn [snd] in IHx.
    rewrite dump_dict. cbn [length size List.map list_sum fold_right snd].
    rewrite !length_app. specialize (IHx (S lvl) Hx).
    assert (E : (list_sum (List.map (fun kv => S (size (snd kv))) kvs)
                 <= length (members_text (S lvl) kvs))%nat).
    { clear Hx IHx. revert Hkvs IHkvs.
      induction kvs as [|[k' y] kvs IHm]; intros Hkvs IHkvs; [cbn; lia|].
      cbn [forallb] in Hkvs. apply andb_prop in Hkvs as [Hky Hkvs].
      apply andb_prop in Hky as [_ Hy]. cbn [snd] in Hy.
      apply List.Forall_cons_iff in IHkvs as [IHy IHkvs]. cbn [snd] in IHy.
      rewrite members_text_cons. cbn [length List.map list_sum fold_right snd].
      rewrite !length_app. specialize (IHy (S lvl) Hy). specialize (IHm Hkvs IHkvs).
      unfold list_sum in IHm. lia. }
    unfold newline_indent. cbn [length]. unfold list_sum in E. lia.
Qed.

(** [json.loads(json.dumps(v, indent=2, ensure_ascii=False)) == v]. *)
Lemma loads_dumps v : wf_json v = true -> loads (dumps v) = Ok v.
Proof.
  intros Hwf. unfold loads, dumps.
  destruct (dump_start 0 v Hwf) as (c & t & E & Hc).
  assert (Hbom : startswith (dump 0 v) [65279] = false).
  { rewrite E. cbn [startswith]. apply andb_false_iff. left.
    apply value_start_cases in Hc. cbn [In] in Hc.
    repeat (destruct Hc as [<-|Hc]; [reflexivity|]). destruct Hc. }
  rewrite Hbom.
  rewrite <- (app_nil_r (dump 0 v)) at 2. rewrite skip_ws_dump by exact Hwf.
  destruct (parse_dump (S (length (dump 0 v)))) as [HP _].
  rewrite app_nil_r at 1.
  rewrite <- (app_nil_r (dump 0 v)) at 2.
  rewrite HP; [reflexivity|exact Hwf|reflexivity|].
  pose proof (size_le_length v 0 Hwf). lia.
Qed.

End DumpedText.

(* --------------------------------------------------------------------- *)
(** ** Sample texts *)
(* --------------------------------------------------------------------- *)

(** [repr] on floats in each of its layouts, as the interpreter prints
    them. *)
Example float_repr_samples :
  List.map Json.float_repr
    [ Float.literal 1 10;
      Float.fadd (Float.literal 1 10) (Float.literal 2 10);
      Float.round64 (Float.pow10 22);
      Float.literal 1 100000;
      Float.round64 (Float.pow10 16);
      Float.round64 (123456789125 # 1000);
      Float.pow2 (-1074);
      Float.literal 1 10000;
      Float.of_int 100;
      (- Float.literal 25 10)%Q ]
  = [ PyStr.lit "0.1"; PyStr.lit "0.30000000000000004"; PyStr.lit "1e+22";
      PyStr.lit "1e-05"; PyStr.lit "1e+16"; PyStr.lit "123456789.125";
      PyStr.lit "5e-324"; PyStr.lit "0.0001"; PyStr.lit "100.0";
      PyStr.lit "-2.5" ].
Proof. vm_compute. reflexivity. Qed.

(** The text of a small dict: two spaces per level, one item per line,
    the quote and the line break escaped, the accented letter as it is. *)
Example dumps_sample :
  Json.dumps
    (Py.VDict
       [ (PyStr.lit "a",
          Py.VList [Py.VInt 1; Py.VFloat (Float.literal 25 10);
                    Py.VStr [233; 34; 10]%N]);
         (PyStr.lit "b", Py.VDict []) ])
  = [123; 10; 32; 32; 34; 97; 34; 58; 32; 91; 10;
     32; 32; 32; 32; 49; 44; 10;
     32; 32; 32; 32; 50; 46; 53; 44; 10;
     32; 32; 32; 32; 34; 233; 92; 34; 92; 110; 34; 10;
     32; 32; 93; 44; 10;
     32; 32; 34; 98; 34; 58; 32; 123; 125; 10; 125]%N.
Proof. vm_compute. reflexivity. Qed.

(* --------------------------------------------------------------------- *)
(** ** Saving and loading *)
(* --------------------------------------------------------------------- *)





(* ===================================================================== *)
(** * Further properties of the code *)
(* ===================================================================== *)

(* --------------------------------------------------------------------- *)
(** ** Runs without a HubSpot key *)
(* --------------------------------------------------------------------- *)

(** An observation that no primitive but the HTTP request changes. *)
Definition offline_inert {X} (f : Py.world -> X) : Prop :=
  preserves f Py.draw /\ preserves f Py.now
  /\ preserves f Py.ask_llm /\ preserves f Py.get_mock_mode
  /\ (forall c, preserves f (Py.get_status c))
  /\ (forall v, preserves f (Py.str_of v))
  /\ preserves f Py.get_ucd_alnum
  /\ (forall p, preserves f (Py.path_exists p))
  /\ (forall p, preserves f (Py.read_file p))
  /\ (forall p b, preserves f (Py.write_file p b))
  /\ (forall c v, preserves f (Py.set_status c v)).

(** The requests made so far, as long as the client is in mock mode. *)
Definition mock_requests (w : Py.world) : option nat :=
  if Py.mock_mode w then Some (Py.http_n w) else None.

Section Offline.
Import PyStr Py.
Context {X : Type} (f : world -> X) (Hf : offline_inert f).

Ltac offline := destruct Hf as (? & ? & ? & ? & ? & ? & ? & ? & ? & ? & ?); keeps.

Lemma offline_randint a b : preserves f (randint a b).
Proof. unfold randint. offline. Qed.

Lemma offline_format_timestamp : preserves f Utils.format_timestamp.
Proof. unfold Utils.format_timestamp. offline. Qed.

Lemma offline_generate_campaign_id : preserves f Utils.generate_campaign_id.
Proof. unfold Utils.generate_campaign_id. offline. Qed.

Lemma offline_save_json v p : preserves f (Utils.save_json v p).
Proof. unfold Utils.save_json. offline. Qed.

Lemma offline_load_json p : preserves f (Utils.load_json p).
Proof. unfold Utils.load_json. offline. Qed.

Lemma offline_mock_campaign_response p : preserves f (CRM.mock_campaign_response p).
Proof.
  unfold CRM.mock_campaign_response.
  pose proof offline_randint. pose proof offline_format_timestamp. offline.
Qed.

Lemma offline_mock_distribution_entry nls p :
  preserves f (CRM.mock_distribution_entry nls p).
Proof.
  unfold CRM.mock_distribution_entry.
  pose proof offline_randint. pose proof offline_format_timestamp. offline.
Qed.

Lemma offline_mock_campaign_distribution d :
  preserves f (CRM.mock_campaign_distribution d).
Proof.
  unfold CRM.mock_campaign_distribution.
  pose proof offline_mock_distribution_entry. offline.
Qed.

Lemma offline_log_campaign d : preserves f (CRM.log_campaign d).
Proof. unfold CRM.log_campaign. pose proof offline_format_timestamp. offline. Qed.

Lemma offline_create_mock_contacts n : preserves f (CRM.create_mock_contacts n).
Proof. unfold CRM.create_mock_contacts, CRM.mock_contact, CRM.choice. offline. Qed.

Lemma offline_generate_blog_post t : preserves f (ContentGen.generate_blog_post t).
Proof. unfold ContentGen.generate_blog_post. offline. Qed.

Lemma offline_newsletter_for b i : preserves f (ContentGen.newsletter_for b i).
Proof. unfold ContentGen.newsletter_for. offline. Qed.

Lemma offline_generate_persona_newsletters b :
  preserves f (ContentGen.generate_persona_newsletters b).
Proof.
  unfold ContentGen.generate_persona_newsletters.
  pose proof offline_newsletter_for. offline.
Qed.

Lemma offline_generate_variations c : preserves f (ContentGen.generate_variations c).
Proof. unfold ContentGen.generate_variations. offline. Qed.

Lemma offline_suggest_improvements c : preserves f (ContentGen.suggest_improvements c).
Proof. unfold ContentGen.suggest_improvements. offline. Qed.

Lemma offline_uniform a b : preserves f (Perf.uniform a b).
Proof. unfold Perf.uniform, Perf.random. offline. Qed.

Lemma offline_simulate_persona p : preserves f (Perf.simulate_persona p).
Proof.
  unfold Perf.simulate_persona.
  pose proof offline_randint. pose proof offline_uniform. offline.
Qed.

Lemma offline_simulate_performance_data c ps :
  preserves f (Perf.simulate_performance_data c ps).
Proof.
  unfold Perf.simulate_performance_data.
  pose proof offline_simulate_persona. offline.
Qed.

Lemma offline_store_performance_data c d :
  preserves f (Perf.store_performance_data c d).
Proof.
  unfold Perf.store_performance_data.
  pose proof offline_format_timestamp. pose proof offline_save_json. offline.
Qed.

Lemma offline_generate_performance_summary d :
  preserves f (Perf.generate_performance_summary d).
Proof. unfold Perf.generate_performance_summary, Perf.format_lookups. offline. Qed.

Lemma offline_subject_lines n : preserves f (Main.subject_lines n).
Proof. unfold Main.subject_lines. offline. Qed.

End Offline.

Section MockRequests.
Import PyStr Py.

Lemma offline_inert_mock_requests : offline_inert mock_requests.
Proof.
  unfold offline_inert. repeat split; intros; intros w; try reflexivity.
  unfold read_file. destruct (fs w !! p); reflexivity.
Qed.

(** A computation that keeps the mode keeps the count of a mock client's
    requests once the client is live: there is no count to keep. *)
Lemma mock_requests_live {A} (m : M A) w :
  preserves mock_mode m -> mock_mode w = false ->
  mock_requests (snd (m w)) = mock_requests w.
Proof.
  intros Hm Hw. unfold mock_requests. rewrite (Hm w), Hw. reflexivity.
Qed.

Lemma mock_requests_check_marketing_access :
  preserves mock_requests CRM.check_marketing_access.
Proof.
  intros w. destruct (mock_mode w) eqn:E.
  - unfold CRM.check_marketing_access, bind, get_mock_mode. rewrite E. reflexivity.
  - apply mock_requests_live; [|exact E].
    apply (inert_check_marketing_access _ inert_mock_mode).
Qed.

(** In mock mode [send_campaign] is the simulated distribution, without a
    probe. *)
Lemma send_campaign_mock d w :
  mock_mode w = true -> CRM.send_campaign d w = CRM.mock_campaign_distribution d w.
Proof.
  intros E. unfold CRM.send_campaign, CRM.check_marketing_access.
  unfold bind at 1. unfold bind at 1. unfold get_mock_mode at 1. rewrite E.
  unfold ret at 1. unfold bind at 1. unfold get_mock_mode. rewrite E. reflexivity.
Qed.

Lemma mock_requests_send_campaign d : preserves mock_requests (CRM.send_campaign d).
Proof.
  intros w. destruct (mock_mode w) eqn:E.
  - rewrite (send_campaign_mock d w E).
    exact (offline_mock_campaign_distribution _ offline_inert_mock_requests d w).
  - apply mock_requests_live; [|exact E].
    apply (inert_send_campaign _ inert_mock_mode).
Qed.

End MockRequests.

(** Collects what is known to keep the count of a mock client's requests. *)
Ltac mock_requests_frames :=
  pose proof offline_inert_mock_requests as Hoff;
  pose proof (offline_generate_campaign_id _ Hoff);
  pose proof (offline_format_timestamp _ Hoff);
  pose proof (offline_save_json _ Hoff);
  pose proof (offline_generate_blog_post _ Hoff);
  pose proof (offline_generate_persona_newsletters _ Hoff);
  pose proof (offline_generate_variations _ Hoff);
  pose proof (offline_suggest_improvements _ Hoff);
  pose proof (offline_subject_lines _ Hoff);
  pose proof (offline_create_mock_contacts _ Hoff);
  pose proof mock_requests_send_campaign;
  pose proof mock_requests_check_marketing_access;
  pose proof (offline_log_campaign _ Hoff);
  pose proof (offline_simulate_performance_data _ Hoff);
  pose proof (offline_store_performance_data _ Hoff);
  pose proof (offline_generate_performance_summary _ Hoff);
  destruct Hoff as (? & ? & ? & ? & ? & ? & ? & ? & ? & ? & ?).

Section NoRequests.
Import PyStr Py.

Lemma mock_requests_some w n :
  mock_requests w = Some n -> mock_mode w = true /\ http_n w = n.
Proof.
  unfold mock_requests. destruct (mock_mode w); [|discriminate].
  intros [= ->]. split; reflexivity.
Qed.

End NoRequests.

(** Without a usable HubSpot key (none, the placeholder or fewer than 20
    characters) a run makes no HTTP request, whether it completes or
    raises: [main.py]'s [run_pipeline], which also ends in mock mode, and
    the dashboard's [run_pipeline_async] alike. *)
Theorem run_pipeline_without_key_makes_no_request
  (campaign_id topic : PyStr.str) (use_mock_contacts generate_variations : bool)
  (w : Py.world) :
  CRM.init_mock_mode (Py.env_hubspot_key w) = true ->
  (let w' := snd (Main.run_pipeline topic use_mock_contacts generate_variations w) in
   Py.http_n w' = Py.http_n w /\ Py.mock_mode w' = true)
  /\ Py.http_n (snd (Dashboard.run_pipeline_async campaign_id topic
                       generate_variations w))
     = Py.http_n w.
Proof.
  intros Hkey. cbv zeta. split.
  - set (w1 := snd (CRM.init w)).
    assert (Hinit : CRM.init w = (Py.Ok tt, w1)) by reflexivity.
    assert (H1 : mock_requests w1 = Some (Py.http_n w)).
    { unfold mock_requests, w1. cbn. rewrite Hkey. reflexivity. }
    unfold Main.run_pipeline. unfold Py.bind at 1. rewrite Hinit.
    match goal with
    | |- Py.http_n (snd (?m w1)) = _ /\ _ =>
        assert (Hrest : preserves mock_requests m)
    end.
    { mock_requests_frames. keeps. }
    rewrite <- (Hrest w1) in H1. apply mock_requests_some in H1 as [Hm Hn].
    split; assumption.
  - assert (Hbody : Py.http_n (snd (Dashboard.pipeline_body campaign_id topic
                                      generate_variations w)) = Py.http_n w).
    { unfold Dashboard.pipeline_body.
      unfold Py.bind at 1, Py.get_status at 1.
      destruct (Py.dict_get (Py.running_pipelines w) campaign_id) as [entry|];
        [|reflexivity].
      unfold Py.bind at 1, Py.ret at 1.
      destruct entry as [| | | | | |d]; try reflexivity.
      unfold Py.bind at 1, Py.ret at 1.
      unfold Py.bind at 1, Py.set_status at 1.
      unfold Py.bind at 1, CRM.init at 1, Py.set_mock_mode at 1. cbn [Py.env_hubspot_key].
      rewrite Hkey.
      match goal with
      | |- Py.http_n (snd (?m ?w1)) = _ =>
          assert (Hrest : preserves mock_requests m);
          [|assert (H1 : mock_requests w1 = Some (Py.http_n w)) by reflexivity;
            rewrite <- (Hrest w1) in H1; apply mock_requests_some in H1 as [_ Hn];
            exact Hn]
      end.
      mock_requests_frames. keeps. }
    unfold Dashboard.run_pipeline_async, Py.try_except.
    destruct (Dashboard.pipeline_body campaign_id topic generate_variations w)
      as [[[]|e] wb]; cbn [snd] in Hbody |- *; [exact Hbody|].
    rewrite <- Hbody. reflexivity.
Qed.

(** The run on the topic [AI] in the offline world, and the dashboard's
    run for an id that is not in the status table. *)
Lemma run_pipeline_without_key_makes_no_request_witness :
  (Py.http_n (snd (Main.run_pipeline (PyStr.lit "AI") true false offline_world)) = 0%nat
   /\ Py.mock_mode (snd (Main.run_pipeline (PyStr.lit "AI") true false offline_world))
      = true)
  /\ Py.http_n (snd (Dashboard.run_pipeline_async (PyStr.lit "campaign_20250101_120000")
                       (PyStr.lit "AI") false offline_world)) = 0%nat.
Proof.
  exact (run_pipeline_without_key_makes_no_request
           (PyStr.lit "campaign_20250101_120000") (PyStr.lit "AI") true false
           offline_world eq_refl).
Defined.

(* --------------------------------------------------------------------- *)
(** ** The data directory *)
(* --------------------------------------------------------------------- *)

Section DataDirectory.
Import PyStr Py.








End DataDirectory.




(* --------------------------------------------------------------------- *)
(** ** The dashboard's status table and views *)
(* --------------------------------------------------------------------- *)


(** A redirect from the status view always lands on a campaign that the
    detail view finds: [campaign_status] redirects only when the log file
    exists, and then [campaign_detail] does not answer 404. *)
Theorem campaign_status_redirect_is_found (campaign_id : PyStr.str) (w : Py.world) :
  fst (Dashboard.campaign_status campaign_id w)
    = Py.Ok (Dashboard.RedirectToDetail campaign_id) ->
  snd (Dashboard.campaign_status campaign_id w) = w
  /\ is_Some (Py.fs w !! Dashboard.log_file campaign_id)
  /\ fst (Dashboard.campaign_detail campaign_id w)
     <> Py.Ok (Dashboard.Text (PyStr.lit "Campaign not found") 404).
Proof.
  intros H.
  assert (Hex : snd (Dashboard.campaign_status campaign_id w) = w
                /\ is_Some (Py.fs w !! Dashboard.log_file campaign_id)).
  { revert H. unfold Dashboard.campaign_status, Py.bind, Py.get_status, Py.lift,
      Py.path_exists, Py.ret.
    destruct (Py.dict_get (Py.running_pipelines w) campaign_id) as [status|].
    - destruct (Dashboard.is_completed status) as [[|]|e]; cbn; try discriminate.
      destruct (bool_decide (is_Some (Py.fs w !! Dashboard.log_file campaign_id))) eqn:Ed;
        cbn; try discriminate.
      intros _. split; [reflexivity|]. apply bool_decide_eq_true_1 in Ed. exact Ed.
    - destruct (bool_decide (is_Some (Py.fs w !! Dashboard.log_file campaign_id))) eqn:Ed;
        cbn; try discriminate.
      intros _. split; [reflexivity|]. apply bool_decide_eq_true_1 in Ed. exact Ed. }
  destruct Hex as [Hw Hfile]. split; [exact Hw|]. split; [exact Hfile|].
  intros Hnot.
  destruct (Dashboard.campaign_detail campaign_id w) as [r w'] eqn:E.
  cbn [fst] in Hnot. subst r.
  unfold Dashboard.campaign_detail in E. apply bind_ok in E as (a & w1 & Hstep & E).
  unfold Py.path_exists in Hstep. inversion Hstep; subst a w1; clear Hstep.
  rewrite (bool_decide_eq_true_2 _ Hfile) in E. cbn [negb] in E.
  run_ok E. apply ret_ok in E as [E _]. discriminate E.
Qed.

(** A log file on disk and nothing in the status table: the status view
    redirects, and the detail view does not answer 404. *)
Lemma campaign_status_redirect_is_found_witness :
  let w := snd (Py.write_file
                  (Dashboard.log_file (PyStr.lit "campaign_20250101_120000"))
                  [123; 125]%N offline_world) in
  snd (Dashboard.campaign_status (PyStr.lit "campaign_20250101_120000") w) = w
  /\ is_Some (Py.fs w !! Dashboard.log_file (PyStr.lit "campaign_20250101_120000"))
  /\ fst (Dashboard.campaign_detail (PyStr.lit "campaign_20250101_120000") w)
     <> Py.Ok (Dashboard.Text (PyStr.lit "Campaign not found") 404).
Proof.
  cbv zeta.
  apply (campaign_status_redirect_is_found (PyStr.lit "campaign_20250101_120000")).
  vm_compute. reflexivity.
Defined.

(* --------------------------------------------------------------------- *)
(** ** Stored performance data *)
(* --------------------------------------------------------------------- *)

Section SaveThenLoad.
Import PyStr Py.



(** [os.path.join] of a directory name and a relative name. *)
Lemma path_join_relative a b :
  startswith b (lit "/") = false -> a <> [] -> endswith a (lit "/") = false ->
  Config.path_join a b = a ++ lit "/" ++ b.
Proof.
  intros Hb Ha Hs. unfold Config.path_join. rewrite Hb, Hs.
  rewrite bool_decide_eq_false_2 by exact Ha. reflexivity.
Qed.

Lemma startswith_slash_app a b :
  startswith a (lit "/") = false -> b <> [] -> startswith b (lit "/") = false ->
  startswith (a ++ b) (lit "/") = false.
Proof.
  intros Ha Hb Hb'. destruct a as [|c a]; [exact Hb'|exact Ha].
Qed.

(** For a campaign id that does not start with a slash, the dashboard
    looks for the performance file where the analyzer writes it. *)
Lemma performance_file_path c :
  startswith c (lit "/") = false ->
  Dashboard.performance_file c
  = Config.ANALYTICS_DIR ++ lit "/" ++ c ++ lit "_performance.json".
Proof.
  intros Hc. unfold Dashboard.performance_file. apply path_join_relative.
  - apply startswith_slash_app; [exact Hc|discriminate|reflexivity].
  - discriminate.
  - reflexivity.
Qed.

End SaveThenLoad.



(* --------------------------------------------------------------------- *)
(** ** Replies of the language model *)
(* --------------------------------------------------------------------- *)

Section Replies.
Import PyStr Py Json.
Local Open Scope N_scope.

(** The encoder's text is read back with a line break on either side. *)
Lemma loads_between_newlines v :
  wf_json v = true -> loads (10 :: dumps v ++ [10]) = Ok v.
Proof.
  intros Hwf. unfold loads, dumps.
  change (startswith (10 :: dump 0 v ++ [10]) [65279]) with false. cbv iota.
  change (skip_ws (10 :: dump 0 v ++ [10])) with (skip_ws (dump 0 v ++ [10])).
  rewrite skip_ws_dump by exact Hwf.
  destruct (parse_dump (S (length (10 :: dump 0 v ++ [10])))) as [HP _].
  rewrite HP; [reflexivity|exact Hwf|reflexivity|].
  pose proof (size_le_length v 0 Hwf). cbn [length]. rewrite length_app. lia.
Qed.

(** A fenced reply, as the prompts ask for it: the opening marker with
    [json], a line break, the text, a line break and the closing marker. *)
Definition fenced (text : str) : str :=
  ContentGen.fence_json ++ 10 :: text ++ 10 :: ContentGen.fence.

Lemma clean_fenced text : ContentGen.clean_response (fenced text) = 10 :: text ++ [10].
Proof.
  unfold ContentGen.clean_response, fenced.
  rewrite startswith_app, slice_from_app.
  change (10 :: text ++ 10 :: ContentGen.fence)
    with ((10 :: text) ++ [10] ++ ContentGen.fence).
  rewrite app_assoc, endswith_app, slice_to_minus_app. reflexivity.
Qed.

Lemma loads_clean_fenced v :
  wf_json v = true -> loads (ContentGen.clean_response (fenced (dumps v))) = Ok v.
Proof. intros Hwf. rewrite clean_fenced. apply loads_between_newlines, Hwf. Qed.

End Replies.


(** A reply that is the JSON text of a post with a title, fenced as the
    prompt's format or bare, is the post [generate_blog_post] returns. *)
Theorem generate_blog_post_reads_reply
  (topic : PyStr.str) (post : Py.dict) (title : Py.pyval) (w : Py.world) :
  wf_json (Py.VDict post) = true ->
  Py.dict_get post (PyStr.lit "title") = Some title ->
  Py.llm w (Py.llm_n w) = Some (fenced (Json.dumps (Py.VDict post)))
  \/ Py.llm w (Py.llm_n w) = Some (Json.dumps (Py.VDict post)) ->
  fst (ContentGen.generate_blog_post topic w) = Py.Ok (Py.VDict post).
Proof.
  intros Hwf Htitle Hreply.
  unfold ContentGen.generate_blog_post, Py.bind, Py.ask_llm.
  assert (Hbare : ContentGen.clean_response (Json.dumps (Py.VDict post))
                  = Json.dumps (Py.VDict post)).
  { destruct post as [|[k x] kvs]; [discriminate|].
    unfold Json.dumps. rewrite dump_dict.
    unfold ContentGen.clean_response.
    change (PyStr.startswith (123%N :: _) ContentGen.fence_json) with false. cbv iota.
    unfold PyStr.endswith. rewrite !app_comm_cons, !app_assoc, rev_app_distr.
    reflexivity. }
  destruct Hreply as [-> | ->].
  - rewrite (loads_clean_fenced _ Hwf). cbn [Py.getitem]. rewrite Htitle. reflexivity.
  - rewrite Hbare, (loads_dumps _ Hwf). cbn [Py.getitem]. rewrite Htitle. reflexivity.
Qed.

(** A post as the prompt asks for it, and a world whose language model
    answers every call with the given text. *)
Definition sample_post : Py.dict :=
  [ (PyStr.lit "title", Py.VStr (PyStr.lit "Automating Client Onboarding"));
    (PyStr.lit "outline", Py.VList [Py.VStr (PyStr.lit "Why"); Py.VStr (PyStr.lit "How")]);
    (PyStr.lit "content", Py.VStr (PyStr.lit "# Automating Client Onboarding")) ].

Definition replying_world (text : PyStr.str) : Py.world :=
  {| Py.env_hubspot_key := None;
     Py.mock_mode := false;
     Py.http := fun _ => Py.NetworkError;  Py.http_n := 0;
     Py.rng := fun n => (N.of_nat n * 7919 + 13)%N;  Py.rng_n := 0;
     Py.clock := fun _ => noon;  Py.clock_n := 0;
     Py.llm := fun _ => Some text;  Py.llm_n := 0;
     Py.fs := ∅;
     Py.running_pipelines := [];
     Py.ucd_alnum := fun _ => false;
     Py.py_repr := fun _ => [] |}.

(** The sample post, fenced, is read back as the post. *)
Lemma generate_blog_post_reads_reply_witness :
  fst (ContentGen.generate_blog_post (PyStr.lit "AI")
         (replying_world (fenced (Json.dumps (Py.VDict sample_post)))))
  = Py.Ok (Py.VDict sample_post).
Proof.
  apply (generate_blog_post_reads_reply (PyStr.lit "AI") sample_post
           (Py.VStr (PyStr.lit "Automating Client Onboarding"))).
  - vm_compute. reflexivity.
  - reflexivity.
  - left. reflexivity.
Defined.

(* --------------------------------------------------------------------- *)
(** ** Newsletters *)
(* --------------------------------------------------------------------- *)

Section Newsletters.
Import PyStr Py.

(** One newsletter is generated, from the reply or as the fallback, for
    a post with a title and a text, at the cost of one call. *)
Lemma newsletter_for_ok blog info name title content w :
  getitem info (lit "name") = Ok name ->
  getitem blog (lit "title") = Ok title ->
  getitem blog (lit "content") = Ok content ->
  ContentGen.sliceable content = Ok tt ->
  exists nl, ContentGen.newsletter_for blog info w = (Ok nl, snd (ask_llm w)).
Proof.
  intros Hn Ht Hc Hs. unfold ContentGen.newsletter_for, bind, lift.
  rewrite Hn, Ht, Hc, Hs. unfold ask_llm, str_of, ret. cbn [snd].
  destruct (llm w (llm_n w)) as [text|]; [|eexists; reflexivity].
  destruct (Json.loads (ContentGen.clean_response text)); eexists; reflexivity.
Qed.

(** Without a title the prompt cannot be built. *)
Lemma newsletter_for_no_title blog info name e w :
  getitem info (lit "name") = Ok name ->
  getitem blog (lit "title") = Raise e ->
  ContentGen.newsletter_for blog info w = (Raise e, w).
Proof.
  intros Hn Ht. unfold ContentGen.newsletter_for, bind, lift. rewrite Hn, Ht.
  reflexivity.
Qed.

End Newsletters.

(** For a post with a title and a text that can be sliced,
    [generate_persona_newsletters] returns one newsletter for each persona
    of the registry, in registry order, after three calls to the language
    model and nothing else, whatever the replies.  For a post without a
    title it raises the lookup's exception before any call. *)
Theorem generate_persona_newsletters_covers_registry
  (blog_data : Py.pyval) (w : Py.world) :
  (forall title content,
      Py.getitem blog_data (PyStr.lit "title") = Py.Ok title ->
      Py.getitem blog_data (PyStr.lit "content") = Py.Ok content ->
      ContentGen.sliceable content = Py.Ok tt ->
      exists newsletters,
        ContentGen.generate_persona_newsletters blog_data w
          = (Py.Ok newsletters, snd (Py.ask_llm (snd (Py.ask_llm (snd (Py.ask_llm w))))))
        /\ Py.dict_keys newsletters = registry)
  /\ (forall e,
        Py.getitem blog_data (PyStr.lit "title") = Py.Raise e ->
        ContentGen.generate_persona_newsletters blog_data w = (Py.Raise e, w)).
Proof.
  split.
  - intros title content Ht Hc Hs.
    unfold ContentGen.generate_persona_newsletters, Config.PERSONAS.
    cbn [Py.for_each].
    set (w1 := snd (Py.ask_llm w)). set (w2 := snd (Py.ask_llm w1)).
    unfold Py.bind at 1. unfold Py.bind at 1.
    match goal with
    | |- context [ContentGen.newsletter_for blog_data ?i w] =>
        destruct (newsletter_for_ok blog_data i _ title content w eq_refl Ht Hc Hs)
          as [n1 E1]
    end.
    rewrite E1. unfold Py.ret at 1. fold w1.
    unfold Py.bind at 1. unfold Py.bind at 1.
    match goal with
    | |- context [ContentGen.newsletter_for blog_data ?i w1] =>
        destruct (newsletter_for_ok blog_data i _ title content w1 eq_refl Ht Hc Hs)
          as [n2 E2]
    end.
    rewrite E2. unfold Py.ret at 1. fold w2.
    unfold Py.bind at 1. unfold Py.bind at 1.
    match goal with
    | |- context [ContentGen.newsletter_for blog_data ?i w2] =>
        destruct (newsletter_for_ok blog_data i _ title content w2 eq_refl Ht Hc Hs)
          as [n3 E3]
    end.
    rewrite E3.
    eexists. split; reflexivity.
  - intros e He.
    unfold ContentGen.generate_persona_newsletters, Config.PERSONAS.
    cbn [Py.for_each]. unfold Py.bind at 1. unfold Py.bind at 1.
    match goal with
    | |- context [ContentGen.newsletter_for blog_data ?i w] =>
        rewrite (newsletter_for_no_title blog_data i _ e w eq_refl He)
    end.
    reflexivity.
Qed.

(** The fallback post on [AI] gets its three newsletters in the offline
    world. *)
Lemma generate_persona_newsletters_covers_registry_witness :
  exists newsletters,
    ContentGen.generate_persona_newsletters
      (ContentGen.fallback_blog (PyStr.lit "AI")) offline_world
      = (Py.Ok newsletters,
         snd (Py.ask_llm (snd (Py.ask_llm (snd (Py.ask_llm offline_world))))))
    /\ Py.dict_keys newsletters = registry.
Proof.
  refine (proj1 (generate_persona_newsletters_covers_registry
                   (ContentGen.fallback_blog (PyStr.lit "AI")) offline_world)
            _ _ _ _ _); reflexivity.
Defined.

(* --------------------------------------------------------------------- *)
(** ** The simulated distribution *)
(* --------------------------------------------------------------------- *)

(** An entry of the simulated distribution for [persona]: marked
    [SIMULATED] and [mock], with 80 to 100 recipients and the subject line
    of the persona's newsletter. *)
Definition simulated_entry (newsletters : Py.dict) (persona : PyStr.str)
    (entry : Py.pyval) : Prop :=
  exists id created recipients newsletter subject,
    entry =
      Py.VDict [ (PyStr.lit "id", Py.VStr id);
                 (PyStr.lit "status", Py.VStr (PyStr.lit "SIMULATED"));
                 (PyStr.lit "created", Py.VStr created);
                 (PyStr.lit "persona", Py.VStr persona);
                 (PyStr.lit "recipients", Py.VInt recipients);
                 (PyStr.lit "subject", subject);
                 (PyStr.lit "mock", Py.VBool true) ]
    /\ (80 <= recipients <= 100)%Z
    /\ Py.dict_get newsletters persona = Some newsletter
    /\ Py.getitem newsletter (PyStr.lit "subject_line") = Py.Ok subject.

Section Dicts.
Import PyStr Py.

Lemma dict_get_set_neq d k v p : k <> p -> dict_get (dict_set d k v) p = dict_get d p.
Proof.
  intros Hk. induction d as [|[k' v'] d IH]; cbn [dict_set dict_get].
  - rewrite (proj2 (str_eqb_neq k p) Hk). reflexivity.
  - destruct (str_eqb k' k) eqn:E; cbn [dict_get].
    + apply str_eqb_eq in E. subst k'. rewrite (proj2 (str_eqb_neq k p) Hk).
      reflexivity.
    + rewrite IH. reflexivity.
Qed.

Lemma dict_get_keys d p : In p (dict_keys d) <-> is_Some (dict_get d p).
Proof.
  induction d as [|[k v] d IH]; cbn [dict_keys List.map fst In dict_get].
  - split; [intros []|intros [x Hx]; discriminate].
  - destruct (str_eqb k p) eqn:E.
    + apply str_eqb_eq in E. split; [intros _; eexists; reflexivity|intros _; left; exact E].
    + apply str_eqb_neq in E. rewrite <- IH. unfold dict_keys. tauto.
Qed.

End Dicts.

Section MockDistribution.
Import PyStr Py CRM.

Lemma offline_inert_http_n : offline_inert http_n.
Proof.
  unfold offline_inert. repeat split; intros; intros w; try reflexivity.
  unfold read_file. destruct (fs w !! p); reflexivity.
Qed.

Lemma format_timestamp_run w :
  Utils.format_timestamp w = (Ok (isoformat (clock w (clock_n w))), snd (now w)).
Proof. reflexivity. Qed.

Lemma mock_distribution_entry_ok nls persona newsletter subject w :
  dict_get nls persona = Some newsletter ->
  getitem newsletter (lit "subject_line") = Ok subject ->
  exists entry w',
    mock_distribution_entry (VDict nls) persona w = (Ok entry, w')
    /\ simulated_entry nls persona entry.
Proof.
  intros Hnl Hs. unfold mock_distribution_entry.
  destruct (randint_run 1000 9999 w ltac:(lia)) as [n [E1 _]].
  set (w1 := snd (draw w)) in *. set (w2 := snd (now w1)).
  destruct (randint_run 80 100 w2 ltac:(lia)) as [r [E2 Hr]].
  unfold bind at 1. rewrite E1.
  unfold bind at 1. rewrite (format_timestamp_run w1). fold w2.
  unfold bind at 1. rewrite E2.
  unfold bind at 1, lift at 1. cbn [getitem]. rewrite Hnl.
  unfold bind at 1, lift at 1. rewrite Hs.
  eexists _, _. split; [reflexivity|].
  eexists _, _, r, newsletter, subject. split; [reflexivity|]. tauto.
Qed.

Lemma mock_distribution_loop nls keys : forall acc w,
  (forall p, In p keys -> exists newsletter subject,
      dict_get nls p = Some newsletter
      /\ getitem newsletter (lit "subject_line") = Ok subject) ->
  (forall p entry, dict_get acc p = Some entry -> simulated_entry nls p entry) ->
  exists results w',
    for_each keys acc
      (fun persona results =>
         bind (mock_distribution_entry (VDict nls) persona)
           (fun entry => ret (dict_set results persona entry))) w
    = (Ok results, w')
    /\ (forall p entry, dict_get results p = Some entry -> simulated_entry nls p entry)
    /\ (forall p, In p (dict_keys results) <-> In p keys \/ In p (dict_keys acc)).
Proof.
  induction keys as [|k keys IH]; intros acc w Hkeys Hacc; cbn [for_each].
  - exists acc, w. split; [reflexivity|]. split; [exact Hacc|]. cbn [In]. tauto.
  - destruct (Hkeys k (or_introl eq_refl)) as (nl & s & Hnl & Hs).
    destruct (mock_distribution_entry_ok nls k nl s w Hnl Hs) as (entry & w1 & E & He).
    unfold bind at 1. unfold bind at 1. rewrite E. unfold ret at 1.
    destruct (IH (dict_set acc k entry) w1) as (results & w' & Erun & Hall & Hk).
    + intros p Hp. apply Hkeys. right. exact Hp.
    + intros p e Hp. destruct (decide (k = p)) as [<-|Hne].
      * rewrite dict_get_set_eq in Hp. injection Hp as <-. exact He.
      * rewrite dict_get_set_neq in Hp by exact Hne. apply Hacc, Hp.
    + exists results, w'. split; [exact Erun|]. split; [exact Hall|].
      intros p. rewrite Hk, dict_set_keys. cbn [In]. intuition.
Qed.

End MockDistribution.

(** In mock mode [send_campaign] simulates the whole distribution without
    an HTTP request.  For a campaign whose newsletters each have a subject
    line, the result has an entry for every persona of the newsletters and
    for no other key, and each entry is marked [SIMULATED] and [mock], names
    its persona, counts 80 to 100 recipients and carries the subject line
    of the persona's newsletter. *)
Theorem send_campaign_mock_distribution
  (campaign_data : Py.pyval) (newsletters : Py.dict) (w : Py.world) :
  Py.mock_mode w = true ->
  Py.getitem campaign_data (PyStr.lit "newsletters") = Py.Ok (Py.VDict newsletters) ->
  (forall persona, In persona (Py.dict_keys newsletters) ->
     exists newsletter subject,
       Py.dict_get newsletters persona = Some newsletter
       /\ Py.getitem newsletter (PyStr.lit "subject_line") = Py.Ok subject) ->
  exists results,
    fst (CRM.send_campaign campaign_data w) = Py.Ok results
    /\ Py.http_n (snd (CRM.send_campaign campaign_data w)) = Py.http_n w
    /\ (forall persona,
          In persona (Py.dict_keys results) <-> In persona (Py.dict_keys newsletters))
    /\ (forall persona, In persona (Py.dict_keys newsletters) ->
          exists entry, Py.dict_get results persona = Some entry
                        /\ simulated_entry newsletters persona entry).
Proof.
  intros Hmock Hnls Hsubjects.
  rewrite (send_campaign_mock campaign_data w Hmock).
  pose proof (offline_mock_campaign_distribution _ offline_inert_http_n campaign_data w)
    as Hhttp.
  destruct (mock_distribution_loop newsletters (Py.dict_keys newsletters) [] w Hsubjects)
    as (results & w' & Erun & Hall & Hkeys); [intros p e; discriminate|].
  assert (E : CRM.mock_campaign_distribution campaign_data w = (Py.Ok results, w')).
  { unfold CRM.mock_campaign_distribution.
    unfold Py.bind at 1, Py.lift at 1. rewrite Hnls.
    unfold Py.bind at 1, Py.lift at 1. cbn [Py.items]. exact Erun. }
  rewrite E in Hhttp |- *. cbn [fst snd] in Hhttp |- *.
  exists results. split; [reflexivity|]. split; [exact Hhttp|].
  assert (Hk : forall p, In p (Py.dict_keys results) <-> In p (Py.dict_keys newsletters)).
  { intros p. rewrite Hkeys. cbn [Py.dict_keys List.map In]. tauto. }
  split; [exact Hk|].
  intros p Hp. apply Hk, dict_get_keys in Hp. destruct Hp as [entry Hentry].
  exists entry. split; [exact Hentry|]. apply Hall, Hentry.
Qed.

(** The one-newsletter campaign, sent by a client without a key. *)
Lemma send_campaign_mock_distribution_witness :
  let w := snd (CRM.init offline_world) in
  exists results,
    fst (CRM.send_campaign one_newsletter_campaign w) = Py.Ok results
    /\ Py.http_n (snd (CRM.send_campaign one_newsletter_campaign w)) = Py.http_n w
    /\ (forall persona,
          In persona (Py.dict_keys results) <-> In persona [PyStr.lit "founders"])
    /\ (forall persona, In persona [PyStr.lit "founders"] ->
          exists entry,
            Py.dict_get results persona = Some entry
            /\ simulated_entry
                 [ (PyStr.lit "founders",
                    Py.VDict [ (PyStr.lit "subject_line", Py.VStr (PyStr.lit "Grow faster"));
                               (PyStr.lit "content", Py.VStr (PyStr.lit "Hello")) ]) ]
                 persona entry).
Proof.
  cbv zeta.
  apply (send_campaign_mock_distribution one_newsletter_campaign
           [ (PyStr.lit "founders",
              Py.VDict [ (PyStr.lit "subject_line", Py.VStr (PyStr.lit "Grow faster"));
                         (PyStr.lit "content", Py.VStr (PyStr.lit "Hello")) ]) ]
           (snd (CRM.init offline_world))).
  - reflexivity.
  - reflexivity.
  - intros persona [<-|[]]. eexists _, _. split; reflexivity.
Defined.

(* --------------------------------------------------------------------- *)
(** ** Sending a campaign *)
(* --------------------------------------------------------------------- *)

Section LiveSend.
Import PyStr Py CRM.

Lemma dict_get_In d p v : dict_get d p = Some v -> In (p, v) d.
Proof.
  induction d as [|[k x] d IH]; cbn [dict_get]; [discriminate|].
  destruct (str_eqb k p) eqn:E.
  - apply str_eqb_eq in E. intros [= ->]. left. congruence.
  - intros H. right. apply IH, H.
Qed.

Lemma mock_campaign_response_ok persona w :
  exists m w', mock_campaign_response persona w = (Ok m, w') /\ http_n w' = http_n w.
Proof.
  pose proof (offline_mock_campaign_response _ offline_inert_http_n persona w) as Hn.
  destruct (randint_run 1000 9999 w ltac:(lia)) as [n [E1 _]].
  assert (E : exists m w', mock_campaign_response persona w = (Ok m, w')).
  { unfold mock_campaign_response.
    unfold bind at 1. rewrite E1.
    unfold bind at 1. rewrite (format_timestamp_run (snd (draw w))).
    eexists _, _. reflexivity. }
  destruct E as (m & w' & E). rewrite E in Hn. exists m, w'. split; [exact E|exact Hn].
Qed.

Lemma payload_lookups_ok campaign_data newsletter title cid subject content w :
  getitem campaign_data (lit "blog_title") = Ok title ->
  getitem campaign_data (lit "campaign_id") = Ok cid ->
  getitem newsletter (lit "subject_line") = Ok subject ->
  getitem newsletter (lit "content") = Ok content ->
  payload_lookups campaign_data newsletter w = (Ok tt, w).
Proof.
  intros Ht Hc Hs Hb. unfold payload_lookups, bind, lift. rewrite Ht, Hs, Hb, Hc.
  destruct newsletter; try discriminate. reflexivity.
Qed.

(** The mock distribution has an entry for every newsletter. *)
Lemma mock_campaign_distribution_covers campaign_data nls w :
  getitem campaign_data (lit "newsletters") = Ok (VDict nls) ->
  (forall p nl, In (p, nl) nls ->
     exists subject, getitem nl (lit "subject_line") = Ok subject) ->
  exists results w',
    mock_campaign_distribution campaign_data w = (Ok results, w')
    /\ http_n w' = http_n w
    /\ (forall p, In p (dict_keys nls) -> In p (dict_keys results)).
Proof.
  intros Hnls Hsub.
  pose proof (offline_mock_campaign_distribution _ offline_inert_http_n campaign_data w)
    as Hhttp.
  destruct (mock_distribution_loop nls (dict_keys nls) [] w)
    as (results & w' & Erun & _ & Hkeys).
  { intros p Hp. apply dict_get_keys in Hp as [nl Hnl].
    destruct (Hsub p nl (dict_get_In _ _ _ Hnl)) as [s Hs].
    exists nl, s. split; assumption. }
  { intros p e; discriminate. }
  assert (E : mock_campaign_distribution campaign_data w = (Ok results, w')).
  { unfold mock_campaign_distribution.
    unfold bind at 1, lift at 1. rewrite Hnls.
    unfold bind at 1, lift at 1. cbn [items]. exact Erun. }
  rewrite E in Hhttp. exists results, w'. split; [exact E|]. split; [exact Hhttp|].
  intros p Hp. apply Hkeys. left. exact Hp.
Qed.

Lemma send_loop_covers campaign_data nls title cid :
  getitem campaign_data (lit "blog_title") = Ok title ->
  getitem campaign_data (lit "campaign_id") = Ok cid ->
  getitem campaign_data (lit "newsletters") = Ok (VDict nls) ->
  (forall p nl, In (p, nl) nls ->
     exists subject content,
       getitem nl (lit "subject_line") = Ok subject
       /\ getitem nl (lit "content") = Ok content) ->
  forall todo results w,
    (forall e, In e todo -> In e nls) ->
    (forall p, In p (dict_keys nls) -> In p (dict_keys todo) \/ In p (dict_keys results)) ->
    exists results' w',
      send_loop campaign_data todo results w = (Ok results', w')
      /\ (forall p, In p (dict_keys nls) -> In p (dict_keys results'))
      /\ (http_n w' <= http_n w + length todo)%nat.
Proof.
  intros Ht Hc Hnls Hgood.
  assert (Hsub : forall p nl, In (p, nl) nls ->
             exists subject, getitem nl (lit "subject_line") = Ok subject).
  { intros p nl Hin. destruct (Hgood p nl Hin) as (s & _ & Hs & _). exists s. exact Hs. }
  induction todo as [|[persona newsletter] todo IH]; intros results w Hin Hcov.
  - exists results, w. split; [reflexivity|]. split; [|lia].
    intros p Hp. destruct (Hcov p Hp) as [[]|H]. exact H.
  - destruct (Hgood persona newsletter (Hin _ (or_introl eq_refl))) as (s & b & Hs & Hb).
    assert (Hin' : forall e, In e todo -> In e nls)
      by (intros e He; apply Hin; right; exact He).
    assert (Hcov' : forall m p, In p (dict_keys nls) ->
               In p (dict_keys todo) \/ In p (dict_keys (dict_set results persona m))).
    { intros m p Hp. rewrite dict_set_keys.
      destruct (Hcov p Hp) as [[<-|H]|H]; cbn [fst]; tauto. }
    cbn [send_loop]. unfold bind at 1.
    rewrite (payload_lookups_ok _ _ _ _ _ _ w Ht Hc Hs Hb).
    unfold bind at 1. unfold http_request at 1.
    set (w1 := mkWorld _ _ _ (S (http_n w)) _ _ _ _ _ _ _ _ _ _).
    assert (Hw1 : http_n w1 = S (http_n w)) by reflexivity.
    assert (Hmock : exists results' w',
               (let* m := mock_campaign_response persona in
                send_loop campaign_data todo (dict_set results persona m)) w1
               = (Ok results', w')
               /\ (forall p, In p (dict_keys nls) -> In p (dict_keys results'))
               /\ (http_n w' <= http_n w + length ((persona, newsletter) :: todo))%nat).
    { destruct (mock_campaign_response_ok persona w1) as (m & w2 & Em & Hw2).
      unfold bind at 1. rewrite Em.
      destruct (IH (dict_set results persona m) w2 Hin' (Hcov' m))
        as (results' & w' & E & Hk & Hn).
      exists results', w'. split; [exact E|]. split; [exact Hk|].
      cbn [length]. lia. }
    destruct (http w (http_n w)) as [status body|]; [|exact Hmock].
    destruct (is_http_error status).
    + destruct ((status =? 401) || (status =? 403))%Z; [|exact Hmock].
      destruct (mock_campaign_distribution_covers campaign_data nls w1 Hnls Hsub)
        as (results' & w' & E & Hn & Hk).
      exists results', w'. split; [exact E|]. split; [exact Hk|].
      cbn [length]. lia.
    + destruct body as [j|]; [|exact Hmock].
      destruct (IH (dict_set results persona j) w1 Hin' (Hcov' j))
        as (results' & w' & E & Hk & Hn).
      exists results', w'. split; [exact E|]. split; [exact Hk|].
      cbn [length]. lia.
Qed.

End LiveSend.

(** [send_campaign] gives every persona a result, whatever the network
    does.  For a campaign with a title, an id and newsletters that each
    have a subject line and a content, it never raises, in mock mode or
    live, whatever the replies to its requests (refusals, server errors,
    bodies that are not JSON, transport failures); the result has an
    entry for every persona of the newsletters; and it makes at most one
    request for the probe and one per newsletter. *)
Theorem send_campaign_covers_every_persona
  (campaign_data title campaign_id : Py.pyval) (newsletters : Py.dict) (w : Py.world) :
  Py.getitem campaign_data (PyStr.lit "blog_title") = Py.Ok title ->
  Py.getitem campaign_data (PyStr.lit "campaign_id") = Py.Ok campaign_id ->
  Py.getitem campaign_data (PyStr.lit "newsletters") = Py.Ok (Py.VDict newsletters) ->
  (forall persona newsletter, In (persona, newsletter) newsletters ->
     exists subject content,
       Py.getitem newsletter (PyStr.lit "subject_line") = Py.Ok subject
       /\ Py.getitem newsletter (PyStr.lit "content") = Py.Ok content) ->
  exists results,
    fst (CRM.send_campaign campaign_data w) = Py.Ok results
    /\ (forall persona, In persona (Py.dict_keys newsletters) ->
          is_Some (Py.dict_get results persona))
    /\ (Py.http_n (snd (CRM.send_campaign campaign_data w))
        <= Py.http_n w + 1 + length newsletters)%nat.
Proof.
  intros Ht Hc Hnls Hgood.
  assert (Hsub : forall p nl, In (p, nl) newsletters ->
             exists subject, Py.getitem nl (PyStr.lit "subject_line") = Py.Ok subject).
  { intros p nl Hin. destruct (Hgood p nl Hin) as (s & _ & Hs & _). exists s. exact Hs. }
  assert (Hgoal : exists results w',
             CRM.send_campaign campaign_data w = (Py.Ok results, w')
             /\ (forall p, In p (Py.dict_keys newsletters) -> In p (Py.dict_keys results))
             /\ (Py.http_n w' <= Py.http_n w + 1 + length newsletters)%nat).
  { unfold CRM.send_campaign. unfold Py.bind at 1.
    destruct (CRM.check_marketing_access w) as [r w1] eqn:Eprobe.
    assert (Hw1 : (Py.http_n w1 <= Py.http_n w + 1)%nat
                  /\ exists b, r = Py.Ok b).
    { revert Eprobe. unfold CRM.check_marketing_access, Py.bind, Py.get_mock_mode.
      destruct (Py.mock_mode w).
      - intros [= <- <-]. split; [lia|]. eexists; reflexivity.
      - unfold Py.http_request. destruct (Py.http w (Py.http_n w));
          intros [= <- <-]; cbn [Py.http_n]; (split; [lia|]); eexists; reflexivity. }
    destruct Hw1 as [Hw1 [can ->]].
    unfold Py.bind at 1, Py.get_mock_mode at 1.
    destruct (Py.mock_mode w1 || negb can).
    - destruct (mock_campaign_distribution_covers campaign_data newsletters w1 Hnls Hsub)
        as (results & w' & E & Hn & Hk).
      exists results, w'. split; [exact E|]. split; [exact Hk|]. lia.
    - unfold Py.bind at 1, Py.lift at 1. rewrite Hnls.
      unfold Py.bind at 1, Py.lift at 1. cbn [Py.items].
      destruct (send_loop_covers campaign_data newsletters title campaign_id
                  Ht Hc Hnls Hgood newsletters [] w1)
        as (results & w' & E & Hk & Hn).
      + intros e He. exact He.
      + intros p Hp. left. exact Hp.
      + exists results, w'. split; [exact E|]. split; [exact Hk|]. lia. }
  destruct Hgoal as (results & w' & E & Hk & Hn). rewrite E. cbn [fst snd].
  exists results. split; [reflexivity|]. split; [|exact Hn].
  intros p Hp. apply dict_get_keys, Hk, Hp.
Qed.

(** The one-newsletter campaign, sent by a live client whose requests
    are refused. *)
Lemma send_campaign_covers_every_persona_witness :
  let w := snd (CRM.init refusing_world) in
  exists results,
    fst (CRM.send_campaign one_newsletter_campaign w) = Py.Ok results
    /\ (forall persona, In persona [PyStr.lit "founders"] ->
          is_Some (Py.dict_get results persona))
    /\ (Py.http_n (snd (CRM.send_campaign one_newsletter_campaign w))
        <= Py.http_n w + 1 + 1)%nat.
Proof.
  cbv zeta.
  apply (send_campaign_covers_every_persona one_newsletter_campaign
           (Py.VStr (PyStr.lit "Automating Client Onboarding"))
           (Py.VStr (PyStr.lit "campaign_20250101_120000"))
           [ (PyStr.lit "founders",
              Py.VDict [ (PyStr.lit "subject_line", Py.VStr (PyStr.lit "Grow faster"));
                         (PyStr.lit "content", Py.VStr (PyStr.lit "Hello")) ]) ]
           (snd (CRM.init refusing_world))).
  - reflexivity.
  - reflexivity.
  - reflexivity.
  - intros persona newsletter [[= <- <-]|[]]. eexists _, _. split; reflexivity.
Defined.

(* --------------------------------------------------------------------- *)
(** ** Mock contacts *)
(* --------------------------------------------------------------------- *)

(** A contact dict tagged with a persona. *)
Definition tagged (persona : PyStr.str) (contact : Py.pyval) : Prop :=
  exists d, contact = Py.VDict d
            /\ Py.dict_get d (PyStr.lit "persona") = Some (Py.VStr persona).

Section MockContacts.
Import PyStr Py CRM.

Lemma tagged_persona_of p c : tagged p c -> persona_of c = Some p.
Proof. intros (d & -> & H). unfold persona_of. rewrite H. reflexivity. Qed.

Lemma tagged_contact_ok p c : tagged p c -> contact_ok c.
Proof. intros (d & -> & H). exists d. split; [reflexivity|]. rewrite H. reflexivity. Qed.

Lemma tagged_all_ok p cs : Forall (tagged p) cs -> Forall contact_ok cs.
Proof.
  intros H. eapply List.Forall_impl; [|exact H]. intros c. apply tagged_contact_ok.
Qed.

Lemma mock_contact_ok key info name i w :
  getitem info (lit "name") = Ok name ->
  exists c, mock_contact key info i w = (Ok c, snd (draw (snd (draw w))))
            /\ tagged key c.
Proof.
  intros Hn. unfold mock_contact, choice, bind, draw, lift, str_of, ret.
  cbn [snd]. rewrite Hn. eexists. split; [reflexivity|].
  eexists. split; reflexivity.
Qed.

(** The inner loop appends one tagged contact per index. *)
Lemma mock_contacts_loop key info idx : forall contacts w,
  In (key, info) Config.PERSONAS ->
  exists cs w',
    for_each idx contacts
      (fun i contacts =>
         bind (mock_contact key info i) (fun contact => ret (contacts ++ [contact]))) w
    = (Ok (contacts ++ cs), w')
    /\ length cs = length idx /\ Forall (tagged key) cs.
Proof.
  intros contacts w Hin.
  assert (Hn : exists name, getitem info (lit "name") = Ok name).
  { cbn [In Config.PERSONAS] in Hin.
    repeat (destruct Hin as [[= <- <-]|Hin]; [eexists; reflexivity|]). destruct Hin. }
  destruct Hn as [name Hn]. clear Hin. revert contacts w.
  induction idx as [|i idx IH]; intros contacts w; cbn [for_each].
  - exists [], w. rewrite app_nil_r. split; [reflexivity|]. split; [reflexivity|constructor].
  - destruct (mock_contact_ok key info name i w Hn) as (c & E & Hc).
    unfold bind at 1. unfold bind at 1. rewrite E. unfold ret at 1.
    destruct (IH (contacts ++ [c]) (snd (draw (snd (draw w)))))
      as (cs & w' & Erun & Hlen & Hall).
    exists (c :: cs), w'. split.
    + rewrite Erun, <- app_assoc. reflexivity.
    + split; [cbn [length]; lia|constructor; assumption].
Qed.

Lemma filter_tagged_same p cs :
  Forall (tagged p) cs -> List.filter (files_under p) cs = cs.
Proof.
  induction 1 as [|c cs Hc _ IH]; cbn [List.filter]; [reflexivity|].
  unfold files_under at 1. rewrite (tagged_persona_of _ _ Hc).
  rewrite bool_decide_eq_true_2 by reflexivity. rewrite IH. reflexivity.
Qed.

Lemma filter_tagged_other p q cs :
  p <> q -> Forall (tagged q) cs -> List.filter (files_under p) cs = [].
Proof.
  intros Hpq. induction 1 as [|c cs Hc _ IH]; cbn [List.filter]; [reflexivity|].
  unfold files_under at 1. rewrite (tagged_persona_of _ _ Hc).
  rewrite bool_decide_eq_false_2 by congruence. exact IH.
Qed.

End MockContacts.

Section MockContactsRun.
Import PyStr Py CRM.

(** The contacts come in three blocks, one per persona of the registry,
    each of the requested length and tagged with its persona. *)
Lemma create_mock_contacts_run n w :
  exists founders creatives operations w',
    create_mock_contacts n w = (Ok ((founders ++ creatives) ++ operations), w')
    /\ length founders = n /\ length creatives = n /\ length operations = n
    /\ Forall (tagged (lit "founders")) founders
    /\ Forall (tagged (lit "creatives")) creatives
    /\ Forall (tagged (lit "operations")) operations.
Proof.
  unfold create_mock_contacts, Config.PERSONAS. cbn [for_each].
  destruct (mock_contacts_loop (lit "founders") _ (seq 0 n)
              [] w (or_introl eq_refl)) as (c1 & w1 & E1 & L1 & T1).
  unfold bind at 1. rewrite E1.
  destruct (mock_contacts_loop (lit "creatives") _ (seq 0 n)
              ([] ++ c1) w1 (or_intror (or_introl eq_refl))) as (c2 & w2 & E2 & L2 & T2).
  unfold bind at 1. rewrite E2.
  destruct (mock_contacts_loop (lit "operations") _ (seq 0 n)
              (([] ++ c1) ++ c2) w2 (or_intror (or_intror (or_introl eq_refl))))
    as (c3 & w3 & E3 & L3 & T3).
  unfold bind at 1. rewrite E3. unfold ret. cbn [app].
  rewrite length_seq in L1, L2, L3.
  exists c1, c2, c3, w3. repeat split; assumption.
Qed.


End MockContactsRun.

(** [create_mock_contacts] never raises and returns three times the
    requested count of contacts, and [segment_contacts] files them evenly:
    each persona of the registry gets exactly the requested count. *)
Theorem create_mock_contacts_segments (count_per_persona : nat) (w : Py.world) :
  exists contacts segs,
    fst (CRM.create_mock_contacts count_per_persona w) = Py.Ok contacts
    /\ length contacts = (3 * count_per_persona)%nat
    /\ Forall contact_ok contacts
    /\ CRM.segment_contacts contacts = Py.Ok segs
    /\ List.map (fun '(persona, group) => (persona, length group)) segs
       = [ (PyStr.lit "founders", count_per_persona);
           (PyStr.lit "creatives", count_per_persona);
           (PyStr.lit "operations", count_per_persona) ].
Proof.
  destruct (create_mock_contacts_run count_per_persona w)
    as (c1 & c2 & c3 & w' & E & L1 & L2 & L3 & T1 & T2 & T3).
  rewrite E. cbn [fst].
  assert (Hok : Forall contact_ok ((c1 ++ c2) ++ c3)).
  { rewrite !Forall_app. repeat split; eapply tagged_all_ok; eassumption. }
  destruct (segment_loop_total _ CRM.empty_segments Hok) as [segs Hsegs].
  exists ((c1 ++ c2) ++ c3), segs.
  split; [reflexivity|]. split; [rewrite !length_app; lia|]. split; [exact Hok|].
  split; [exact Hsegs|].
  rewrite (segment_contacts_spec _ _ Hsegs). unfold registry, Config.PERSONAS.
  cbn [Py.dict_keys List.map fst].
  rewrite !List.filter_app.
  rewrite (filter_tagged_same _ _ T1), (filter_tagged_same _ _ T2),
    (filter_tagged_same _ _ T3).
  rewrite (filter_tagged_other (PyStr.lit "founders") (PyStr.lit "creatives") c2),
    (filter_tagged_other (PyStr.lit "founders") (PyStr.lit "operations") c3),
    (filter_tagged_other (PyStr.lit "creatives") (PyStr.lit "founders") c1),
    (filter_tagged_other (PyStr.lit "creatives") (PyStr.lit "operations") c3),
    (filter_tagged_other (PyStr.lit "operations") (PyStr.lit "founders") c1),
    (filter_tagged_other (PyStr.lit "operations") (PyStr.lit "creatives") c2);
    try assumption; try discriminate.
  rewrite !app_nil_r. cbn [app]. rewrite L1, L2, L3. reflexivity.
Qed.

(* --------------------------------------------------------------------- *)
(** ** Contacts that cannot be filed *)
(* --------------------------------------------------------------------- *)

Section SegmentErrors.
Import PyStr Py CRM.

Lemma segment_loop_app before rest : forall segs,
  segment_loop segs (before ++ rest)
  = match segment_loop segs before with
    | Ok segs' => segment_loop segs' rest
    | Raise e => Raise e
    end.
Proof.
  induction before as [|c cs IH]; intros segs; cbn [app segment_loop]; [reflexivity|].
  destruct (segment_step segs c); [apply IH|reflexivity].
Qed.

End SegmentErrors.

(** [segment_contacts] raises at the first contact it cannot file, and
    returns no partial result: [AttributeError] for a contact that is not
    a dict (it has no [get]), [TypeError] for a dict whose persona tag is
    a list or a dict (it cannot be looked up in the segments).  What comes
    after that contact is not looked at. *)
Theorem segment_contacts_rejects_malformed
  (before after : list Py.pyval) (contact : Py.pyval) :
  Forall contact_ok before ->
  ((forall d, contact <> Py.VDict d) ->
   CRM.segment_contacts (before ++ contact :: after) = Py.Raise Py.AttributeError)
  /\ (forall d tag,
        contact = Py.VDict d ->
        Py.dict_get d (PyStr.lit "persona") = Some tag ->
        Py.hashable tag = false ->
        CRM.segment_contacts (before ++ contact :: after) = Py.Raise Py.TypeError).
Proof.
  intros Hbefore. unfold CRM.segment_contacts. rewrite segment_loop_app.
  destruct (segment_loop_total before CRM.empty_segments Hbefore) as [segs ->].
  cbn [CRM.segment_loop]. split.
  - intros Hnot. unfold CRM.segment_step, Py.get_default.
    destruct contact; try reflexivity. exfalso. eapply Hnot. reflexivity.
  - intros d tag -> Htag Hhash. unfold CRM.segment_step, Py.get_default.
    rewrite Htag, Hhash. reflexivity.
Qed.

(** A string among the contacts, and a contact tagged with a list. *)
Lemma segment_contacts_rejects_malformed_witness :
  CRM.segment_contacts
    ([creative_contact] ++ Py.VStr (PyStr.lit "sam@example.com") :: [untagged_contact])
    = Py.Raise Py.AttributeError
  /\ CRM.segment_contacts
       ([creative_contact]
          ++ Py.VDict [ (PyStr.lit "persona", Py.VList [Py.VStr (PyStr.lit "founders")]) ]
          :: [untagged_contact])
     = Py.Raise Py.TypeError.
Proof.
  assert (Hok : Forall contact_ok [creative_contact]).
  { constructor; [|constructor]. eexists. split; [reflexivity|]. reflexivity. }
  split.
  - apply (proj1 (segment_contacts_rejects_malformed [creative_contact]
                    [untagged_contact] (Py.VStr (PyStr.lit "sam@example.com")) Hok)).
    intros d. discriminate.
  - apply (proj2 (segment_contacts_rejects_malformed [creative_contact]
                    [untagged_contact] _ Hok)
             [ (PyStr.lit "persona", Py.VList [Py.VStr (PyStr.lit "founders")]) ]
             (Py.VList [Py.VStr (PyStr.lit "founders")])); reflexivity.
Defined.

(* --------------------------------------------------------------------- *)
(** ** The ranges of the simulated rates *)
(* --------------------------------------------------------------------- *)

(** The ranges of the rates of one metrics record: the open rate from
    0.18, the unsubscribe rate within 0.001..0.01 and the bounce rate
    within 0.01..0.05, the bounds being the floats of the source's
    literals. *)
Definition rates_in_range (metrics : Py.pyval) : Prop :=
  exists opened unsubscribed bounced : Q,
    Py.getitem metrics (PyStr.lit "opened") = Py.Ok (Py.VFloat opened)
    /\ Py.getitem metrics (PyStr.lit "unsubscribed") = Py.Ok (Py.VFloat unsubscribed)
    /\ Py.getitem metrics (PyStr.lit "bounced") = Py.Ok (Py.VFloat bounced)
    /\ (Float.literal 18 100 <= opened)%Q
    /\ (Float.literal 1 1000 <= unsubscribed <= Float.literal 1 100)%Q
    /\ (Float.literal 1 100 <= bounced <= Float.literal 5 100)%Q.

(** The world after [n] draws from the generator. *)
Definition after_draws (n : nat) (w : Py.world) : Py.world :=
  Nat.iter n (fun w => snd (Py.draw w)) w.

Section Rates.
Import PyStr Py Float.
Local Open Scope Q_scope.

Lemma random_range w :
  exists u, Perf.random w = (Ok u, snd (draw w)) /\ 0 <= u /\ u <= 1.
Proof.
  eexists. split; [reflexivity|]. rewrite Qred_correct.
  set (r := (rng w (rng_n w) mod 2 ^ 53)%N).
  assert (Hr : (0 <= Z.of_N r < 2 ^ 53)%Z).
  { split; [apply N2Z.is_nonneg|].
    change (2 ^ 53)%Z with (Z.of_N (2 ^ 53)%N). apply N2Z.inj_lt.
    apply N.mod_lt. discriminate. }
  split.
  - apply Qmult_le_0_compat; [|apply Qlt_le_weak, pow2_pos].
    change 0 with (inject_Z 0). rewrite <- Zle_Qle. lia.
  - apply Qle_trans with (inject_Z (2 ^ 53) * pow2 (-53)).
    + apply Qmult_le_compat_r; [|apply Qlt_le_weak, pow2_pos].
      rewrite <- Zle_Qle. lia.
    + rewrite pow2_Z_inv by lia. rewrite <- pow2_add. apply Qle_refl.
Qed.

Lemma uniform_range a b w :
  nonneg_float a -> 0 <= b - a ->
  exists x, Perf.uniform a b w = (Ok x, snd (draw w))
            /\ nonneg_float x /\ a <= x /\ x <= fadd a (fsub b a).
Proof.
  intros [Ha Ea] Hd. destruct (random_range w) as (u & E & Hu0 & Hu1).
  pose proof (round64_float (b - a) Hd) as Hdf. fold (fsub b a) in Hdf.
  pose proof (fmul_float (fsub b a) u (proj1 Hdf) Hu0) as [Hm _].
  pose proof (fmul_le_l (fsub b a) u Hdf Hu0 Hu1) as Hle.
  exists (fadd a (fmul (fsub b a) u)). split.
  - unfold Perf.uniform, bind. rewrite E. reflexivity.
  - split; [apply fadd_float; assumption|]. split.
    + apply Qle_trans with (round64 a); [rewrite Ea; apply Qle_refl|].
      unfold fadd. apply round64_mono; [exact Ha|lra].
    + unfold fadd. apply round64_mono; lra.
Qed.

(** Scaling a float up by a factor of at least one does not lower it. *)
Lemma fmul_ge_l x c : nonneg_float x -> 1 <= c -> x <= fmul x c.
Proof.
  intros [Hx Ex] Hc. unfold fmul.
  apply Qle_trans with (round64 x); [rewrite Ex; apply Qle_refl|].
  apply round64_mono; [exact Hx|].
  rewrite <- (Qmult_1_r x) at 1.
  apply Qmult_le_compat_nonneg; split; try assumption; try apply Qle_refl. lra.
Qed.

Lemma persona_open_rate persona base_open base_click :
  nonneg_float base_open ->
  base_open <= fst (Perf.persona_rates persona base_open base_click).
Proof.
  intros Hb. unfold Perf.persona_rates.
  destruct (str_eqb persona (lit "founders")); [|destruct (str_eqb persona (lit "creatives"))];
    cbn [fst]; try apply Qle_refl; apply fmul_ge_l; try exact Hb;
    vm_compute; discriminate.
Qed.

(** One record of the simulation, with what is known of the rates
    before they are rounded. *)
Lemma simulate_persona_run persona w :
  exists (sent delivered : Z) (open_rate click_rate unsubscribed bounced : Q),
    Perf.simulate_persona persona w
    = (Ok (VDict [ (lit "sent", VInt sent);
                   (lit "delivered", VInt delivered);
                   (lit "opened", VFloat (round_ndigits open_rate 4));
                   (lit "clicked", VFloat (round_ndigits click_rate 4));
                   (lit "unsubscribed", VFloat (round_ndigits unsubscribed 4));
                   (lit "bounced", VFloat (round_ndigits bounced 4)) ]),
       after_draws 6 w)
    /\ nonneg_float open_rate /\ nonneg_float click_rate
    /\ nonneg_float unsubscribed /\ nonneg_float bounced
    /\ literal 18 100 <= open_rate
    /\ literal 1 1000 <= unsubscribed
    /\ unsubscribed <= fadd (literal 1 1000) (fsub (literal 1 100) (literal 1 1000))
    /\ literal 1 100 <= bounced
    /\ bounced <= fadd (literal 1 100) (fsub (literal 5 100) (literal 1 100)).
Proof.
  unfold Perf.simulate_persona.
  destruct (randint_run 80 100 w ltac:(lia)) as [sent [E1 Hsent]].
  unfold bind at 1. rewrite E1. set (w1 := snd (draw w)).
  destruct (randint_run _ sent w1 (delivery_floor_le sent Hsent)) as [delivered [E2 Hdel]].
  unfold bind at 1. rewrite E2. set (w2 := snd (draw w1)).
  destruct (uniform_range (literal 18 100) (literal 35 100) w2)
    as (base_open & E3 & Hbo & Hbo1 & _);
    [apply literal_float; lia|vm_compute; discriminate|].
  unfold bind at 1. rewrite E3. set (w3 := snd (draw w2)).
  destruct (uniform_range (literal 5 100) (literal 15 100) w3)
    as (base_click & E4 & Hbc & _);
    [apply literal_float; lia|vm_compute; discriminate|].
  unfold bind at 1. rewrite E4. set (w4 := snd (draw w3)).
  pose proof (persona_open_rate persona base_open base_click Hbo) as Hopen.
  destruct (Perf.persona_rates persona base_open base_click) as [o c] eqn:Erates.
  destruct (persona_rates_float _ _ _ _ _ Hbo Hbc Erates) as [Ho Hc].
  cbn [fst] in Hopen.
  destruct (uniform_range (literal 1 1000) (literal 1 100) w4)
    as (unsub & E5 & Hun & Hun1 & Hun2);
    [apply literal_float; lia|vm_compute; discriminate|].
  unfold bind at 1. rewrite E5. set (w5 := snd (draw w4)).
  destruct (uniform_range (literal 1 100) (literal 5 100) w5)
    as (bounced & E6 & Hbn & Hbn1 & Hbn2);
    [apply literal_float; lia|vm_compute; discriminate|].
  unfold bind at 1. rewrite E6.
  set (open_rate := fmin o (literal 95 100)).
  set (click_rate := fmin c (fmul open_rate (literal 8 10))).
  assert (H95 : nonneg_float (literal 95 100)) by (apply literal_float; lia).
  assert (Hor : nonneg_float open_rate) by (apply fmin_float; assumption).
  assert (H8 : 0 <= literal 8 10) by (vm_compute; discriminate).
  assert (Hcap : nonneg_float (fmul open_rate (literal 8 10)))
    by (apply fmul_float; [apply Hor|apply H8]).
  assert (Hcr : nonneg_float click_rate) by (apply fmin_float; assumption).
  exists sent, delivered, open_rate, click_rate, unsub, bounced.
  split; [reflexivity|]. repeat split; try apply Hor; try apply Hcr; try apply Hun;
    try apply Hbn; try assumption.
  unfold open_rate. destruct (fmin_cases o (literal 95 100)) as [[-> _]|[-> _]].
  - apply Qle_trans with base_open; assumption.
  - vm_compute. discriminate.
Qed.

Lemma simulate_persona_rates persona w :
  exists metrics,
    Perf.simulate_persona persona w = (Ok metrics, after_draws 6 w)
    /\ rates_in_range metrics.
Proof.
  destruct (simulate_persona_run persona w)
    as (sent & delivered & open_rate & click_rate & unsub & bounced & E
        & Hor & Hcr & Hun & Hbn & Hopen & Hun1 & Hun2 & Hbn1 & Hbn2).
  eexists. split; [exact E|].
  assert (H18 : nonneg_float (literal 18 100)) by (apply literal_float; lia).
  assert (H1000 : nonneg_float (literal 1 1000)) by (apply literal_float; lia).
  assert (H100 : nonneg_float (literal 1 100)) by (apply literal_float; lia).
  eexists _, _, _. split; [reflexivity|]. split; [reflexivity|]. split; [reflexivity|].
  split; [|split; split].
  - apply Qle_trans with (round_ndigits (literal 18 100) 4); [vm_compute; discriminate|].
    apply round_ndigits_mono; [apply H18|exact Hopen].
  - apply Qle_trans with (round_ndigits (literal 1 1000) 4); [vm_compute; discriminate|].
    apply round_ndigits_mono; [apply H1000|exact Hun1].
  - apply Qle_trans
      with (round_ndigits (fadd (literal 1 1000) (fsub (literal 1 100) (literal 1 1000))) 4);
      [|vm_compute; discriminate].
    apply round_ndigits_mono; [apply Hun|exact Hun2].
  - apply Qle_trans with (round_ndigits (literal 1 100) 4); [vm_compute; discriminate|].
    apply round_ndigits_mono; [apply H100|exact Hbn1].
  - apply Qle_trans
      with (round_ndigits (fadd (literal 1 100) (fsub (literal 5 100) (literal 1 100))) 4);
      [|vm_compute; discriminate].
    apply round_ndigits_mono; [apply Hbn|exact Hbn2].
Qed.

Lemma after_draws_add n m w : after_draws n (after_draws m w) = after_draws (m + n) w.
Proof.
  unfold after_draws. rewrite Nat.add_comm. symmetry. apply Nat.iter_add.
Qed.

(** The loop of the simulation keeps what holds of every record. *)
Lemma simulate_loop_inv (P : pyval -> Prop) :
  (forall persona w, exists metrics,
      Perf.simulate_persona persona w = (Ok metrics, after_draws 6 w) /\ P metrics) ->
  forall personas acc w,
  Forall (fun e => P (snd e)) acc ->
  exists performance,
    for_each personas acc
      (fun persona performance =>
         bind (Perf.simulate_persona persona)
           (fun metrics => ret (dict_set performance persona metrics))) w
    = (Ok performance, after_draws (6 * length personas) w)
    /\ Forall (fun e => P (snd e)) performance
    /\ (forall p, In p (dict_keys performance) <-> In p personas \/ In p (dict_keys acc)).
Proof.
  intros Hstep.
  induction personas as [|persona personas IH]; intros acc w Hacc; cbn [for_each].
  - exists acc. split; [reflexivity|]. split; [exact Hacc|]. cbn [In]. tauto.
  - destruct (Hstep persona w) as (metrics & E & Hm).
    unfold bind at 1. unfold bind at 1. rewrite E. unfold ret at 1.
    destruct (IH (dict_set acc persona metrics) (after_draws 6 w)
                (dict_set_Forall _ _ _ _ Hacc Hm)) as (perf & Erun & Hall & Hkeys).
    exists perf. split; [|split; [exact Hall|]].
    + rewrite Erun, after_draws_add. do 2 f_equal. cbn [length]. lia.
    + intros p. rewrite Hkeys, dict_set_keys. cbn [In]. intuition.
Qed.

End Rates.

(** The rates [simulate_performance_data] reports stay in the ranges they
    are drawn from: in every record the open rate is at least 0.18, the
    unsubscribe rate lies in 0.001..0.01 and the bounce rate in
    0.01..0.05, rounding included.  The simulation's only effect is to
    take six values per persona from the random generator. *)
Theorem simulate_performance_data_rates
  (campaign_id : PyStr.str) (personas : list PyStr.str) (w : Py.world) :
  exists performance,
    Perf.simulate_performance_data campaign_id personas w
      = (Py.Ok performance, after_draws (6 * length personas) w)
    /\ Forall (fun entry => rates_in_range (snd entry)) performance.
Proof.
  destruct (simulate_loop_inv rates_in_range simulate_persona_rates personas [] w
              (List.Forall_nil _)) as (performance & E & Hall & _).
  exists performance. split; assumption.
Qed.

(* --------------------------------------------------------------------- *)
(** ** The fallback summary *)
(* --------------------------------------------------------------------- *)





Section Fallback.
Import PyStr Py Float.
Local Open Scope Q_scope.






End Fallback.




(* --------------------------------------------------------------------- *)
(** ** Completed campaigns *)
(* --------------------------------------------------------------------- *)

Section CompletedRun.
Import PyStr Py.

(** For a campaign id that does not start with a slash, the dashboard
    looks for the campaign log where the pipeline writes it. *)
Lemma log_file_path c :
  startswith c (lit "/") = false ->
  Dashboard.log_file c = Main.campaign_filename c.
Proof.
  intros Hc. unfold Dashboard.log_file, Main.campaign_filename.
  apply path_join_relative.
  - apply startswith_slash_app; [exact Hc|discriminate|reflexivity].
  - discriminate.
  - reflexivity.
Qed.

Lemma performance_not_campaign c c' :
  Config.ANALYTICS_DIR ++ lit "/" ++ c ++ lit "_performance.json"
  <> Main.campaign_filename c'.
Proof. intros E. vm_compute in E. discriminate. Qed.

Lemma summary_not_campaign c c' :
  Main.summary_filename c <> Main.campaign_filename c'.
Proof. intros E. vm_compute in E. discriminate. Qed.

Lemma improvement_not_campaign c c' :
  Main.improvement_filename c <> Main.campaign_filename c'.
Proof. intros E. vm_compute in E. discriminate. Qed.

Lemma summary_not_performance c c' :
  Main.summary_filename c
  <> Config.ANALYTICS_DIR ++ lit "/" ++ c' ++ lit "_performance.json".
Proof.
  unfold Main.summary_filename. rewrite !(app_assoc Config.ANALYTICS_DIR).
  rewrite !app_assoc. apply rev_suffix_neq. vm_compute. discriminate.
Qed.

Lemma improvement_not_performance c c' :
  Main.improvement_filename c
  <> Config.ANALYTICS_DIR ++ lit "/" ++ c' ++ lit "_performance.json".
Proof. intros E. symmetry in E. exact (performance_not_improvement _ _ E). Qed.

(** Splits a successful run up to its next [save_json]. *)
Ltac run_to_next_save H :=
  repeat match type of H with
         | bind (Utils.save_json _ _) _ _ = (Ok _, _) => fail 1
         | bind _ _ _ = (Ok _, _) =>
             let a := fresh "a" in let w1 := fresh "w" in
             let H1 := fresh "Hstep" in
             apply bind_ok in H; destruct H as [a [w1 [H1 H]]]
         end.

(** A completed run of the dashboard's pipeline leaves the campaign log
    and the performance file on disk and marks the campaign completed. *)
Lemma pipeline_body_artifacts campaign_id topic generate_variations w w' :
  Dashboard.pipeline_body campaign_id topic generate_variations w = (Ok tt, w') ->
  is_Some (fs w' !! Main.campaign_filename campaign_id)
  /\ is_Some (fs w' !! (Config.ANALYTICS_DIR ++ lit "/" ++ campaign_id
                          ++ lit "_performance.json"))
  /\ exists entry,
       dict_get (running_pipelines w') campaign_id = Some (VDict entry)
       /\ dict_get entry (lit "status") = Some (VStr (lit "completed")).
Proof.
  unfold Dashboard.pipeline_body. intros H. run_to_next_save H.
  apply bind_ok in H as [[] [w_content [_ H]]].
  run_to_next_save H.
  apply bind_ok in H as [[] [w_log [Hlog H]]].
  apply save_json_ok in Hlog as [log_bytes [_ Hlog]].
  apply bind_ok in H as [performance_data [w_sim [Hsim H]]].
  apply bind_ok in H as [path [w_perf [Hstore H]]].
  assert (Hperf : exists perf_bytes,
             file_at (Config.ANALYTICS_DIR ++ lit "/" ++ campaign_id
                        ++ lit "_performance.json") w_perf = Some perf_bytes).
  { unfold Perf.store_performance_data in Hstore.
    apply bind_ok in Hstore as [ts [w_ts [_ Hstore]]].
    apply bind_ok in Hstore as [[] [w_saved [Hsaved Hstore]]].
    apply ret_ok in Hstore as [_ ->].
    apply save_json_ok in Hsaved as [perf_bytes [_ Hsaved]].
    exists perf_bytes. exact Hsaved. }
  destruct Hperf as [perf_bytes Hperf].
  assert (Hlog_perf : file_at (Main.campaign_filename campaign_id) w_perf
                      = Some log_bytes).
  { rewrite <- Hlog.
    rewrite (preserves_step _ _ _ _ _
               (file_store_performance_data _ campaign_id performance_data
                  (performance_not_campaign _ _)) Hstore).
    exact (preserves_step _ _ _ _ _
             (inert_simulate_performance_data _ (inert_file_at _) _ _) Hsim). }
  split; [|split].
  - exists log_bytes. change (file_at (Main.campaign_filename campaign_id) w' = Some log_bytes).
    rewrite <- Hlog_perf. revert H. apply preserves_step.
    pipeline_frames (Main.campaign_filename campaign_id).
    pose proof (fun v c => file_save_json _ v _ (summary_not_campaign c campaign_id)).
    pose proof (fun v c => file_save_json _ v _ (improvement_not_campaign c campaign_id)).
    keeps.
  - exists perf_bytes.
    match goal with
    | |- fs w' !! ?q = _ => change (file_at q w' = Some perf_bytes)
    end.
    rewrite <- Hperf. revert H. apply preserves_step.
    match goal with |- preserves (file_at ?q) _ => pipeline_frames q end.
    pose proof (fun v c => file_save_json _ v _ (summary_not_performance c campaign_id)).
    pose proof (fun v c => file_save_json _ v _ (improvement_not_performance c campaign_id)).
    keeps.
  - run_ok H. unfold set_status in H. inversion H; subst; clear H.
    cbn [running_pipelines]. rewrite dict_get_set_eq.
    eexists. split; reflexivity.
Qed.

End CompletedRun.

(** A campaign that the status table marks completed after its run can be
    viewed.  When [run_pipeline_async] has returned and the table's entry
    for the campaign id says [completed] (the id not starting with a
    slash), the status view redirects to the detail view, the detail view
    finds the campaign log and the performance API finds the performance
    file: neither answers 404. *)
Theorem completed_campaign_is_viewable
  (campaign_id topic : PyStr.str) (generate_variations : bool) (w : Py.world) :
  let w' := snd (Dashboard.run_pipeline_async campaign_id topic generate_variations w) in
  PyStr.startswith campaign_id (PyStr.lit "/") = false ->
  (exists entry,
     Py.dict_get (Py.running_pipelines w') campaign_id = Some entry
     /\ Dashboard.is_completed entry = Py.Ok true) ->
  Dashboard.campaign_status campaign_id w' = (Py.Ok (Dashboard.RedirectToDetail campaign_id), w')
  /\ fst (Dashboard.campaign_detail campaign_id w')
     <> Py.Ok (Dashboard.Text (PyStr.lit "Campaign not found") 404)
  /\ fst (Dashboard.api_performance campaign_id w')
     <> Py.Ok (Dashboard.Jsonify
                 (Py.VDict [ (PyStr.lit "error",
                              Py.VStr (PyStr.lit "Performance data not found")) ]) 404).
Proof.
  cbv zeta. intros Hslash (entry & Hentry & Hcompleted).
  revert Hentry. unfold Dashboard.run_pipeline_async, Py.try_except.
  destruct (Dashboard.pipeline_body campaign_id topic generate_variations w)
    as [[[]|e] w'] eqn:E; cbn [snd].
  - intros Hentry.
    destruct (pipeline_body_artifacts _ _ _ _ _ E) as (Hlog & Hperf & _).
    rewrite <- (log_file_path campaign_id Hslash) in Hlog.
    rewrite <- (performance_file_path campaign_id Hslash) in Hperf.
    split; [|split].
    + unfold Dashboard.campaign_status, Py.bind, Py.get_status. rewrite Hentry.
      unfold Py.lift. rewrite Hcompleted. unfold Py.path_exists.
      rewrite (bool_decide_eq_true_2 _ Hlog). reflexivity.
    + unfold Dashboard.campaign_detail, Py.bind at 1, Py.path_exists at 1.
      rewrite (bool_decide_eq_true_2 _ Hlog). cbn [negb].
      intros Hnot.
      match type of Hnot with
      | fst (?m w') = _ => destruct (m w') as [r w''] eqn:Er
      end.
      cbn [fst] in Hnot. subst r. run_ok Er. apply ret_ok in Er as [Er _].
      discriminate Er.
    + unfold Dashboard.api_performance, Py.bind at 1, Py.path_exists at 1.
      rewrite (bool_decide_eq_true_2 _ Hperf). cbn [negb].
      intros Hnot.
      match type of Hnot with
      | fst (?m w') = _ => destruct (m w') as [r w''] eqn:Er
      end.
      cbn [fst] in Hnot. subst r. run_ok Er. apply ret_ok in Er as [Er _].
      discriminate Er.
  - unfold Py.bind, Utils.format_timestamp, Py.bind, Py.now, Py.ret, Py.set_status.
    cbn [snd Py.running_pipelines]. rewrite dict_get_set_eq.
    intros [= <-]. discriminate Hcompleted.
Qed.

(** The offline world with one campaign queued in the status table, as
    [create_campaign] leaves it when it starts the run. *)
Definition queued_world : Py.world :=
  snd (Py.set_status (PyStr.lit "campaign_20250101_120000")
         (Py.VDict [ (PyStr.lit "status", Py.VStr (PyStr.lit "starting"));
                     (PyStr.lit "topic", Py.VStr (PyStr.lit "AI")) ])
         offline_world).

(** The queued campaign, run offline, completes and can be viewed. *)
Lemma completed_campaign_is_viewable_witness :
  let campaign_id := PyStr.lit "campaign_20250101_120000" in
  let w' := snd (Dashboard.run_pipeline_async campaign_id (PyStr.lit "AI") true
                   queued_world) in
  Dashboard.campaign_status campaign_id w' = (Py.Ok (Dashboard.RedirectToDetail campaign_id), w')
  /\ fst (Dashboard.campaign_detail campaign_id w')
     <> Py.Ok (Dashboard.Text (PyStr.lit "Campaign not found") 404)
  /\ fst (Dashboard.api_performance campaign_id w')
     <> Py.Ok (Dashboard.Jsonify
                 (Py.VDict [ (PyStr.lit "error",
                              Py.VStr (PyStr.lit "Performance data not found")) ]) 404).
Proof.
  cbv zeta.
  apply (completed_campaign_is_viewable (PyStr.lit "campaign_20250101_120000")
           (PyStr.lit "AI") true queued_world).
  - reflexivity.
  - eexists. split; vm_compute; reflexivity.
Defined.

(* --------------------------------------------------------------------- *)
(** ** Creating a campaign *)
(* --------------------------------------------------------------------- *)

(** A form field that holds no topic: absent, empty or blanks only. *)
Definition blank (field : option PyStr.str) : Prop :=
  match field with
  | None => True
  | Some topic => PyStr.strip topic = []
  end.

(** [create_campaign] starts nothing for a blank topic: a POST whose topic
    field is absent, empty or blanks only gets the form back with an error
    and leaves the status table, the clock and the files as they were.
    For any other topic it registers the campaign as [starting], with the
    topic, under the id it takes from the clock, starts the run with that
    id, the topic unstripped and the variations flag (set exactly by the
    field value [on]), and redirects to the status view, where the status
    API finds the entry. *)
Theorem create_campaign_registers
  (form_topic form_variations : option PyStr.str) (w : Py.world) :
  (blank form_topic ->
   Dashboard.create_campaign (PyStr.lit "POST") form_topic form_variations w
   = (Py.Ok (Dashboard.Page (Dashboard.Template (PyStr.lit "create.html")
                           [ (PyStr.lit "error",
                              Py.VStr (PyStr.lit "Please enter a topic")) ]),
             None), w))
  /\ (forall topic,
        form_topic = Some topic -> PyStr.strip topic <> [] ->
        exists w' entry,
          let campaign_id :=
            PyStr.lit "campaign_" ++ Py.strftime_id (Py.clock w (Py.clock_n w)) in
          Dashboard.create_campaign (PyStr.lit "POST") form_topic form_variations w
          = (Py.Ok (Dashboard.RedirectToStatus campaign_id,
                    Some (campaign_id, topic,
                          bool_decide (form_variations = Some (PyStr.lit "on")))),
             w')
          /\ Dashboard.api_status campaign_id w'
             = (Py.Ok (Dashboard.Jsonify (Py.VDict entry) 200), w')
          /\ Py.dict_get entry (PyStr.lit "status")
             = Some (Py.VStr (PyStr.lit "starting"))
          /\ Py.dict_get entry (PyStr.lit "topic") = Some (Py.VStr topic)
          /\ Py.fs w' = Py.fs w).
Proof.
  split.
  - intros Hblank. unfold Dashboard.create_campaign.
    unfold PyStr.str_eqb at 1. rewrite bool_decide_eq_true_2 by reflexivity.
    destruct form_topic as [topic|]; [|reflexivity].
    cbn [blank] in Hblank. rewrite (bool_decide_eq_true_2 (PyStr.strip topic = []))
      by exact Hblank.
    rewrite orb_true_r. reflexivity.
  - intros topic -> Hstrip. unfold Dashboard.create_campaign.
    unfold PyStr.str_eqb at 1. rewrite bool_decide_eq_true_2 by reflexivity.
    assert (Hne : topic <> []) by (intros ->; apply Hstrip; reflexivity).
    rewrite (bool_decide_eq_false_2 _ Hne), (bool_decide_eq_false_2 _ Hstrip).
    cbn [orb].
    assert (Hflag : match form_variations with
                    | Some v => PyStr.str_eqb v (PyStr.lit "on")
                    | None => false
                    end = bool_decide (form_variations = Some (PyStr.lit "on"))).
    { destruct form_variations as [v|].
      - unfold PyStr.str_eqb. apply bool_decide_ext. split; congruence.
      - symmetry. apply bool_decide_eq_false_2. discriminate. }
    rewrite Hflag.
    unfold Py.bind, Utils.generate_campaign_id, Py.bind, Py.now, Py.ret, Py.set_status.
    cbn [snd fst Py.clock Py.clock_n Py.running_pipelines].
    eexists _, _. cbv zeta. split; [reflexivity|].
    split; [|split; [|split]].
    + unfold Dashboard.api_status, Py.bind, Py.get_status. cbn [Py.running_pipelines].
      rewrite dict_get_set_eq. reflexivity.
    + reflexivity.
    + reflexivity.
    + reflexivity.
Qed.

(** A topic of blanks is refused; the topic [AI], with the variations
    box ticked, is registered. *)
Lemma create_campaign_registers_witness :
  Dashboard.create_campaign (PyStr.lit "POST") (Some (PyStr.lit "   ")) None offline_world
  = (Py.Ok (Dashboard.Page (Dashboard.Template (PyStr.lit "create.html")
                          [ (PyStr.lit "error",
                             Py.VStr (PyStr.lit "Please enter a topic")) ]),
            None), offline_world)
  /\ exists w' entry,
       Dashboard.create_campaign (PyStr.lit "POST") (Some (PyStr.lit "AI"))
         (Some (PyStr.lit "on")) offline_world
       = (Py.Ok (Dashboard.RedirectToStatus (PyStr.lit "campaign_20250101_120000"),
                 Some (PyStr.lit "campaign_20250101_120000", PyStr.lit "AI", true)),
          w')
       /\ Dashboard.api_status (PyStr.lit "campaign_20250101_120000") w'
          = (Py.Ok (Dashboard.Jsonify (Py.VDict entry) 200), w')
       /\ Py.dict_get entry (PyStr.lit "status") = Some (Py.VStr (PyStr.lit "starting"))
       /\ Py.dict_get entry (PyStr.lit "topic") = Some (Py.VStr (PyStr.lit "AI"))
       /\ Py.fs w' = Py.fs offline_world.
Proof.
  split.
  - apply (proj1 (create_campaign_registers (Some (PyStr.lit "   ")) None offline_world)).
    reflexivity.
  - apply (proj2 (create_campaign_registers (Some (PyStr.lit "AI"))
                    (Some (PyStr.lit "on")) offline_world) (PyStr.lit "AI"));
      [reflexivity|discriminate].
Defined.

(* --------------------------------------------------------------------- *)
(** ** The offline run *)
(* --------------------------------------------------------------------- *)

(** What a run without services finds: the CRM client in mock mode, a
    language model that never answers, and a clock whose texts can be
    written to a file. *)
Definition offline (w : Py.world) : Prop :=
  Py.mock_mode w = true
  /\ (forall n, Py.llm w n = None)
  /\ (forall n, forallb valid_char (Py.isoformat (Py.clock w n)) = true
                /\ forallb valid_char (Py.strftime_id (Py.clock w n)) = true).

(** The part of the world [offline] speaks of. *)
Definition services (w : Py.world) : bool * (nat -> option PyStr.str) * (nat -> Py.datetime) :=
  (Py.mock_mode w, Py.llm w, Py.clock w).

(** A computation that, started offline, returns a value that satisfies
    [Q], and leaves the world offline. *)
Definition succeeds {A} (m : Py.M A) (Q : A -> Prop) : Prop :=
  forall w, offline w ->
    exists a w', m w = (Py.Ok a, w') /\ offline w' /\ Q a.

Section Succeeds.
Import PyStr Py.

Lemma offline_services w w' : services w' = services w -> offline w -> offline w'.
Proof.
  unfold services, offline. intros [= Hm Hl Hc]. rewrite Hm, Hl, Hc. tauto.
Qed.

Lemma inert_services : inert services.
Proof.
  repeat split; try (intros w; reflexivity).
  intros p w. unfold read_file. destruct (fs w !! p); reflexivity.
Qed.







Lemma succeeds_weaken {A} (m : M A) (Q R : A -> Prop) :
  succeeds m Q -> (forall a, Q a -> R a) -> succeeds m R.
Proof.
  intros Hm HQR w Hw. destruct (Hm w Hw) as (a & w1 & E & Hw1 & Ha).
  exists a, w1. split; [exact E|]. split; [exact Hw1|apply HQR, Ha].
Qed.

(** A computation that leaves the services alone succeeds as soon as it
    returns. *)
Lemma succeeds_from {A} (m : M A) (Q : A -> Prop) :
  preserves services m ->
  (forall w, offline w -> exists a, fst (m w) = Ok a /\ Q a) ->
  succeeds m Q.
Proof.
  intros Hp Hr w Hw. destruct (Hr w Hw) as (a & E & Ha). specialize (Hp w).
  destruct (m w) as [r w1]. cbn [fst snd] in *. subst r.
  exists a, w1. split; [reflexivity|]. split; [|exact Ha].
  eapply offline_services; eassumption.
Qed.

End Succeeds.

Section Texts.
Import PyStr Py.

Lemma lit_valid s : forallb valid_char (lit s) = true.
Proof.
  unfold lit. induction (list_ascii_of_string s) as [|c l IH]; [reflexivity|].
  cbn [List.map forallb]. rewrite IH, andb_true_r.
  pose proof (N_ascii_bounded c) as Hc. unfold valid_char.
  apply andb_true_iff. split.
  - apply N.ltb_lt. lia.
  - apply negb_true_iff, andb_false_iff. left. apply N.leb_gt. lia.
Qed.

Lemma valid_app a b :
  forallb valid_char a = true -> forallb valid_char b = true ->
  forallb valid_char (a ++ b) = true.
Proof. intros Ha Hb. rewrite forallb_app, Ha, Hb. reflexivity. Qed.




End Texts.

Section WellFormed.
Import PyStr Py.









End WellFormed.



Section Components.
Import PyStr Py.




Lemma succeeds_generate_campaign_id :
  succeeds Utils.generate_campaign_id (fun cid => forallb valid_char cid = true).
Proof.
  apply succeeds_from; [apply inert_generate_campaign_id, inert_services|].
  intros w (_ & _ & Hc). eexists. split; [reflexivity|].
  apply valid_app; [apply lit_valid|apply Hc].
Qed.

































End Components.




Section OfflineRun.
Import PyStr Py.







End OfflineRun.



Section OfflineDashboard.
Import PyStr Py.



End OfflineDashboard.



(* --------------------------------------------------------------------- *)
(** ** Contacts in the CRM *)
(* --------------------------------------------------------------------- *)

(** A mock contact response for [email]: its id is [mock_] and a number
    below 10000, its properties are the given ones with the email, and it
    is marked [mock]. *)
Definition mock_contact_for (email : PyStr.str) (properties : Py.dict)
    (result : Py.pyval) : Prop :=
  exists n created updated,
    result =
      Py.VDict [ (PyStr.lit "id", Py.VStr (PyStr.lit "mock_" ++ Py.str_of_Z n));
                 (PyStr.lit "properties",
                  Py.VDict (CRM.with_email email properties));
                 (PyStr.lit "createdAt", Py.VStr created);
                 (PyStr.lit "updatedAt", Py.VStr updated);
                 (PyStr.lit "mock", Py.VBool true) ]
    /\ (0 <= n < 10000)%Z.

Section Contacts.
Import PyStr Py.
Variable py_hash : str -> Z.

Lemma mock_contact_response_run email properties w :
  exists result,
    CRM.mock_contact_response py_hash email properties w
    = (Ok result, snd (now (snd (now w))))
    /\ mock_contact_for email properties result.
Proof.
  eexists. split; [reflexivity|].
  eexists (Z.abs (py_hash email) mod 10000)%Z, _, _. split; [reflexivity|].
  apply Z.mod_pos_bound. lia.
Qed.

Lemma get_contact_by_email_run email w :
  exists id w',
    CRM.get_contact_by_email py_hash email w = (Ok id, w')
    /\ mock_mode w' = mock_mode w
    /\ (http_n w <= http_n w' <= http_n w + 1)%nat.
Proof.
  unfold CRM.get_contact_by_email, bind, get_mock_mode, http_request.
  destruct (mock_mode w) eqn:Em.
  - eexists _, _. split; [reflexivity|]. split; [exact Em|lia].
  - destruct (http w (http_n w)) as [status [results|]|];
      [destruct (CRM.is_http_error status)| |];
      (eexists _, _; split; [reflexivity|]; cbn [mock_mode http_n]; split; [exact Em|lia]).
Qed.

Lemma update_contact_run contact_id properties w :
  exists result w',
    CRM.update_contact py_hash contact_id properties w = (Ok result, w')
    /\ mock_mode w' = mock_mode w
    /\ (http_n w <= http_n w' <= http_n w + 1)%nat.
Proof.
  unfold CRM.update_contact, bind, get_mock_mode, str_of, http_request.
  destruct (mock_mode w) eqn:Em.
  - eexists _, _. split; [reflexivity|]. split; [exact Em|cbn; lia].
  - destruct (http w (http_n w)) as [status [j|]|];
      [destruct (CRM.is_http_error status)| |];
      (eexists _, _; split; [reflexivity|]; cbn [mock_mode http_n snd];
       split; [exact Em|cbn; lia]).
Qed.

End Contacts.

(** [create_or_update_contact] never raises, whatever the replies, and
    makes at most three requests (create, search, update).  In mock mode
    it makes none and returns a mock response.  A 401 answer to the create
    request switches the client to mock mode, after that one request, and
    a mock response is returned; after any other answer a live client is
    still live. *)
Theorem create_or_update_contact_modes
  (py_hash : PyStr.str -> Z) (email : PyStr.str) (properties : Py.dict) (w : Py.world) :
  exists result w',
    CRM.create_or_update_contact py_hash email properties w = (Py.Ok result, w')
    /\ (Py.http_n w <= Py.http_n w' <= Py.http_n w + 3)%nat
    /\ (Py.mock_mode w = true ->
        Py.http_n w' = Py.http_n w /\ Py.mock_mode w' = true
        /\ mock_contact_for email properties result)
    /\ (Py.mock_mode w = false ->
        forall body, Py.http w (Py.http_n w) = Py.Response 401 body ->
        Py.http_n w' = S (Py.http_n w) /\ Py.mock_mode w' = true
        /\ mock_contact_for email properties result)
    /\ (Py.mock_mode w = false ->
        (forall body, Py.http w (Py.http_n w) <> Py.Response 401 body) ->
        Py.mock_mode w' = false).
Proof.
  unfold CRM.create_or_update_contact.
  unfold Py.bind at 1, Py.get_mock_mode at 1.
  destruct (Py.mock_mode w) eqn:Em.
  - destruct (mock_contact_response_run py_hash email properties w) as (result & E & Hr).
    eexists result, _. split; [exact E|]. cbn [Py.http_n Py.mock_mode Py.now snd].
    split; [lia|]. split; [intros _; tauto|]. split; discriminate.
  - unfold Py.bind at 1, Py.http_request at 1.
    set (w1 := Py.mkWorld _ _ _ (S (Py.http_n w)) _ _ _ _ _ _ _ _ _ _).
    assert (Hw1 : Py.http_n w1 = S (Py.http_n w) /\ Py.mock_mode w1 = false)
      by (split; [reflexivity|exact Em]).
    assert (Hmock : exists result,
               CRM.mock_contact_response py_hash email properties w1
               = (Py.Ok result, snd (Py.now (snd (Py.now w1))))
               /\ mock_contact_for email properties result)
      by apply mock_contact_response_run.
    destruct Hmock as (mock_result & Emock & Hmock).
    destruct (Py.http w (Py.http_n w)) as [status body|] eqn:Ereply.
    + destruct (status =? 409)%Z eqn:E409.
      * destruct (get_contact_by_email_run py_hash email w1) as (id & w2 & E2 & Hm2 & Hn2).
        destruct (update_contact_run py_hash id properties w2) as (r & w3 & E3 & Hm3 & Hn3).
        exists r, w3. unfold Py.bind. rewrite E2. split; [exact E3|].
        destruct Hw1 as [Hn1 Hm1].
        split; [lia|]. split; [discriminate|]. split.
        -- intros _ body' [= -> _]. discriminate E409.
        -- intros _ _. rewrite Hm3, Hm2. exact Hm1.
      * destruct (CRM.is_http_error status) eqn:Eerr.
        -- destruct (status =? 401)%Z eqn:E401.
           ++ unfold Py.bind at 1, Py.set_mock_mode at 1.
              destruct (mock_contact_response_run py_hash email properties
                          (Py.mkWorld (Py.env_hubspot_key w1) true (Py.http w1) (Py.http_n w1)
                             (Py.rng w1) (Py.rng_n w1) (Py.clock w1) (Py.clock_n w1)
                             (Py.llm w1) (Py.llm_n w1) (Py.fs w1) (Py.running_pipelines w1)
                             (Py.ucd_alnum w1) (Py.py_repr w1)))
                as (result & E & Hr).
              eexists result, _. split; [exact E|].
              cbn [Py.http_n Py.mock_mode Py.now snd]. split; [lia|].
              split; [discriminate|]. split; [intros _ _ _; tauto|].
              intros _ Hnot. exfalso. apply Z.eqb_eq in E401. subst status.
              exact (Hnot body eq_refl).
           ++ eexists mock_result, _. split; [exact Emock|].
              cbn [Py.http_n Py.mock_mode Py.now snd]. split; [lia|].
              split; [discriminate|]. split.
              ** intros _ body' [= -> _]. discriminate E401.
              ** intros _ _. exact Em.
        -- assert (H401 : forall body', Py.Response status body <> Py.Response 401 body').
           { intros body' [= -> _]. discriminate Eerr. }
           destruct body as [j|].
           ++ exists j, w1. split; [reflexivity|]. split; [lia|].
              split; [discriminate|]. split.
              ** intros _ body' E. exfalso. exact (H401 _ E).
              ** intros _ _. exact Em.
           ++ eexists mock_result, _. split; [exact Emock|].
              cbn [Py.http_n Py.mock_mode Py.now snd]. split; [lia|].
              split; [discriminate|]. split.
              ** intros _ body' E. exfalso. exact (H401 _ E).
              ** intros _ _. exact Em.
    + eexists mock_result, _. split; [exact Emock|].
      cbn [Py.http_n Py.mock_mode Py.now snd]. split; [lia|].
      split; [discriminate|]. split; [discriminate|]. intros _ _. exact Em.
Qed.

(** A live client whose create request is refused with a 401. *)
Lemma create_or_update_contact_modes_witness :
  let py_hash := fun s : PyStr.str => Z.of_nat (length s) in
  let email := PyStr.lit "sam@example.com" in
  let properties := [ (PyStr.lit "firstname", Py.VStr (PyStr.lit "Sam")) ] in
  let w := snd (Py.http_request (snd (CRM.init refusing_world))) in
  exists result w',
    CRM.create_or_update_contact py_hash email properties w = (Py.Ok result, w')
    /\ Py.http_n w' = S (Py.http_n w) /\ Py.mock_mode w' = true
    /\ mock_contact_for email properties result.
Proof.
  cbv zeta.
  destruct (create_or_update_contact_modes
              (fun s : PyStr.str => Z.of_nat (length s)) (PyStr.lit "sam@example.com")
              [ (PyStr.lit "firstname", Py.VStr (PyStr.lit "Sam")) ]
              (snd (Py.http_request (snd (CRM.init refusing_world)))))
    as (result & w' & E & _ & _ & H401 & _).
  exists result, w'. split; [exact E|]. exact (H401 eq_refl None eq_refl).
Defined.

(* --------------------------------------------------------------------- *)
(** ** Variations *)
(* --------------------------------------------------------------------- *)



(* --------------------------------------------------------------------- *)
(** ** The campaign page *)
(* --------------------------------------------------------------------- *)

Section CampaignPage.
Import PyStr Py.










End CampaignPage.



(* --------------------------------------------------------------------- *)
(** ** The performance summary *)
(* --------------------------------------------------------------------- *)



Section Summary.
Import PyStr Py.



End Summary.





(* --------------------------------------------------------------------- *)
(** ** Requests of a run *)
(* --------------------------------------------------------------------- *)

(** [m] sends at most [k] requests, and what it returns satisfies [Q]. *)
Definition sends {A} (k : nat) (m : Py.M A) (Q : A -> Prop) : Prop :=
  forall w,
    (Py.http_n w <= Py.http_n (snd (m w)) <= Py.http_n w + k)%nat
    /\ (forall a, fst (m w) = Py.Ok a -> Q a).

Section Requests.
Import PyStr Py.

Lemma sends_weaken {A} k k' (m : M A) (Q Q' : A -> Prop) :
  (k <= k')%nat -> (forall a, Q a -> Q' a) -> sends k m Q -> sends k' m Q'.
Proof.
  intros Hk HQ Hm w. destruct (Hm w) as [Hn Ha]. split; [lia|].
  intros a E. apply HQ, Ha, E.
Qed.

Lemma sends_keep {A} (m : M A) : preserves http_n m -> sends 0 m (fun _ => True).
Proof. intros Hm w. rewrite (Hm w). split; [lia|]. intros; exact I. Qed.

Lemma sends_ret {A} k (a : A) (Q : A -> Prop) : Q a -> sends k (ret a) Q.
Proof.
  intros Ha w. cbn. split; [lia|]. intros a' [= <-]. exact Ha.
Qed.

Lemma sends_bind {A B} k1 k2 (m : M A) (f : A -> M B) (Q : A -> Prop) (R : B -> Prop) :
  sends k1 m Q -> (forall a, Q a -> sends k2 (f a) R) -> sends (k1 + k2) (bind m f) R.
Proof.
  intros Hm Hf w. unfold bind. destruct (Hm w) as [Hn Ha].
  destruct (m w) as [[a|e] w1]; cbn [fst snd] in *.
  - destruct (Hf a (Ha a eq_refl) w1) as [Hn1 Hb]. split; [lia|exact Hb].
  - split; [lia|]. intros b E. discriminate E.
Qed.

(** After a step that sends nothing. *)
Lemma sends_after {A B} k (m : M A) (f : A -> M B) (Q : A -> Prop) (R : B -> Prop) :
  sends 0 m Q -> (forall a, Q a -> sends k (f a) R) -> sends k (bind m f) R.
Proof. intros Hm Hf. exact (sends_bind 0 k m f Q R Hm Hf). Qed.

Lemma sends_then {A B} k (m : M A) (f : A -> M B) (R : B -> Prop) :
  preserves http_n m -> (forall a, sends k (f a) R) -> sends k (bind m f) R.
Proof.
  intros Hm Hf. apply (sends_after k m f (fun _ => True)); [apply sends_keep, Hm|].
  intros a _. apply Hf.
Qed.

Lemma sends_lift {A B} k (r : result A) (f : A -> M B) (R : B -> Prop) :
  (forall a, r = Ok a -> sends k (f a) R) -> sends k (bind (lift r) f) R.
Proof.
  intros Hf. apply (sends_after k _ f (fun a => r = Ok a)); [|exact Hf].
  intros w. cbn. split; [lia|]. intros a E. exact E.
Qed.

Lemma sends_try_except {A} k (m : M A) (h : exn -> M A) (Q : A -> Prop) :
  sends k m Q -> (forall e, preserves http_n (h e)) ->
  sends k (try_except m h) (fun _ => True).
Proof.
  intros Hm Hh w. unfold try_except. destruct (Hm w) as [Hn _].
  destruct (m w) as [[a|e] w1]; cbn [snd] in *.
  - split; [exact Hn|]. intros; exact I.
  - rewrite (Hh e w1). split; [exact Hn|]. intros; exact I.
Qed.

Lemma sends_http_request : sends 1 http_request (fun _ => True).
Proof. intros w. cbn. split; [lia|]. intros; exact I. Qed.

Lemma http_n_init : preserves http_n CRM.init.
Proof. intros w. reflexivity. Qed.

Lemma http_n_set_status c v : preserves http_n (set_status c v).
Proof. intros w. reflexivity. Qed.

(** The probe is one request at most. *)
Lemma sends_check_marketing_access :
  sends 1 CRM.check_marketing_access (fun _ => True).
Proof.
  unfold CRM.check_marketing_access.
  apply sends_then; [intros w; reflexivity|]. intros [|].
  - apply sends_ret. exact I.
  - apply (sends_bind 1 0 _ _ (fun _ => True)); [exact sends_http_request|].
    intros [status body|] _; apply sends_ret; exact I.
Qed.

(** The loop of [send_campaign] sends one request per newsletter at most. *)
Lemma sends_send_loop campaign_data todo :
  forall results,
    sends (length todo) (CRM.send_loop campaign_data todo results) (fun _ => True).
Proof.
  pose proof offline_inert_http_n as Hoff.
  pose proof (offline_mock_campaign_response _ Hoff) as Hresponse.
  pose proof (offline_mock_campaign_distribution _ Hoff) as Hdistribution.
  induction todo as [|[persona newsletter] todo IH]; intros results.
  - apply sends_ret. exact I.
  - cbn [CRM.send_loop length].
    apply sends_then; [unfold CRM.payload_lookups; keeps|]. intros _.
    apply (sends_bind 1 (length todo) _ _ (fun _ => True)); [exact sends_http_request|].
    intros [status body|] _.
    + destruct (CRM.is_http_error status).
      * destruct ((status =? 401) || (status =? 403))%Z.
        -- apply (sends_weaken 0 _ _ (fun _ => True)); [lia|auto|].
           apply sends_keep, Hdistribution.
        -- apply sends_then; [apply Hresponse|]. intros m. apply IH.
      * destruct body as [j|]; [apply IH|].
        apply sends_then; [apply Hresponse|]. intros m. apply IH.
    + apply sends_then; [apply Hresponse|]. intros m. apply IH.
Qed.

(** [send_campaign] sends the probe and one request per newsletter at
    most. *)
Lemma sends_send_campaign campaign_data n :
  (forall nls, getitem campaign_data (lit "newsletters") = Ok (VDict nls) ->
               (length nls <= n)%nat) ->
  sends (S n) (CRM.send_campaign campaign_data) (fun _ => True).
Proof.
  intros Hlen. unfold CRM.send_campaign.
  apply (sends_bind 1 n _ _ (fun _ => True)); [exact sends_check_marketing_access|].
  intros can_use_marketing _.
  apply sends_then; [intros w; reflexivity|]. intros mock.
  destruct (mock || negb can_use_marketing).
  - apply (sends_weaken 0 _ _ (fun _ => True)); [lia|auto|].
    apply sends_keep, (offline_mock_campaign_distribution _ offline_inert_http_n).
  - apply sends_lift. intros newsletters Hnewsletters.
    apply sends_lift. intros nls Hitems.
    destruct newsletters as [| | | | | |d]; try discriminate Hitems.
    injection Hitems as ->.
    apply (sends_weaken (length nls) _ _ (fun _ => True));
      [exact (Hlen nls Hnewsletters)|auto|apply sends_send_loop].
Qed.

(** A dict grows by one entry at most when a key is set. *)
Lemma dict_set_length (d : dict) k v : (length (dict_set d k v) <= S (length d))%nat.
Proof.
  induction d as [|[k' v'] d IH]; cbn [dict_set length]; [lia|].
  destruct (str_eqb k' k); cbn [length]; lia.
Qed.

Lemma sends_newsletters_loop blog_data todo :
  forall acc,
    sends 0
      (for_each todo acc
         (fun '(persona_key, persona_info) newsletters =>
            let* newsletter_data := ContentGen.newsletter_for blog_data persona_info in
            ret (dict_set newsletters persona_key newsletter_data)))
      (fun newsletters => (length newsletters <= length acc + length todo)%nat).
Proof.
  induction todo as [|[key info] todo IH]; intros acc; cbn [for_each length].
  - apply sends_ret. lia.
  - apply (sends_after 0 _ _ (fun d => (length d <= S (length acc))%nat)).
    + apply sends_then;
        [apply (offline_newsletter_for _ offline_inert_http_n)|].
      intros newsletter_data. apply sends_ret. apply dict_set_length.
    + intros d Hd. eapply sends_weaken; [reflexivity| |apply IH].
      cbn beta. intros newsletters. lia.
Qed.

(** [generate_persona_newsletters] sends nothing and returns three
    newsletters at most. *)
Lemma sends_generate_persona_newsletters blog_data :
  sends 0 (ContentGen.generate_persona_newsletters blog_data)
    (fun newsletters => (length newsletters <= 3)%nat).
Proof. exact (sends_newsletters_loop blog_data Config.PERSONAS []). Qed.

End Requests.

(** Collects what is known to keep the count of requests. *)
Ltac request_frames :=
  pose proof offline_inert_http_n as Hoff;
  pose proof http_n_init;
  pose proof http_n_set_status;
  pose proof (offline_generate_campaign_id _ Hoff);
  pose proof (offline_format_timestamp _ Hoff);
  pose proof (offline_save_json _ Hoff);
  pose proof (offline_generate_blog_post _ Hoff);
  pose proof (offline_generate_variations _ Hoff);
  pose proof (offline_suggest_improvements _ Hoff);
  pose proof (offline_subject_lines _ Hoff);
  pose proof (offline_create_mock_contacts _ Hoff);
  pose proof (offline_log_campaign _ Hoff);
  pose proof (offline_simulate_performance_data _ Hoff);
  pose proof (offline_store_performance_data _ Hoff);
  pose proof (offline_generate_performance_summary _ Hoff);
  destruct Hoff as (? & ? & ? & ? & ? & ? & ? & ? & ? & ? & ?).

(** Steps over the binds that send nothing. *)
Ltac quiet_steps :=
  repeat (apply sends_then; [solve [keeps]|intros]).

(** A run sends five requests to HubSpot at most, whatever the replies and
    whether it completes or raises: the probe of [send_campaign], one
    request per newsletter (three at most), and the probe that
    [run_pipeline] makes for its report.  The dashboard's run makes no
    second probe and sends four at most. *)
Theorem run_pipeline_requests_bounded
  (campaign_id topic : PyStr.str) (use_mock_contacts generate_variations : bool)
  (w : Py.world) :
  (Py.http_n w
   <= Py.http_n (snd (Main.run_pipeline topic use_mock_contacts generate_variations w))
   <= Py.http_n w + 5)%nat
  /\ (Py.http_n w
      <= Py.http_n (snd (Dashboard.run_pipeline_async campaign_id topic
                           generate_variations w))
      <= Py.http_n w + 4)%nat.
Proof.
  split.
  - assert (H : sends 5 (Main.run_pipeline topic use_mock_contacts generate_variations)
                  (fun _ => True)); [|exact (proj1 (H w))].
    unfold Main.run_pipeline. request_frames. quiet_steps.
    eapply sends_after; [apply sends_generate_persona_newsletters|].
    intros newsletters Hlen. quiet_steps.
    apply (sends_bind 4 1 _ _ (fun _ => True)).
    { apply sends_send_campaign. intros nls [= <-]. exact Hlen. }
    intros distribution_results _. quiet_steps.
    apply (sends_bind 1 0 _ _ (fun _ => True)).
    { match goal with
      | |- sends _ (if ?b then _ else _) _ => destruct b
      end.
      - apply sends_ret. exact I.
      - apply (sends_bind 1 0 _ _ (fun _ => True));
          [exact sends_check_marketing_access|].
        intros ok _. apply sends_ret. exact I. }
    intros simulated _. quiet_steps. apply sends_ret. exact I.
  - assert (H : sends 4 (Dashboard.run_pipeline_async campaign_id topic
                           generate_variations) (fun _ => True));
      [|exact (proj1 (H w))].
    unfold Dashboard.run_pipeline_async. request_frames.
    apply (sends_try_except 4 _ _ (fun _ => True)); [|intros e; keeps].
    unfold Dashboard.pipeline_body. quiet_steps.
    eapply sends_after; [apply sends_generate_persona_newsletters|].
    intros newsletters Hlen. quiet_steps.
    apply (sends_bind 4 0 _ _ (fun _ => True)).
    { apply sends_send_campaign. intros nls [= <-]. exact Hlen. }
    intros distribution_results _. quiet_steps.
    apply sends_keep. keeps.
Qed.

(** A world with a usable key in which HubSpot accepts every request and
    the language model is silent. *)
Definition granting_world : Py.world :=
  {| Py.env_hubspot_key := Some (PyStr.lit "pat-na1-0123456789abcdef");
     Py.mock_mode := false;
     Py.http := fun _ => Py.Response 200 (Some (Py.VDict []));  Py.http_n := 0;
     Py.rng := fun n => (N.of_nat n * 7919 + 13)%N;  Py.rng_n := 0;
     Py.clock := fun _ => noon;  Py.clock_n := 0;
     Py.llm := fun _ => None;  Py.llm_n := 0;
     Py.fs := ∅;
     Py.running_pipelines := [];
     Py.ucd_alnum := fun _ => false;
     Py.py_repr := fun _ => [] |}.

(** The bound is reached: with Marketing Hub access a completed run has
    sent five requests. *)
Example run_pipeline_reaches_five_requests :
  is_ok (fst (Main.run_pipeline (PyStr.lit "AI") true false granting_world)) = true
  /\ Py.http_n (snd (Main.run_pipeline (PyStr.lit "AI") true false granting_world))
     = 5%nat.
Proof. split; vm_compute; reflexivity. Qed.

(* --------------------------------------------------------------------- *)
(** ** The result of a run *)
(* --------------------------------------------------------------------- *)

Section Report.
Import PyStr Py.

(** The loop that prints the subject lines returns only when every
    newsletter has one. *)
Lemma subject_lines_ok newsletters w w' :
  Main.subject_lines newsletters w = (Ok tt, w') ->
  forall persona newsletter,
    In (persona, newsletter) newsletters ->
    exists subject, getitem newsletter (lit "subject_line") = Ok subject.
Proof.
  unfold Main.subject_lines. revert w.
  induction newsletters as [|[p nl] newsletters IH]; intros w Hrun persona newsletter Hin.
  - destruct Hin.
  - cbn [for_each] in Hrun. apply bind_ok in Hrun as ([] & w1 & Hstep & Hrun).
    apply bind_ok in Hstep as (subject & w2 & Hstep & _).
    apply lift_ok in Hstep as [Hstep _].
    destruct Hin as [[= <- <-]|Hin].
    + exists subject. exact Hstep.
    + exact (IH w1 Hrun persona newsletter Hin).
Qed.

(** A run that did not raise, as its result and its final world. *)
Lemma returned {A} (r : result A * world) (default : A) :
  is_ok (fst r) = true ->
  r = (Ok (match fst r with Ok a => a | Raise _ => default end), snd r).
Proof. destruct r as [[a|e] w1]; [reflexivity|discriminate]. Qed.

End Report.

(** What [run_pipeline] returns has passed the lookups of its report.
    Whenever [run_pipeline] returns, the post it returns has a title and a
    string content, every newsletter has a subject line, and the summary
    has highlights, a persona comparison and iterable recommendations and
    next topics, whatever the language model replied; the [mock_mode]
    entry is the client's mode at the end of the run. *)
Theorem run_pipeline_result_checked
  (topic : PyStr.str) (use_mock_contacts generate_variations : bool)
  (w w' : Py.world) (result : Py.pyval) :
  Main.run_pipeline topic use_mock_contacts generate_variations w = (Py.Ok result, w') ->
  exists campaign_id blog_data newsletters performance_data summary,
    result = Py.VDict [ (PyStr.lit "campaign_id", Py.VStr campaign_id);
                        (PyStr.lit "blog_data", blog_data);
                        (PyStr.lit "newsletters", Py.VDict newsletters);
                        (PyStr.lit "performance", Py.VDict performance_data);
                        (PyStr.lit "summary", summary);
                        (PyStr.lit "mock_mode", Py.VBool (Py.mock_mode w')) ]
    /\ (exists title content,
          Py.getitem blog_data (PyStr.lit "title") = Py.Ok title
          /\ Py.getitem blog_data (PyStr.lit "content") = Py.Ok (Py.VStr content))
    /\ (forall persona newsletter,
          In (persona, newsletter) newsletters ->
          exists subject,
            Py.getitem newsletter (PyStr.lit "subject_line") = Py.Ok subject)
    /\ (exists highlights comparison recommendations next_topics,
          Py.getitem summary (PyStr.lit "highlights") = Py.Ok highlights
          /\ Py.getitem summary (PyStr.lit "persona_comparison") = Py.Ok comparison
          /\ Py.getitem summary (PyStr.lit "recommendations") = Py.Ok recommendations
          /\ Main.iterable recommendations = Py.Ok tt
          /\ Py.getitem summary (PyStr.lit "next_topics") = Py.Ok next_topics
          /\ Main.iterable next_topics = Py.Ok tt).
Proof.
  intros Hrun. unfold Main.run_pipeline in Hrun.
  apply bind_ok in Hrun as ([] & w1 & _ & Hrun).
  apply bind_ok in Hrun as (campaign_id & w2 & _ & Hrun).
  apply bind_ok in Hrun as (blog_data & w3 & _ & Hrun).
  apply bind_ok in Hrun as (title & w4 & Htitle & Hrun).
  apply lift_ok in Htitle as [Htitle _].
  apply bind_ok in Hrun as (content & w5 & Hcontent & Hrun).
  apply lift_ok in Hcontent as [Hcontent _].
  apply bind_ok in Hrun as ([] & w6 & Hsplit & Hrun).
  apply lift_ok in Hsplit as [Hsplit _].
  apply bind_ok in Hrun as (variations & w7 & _ & Hrun).
  apply bind_ok in Hrun as (newsletters & w8 & _ & Hrun).
  apply bind_ok in Hrun as ([] & w9 & Hsubjects & Hrun).
  do 4 (apply bind_ok in Hrun as (? & ? & _ & Hrun)).
  do 2 (apply bind_ok in Hrun as (? & ? & _ & Hrun)).
  apply bind_ok in Hrun as (distribution_results & ? & _ & Hrun).
  do 3 (apply bind_ok in Hrun as (? & ? & _ & Hrun)).
  do 2 (apply bind_ok in Hrun as (? & ? & _ & Hrun)).
  apply bind_ok in Hrun as (performance_data & ? & _ & Hrun).
  apply bind_ok in Hrun as (? & ? & _ & Hrun).
  apply bind_ok in Hrun as (summary & ? & _ & Hrun).
  apply bind_ok in Hrun as (highlights & ? & Hhighlights & Hrun).
  apply lift_ok in Hhighlights as [Hhighlights _].
  apply bind_ok in Hrun as (comparison & ? & Hcomparison & Hrun).
  apply lift_ok in Hcomparison as [Hcomparison _].
  apply bind_ok in Hrun as (recommendations & ? & Hrecommendations & Hrun).
  apply lift_ok in Hrecommendations as [Hrecommendations _].
  apply bind_ok in Hrun as ([] & ? & Hiter1 & Hrun).
  apply lift_ok in Hiter1 as [Hiter1 _].
  apply bind_ok in Hrun as (next_topics & ? & Hnext & Hrun).
  apply lift_ok in Hnext as [Hnext _].
  apply bind_ok in Hrun as ([] & ? & Hiter2 & Hrun).
  apply lift_ok in Hiter2 as [Hiter2 _].
  do 2 (apply bind_ok in Hrun as (? & ? & _ & Hrun)).
  apply bind_ok in Hrun as (mock & wm & Hmock & Hrun).
  apply ret_ok in Hrun as [-> ->].
  injection Hmock as <- <-.
  exists campaign_id, blog_data, newsletters, performance_data, summary.
  split; [reflexivity|]. split; [|split].
  - destruct content as [| | | |text| |]; try discriminate Hsplit.
    exists title, text. split; assumption.
  - exact (subject_lines_ok _ _ _ Hsubjects).
  - exists highlights, comparison, recommendations, next_topics. tauto.
Qed.

(** The run on the topic [AI] in the offline world, and its result. *)
Local Abbreviation offline_run :=
  (Main.run_pipeline (PyStr.lit "AI") true false offline_world).

Local Abbreviation offline_run_result :=
  (match fst offline_run with
   | Py.Ok result => result
   | Py.Raise _ => Py.VNone
   end).

(** The offline run returns, and what it returns has the entries of the
    report. *)
Lemma run_pipeline_result_checked_witness :
  offline_run = (Py.Ok offline_run_result, snd offline_run)
  /\ exists campaign_id blog_data newsletters performance_data summary,
       offline_run_result
       = Py.VDict [ (PyStr.lit "campaign_id", Py.VStr campaign_id);
                    (PyStr.lit "blog_data", blog_data);
                    (PyStr.lit "newsletters", Py.VDict newsletters);
                    (PyStr.lit "performance", Py.VDict performance_data);
                    (PyStr.lit "summary", summary);
                    (PyStr.lit "mock_mode", Py.VBool (Py.mock_mode (snd offline_run))) ]
       /\ (exists title content,
             Py.getitem blog_data (PyStr.lit "title") = Py.Ok title
             /\ Py.getitem blog_data (PyStr.lit "content") = Py.Ok (Py.VStr content))
       /\ (forall persona newsletter,
             In (persona, newsletter) newsletters ->
             exists subject,
               Py.getitem newsletter (PyStr.lit "subject_line") = Py.Ok subject)
       /\ (exists highlights comparison recommendations next_topics,
             Py.getitem summary (PyStr.lit "highlights") = Py.Ok highlights
             /\ Py.getitem summary (PyStr.lit "persona_comparison") = Py.Ok comparison
             /\ Py.getitem summary (PyStr.lit "recommendations") = Py.Ok recommendations
             /\ Main.iterable recommendations = Py.Ok tt
             /\ Py.getitem summary (PyStr.lit "next_topics") = Py.Ok next_topics
             /\ Main.iterable next_topics = Py.Ok tt).
Proof.
  assert (Hok : is_ok (fst offline_run) = true) by (vm_compute; reflexivity).
  pose proof (returned offline_run Py.VNone Hok) as E.
  split; [exact E|].
  exact (run_pipeline_result_checked (PyStr.lit "AI") true false offline_world
           (snd offline_run) offline_run_result E).
Defined.
